(** * inkscape-figure-manager: root registry, command builder, recompilation
      pipeline and watch daemon

    A shallow embedding of the two entry points of the repository,
    [src/inkscapefigures/main.py] (module [Figures] below) and [src/main.py]
    (module [Main] below), together with the part of the Python library they
    rest on ([str] methods, [re.findall], [int], list comparison, [pathlib]).

    Conventions of the embedding.
    - A Python [str] is a [string]: the bytes of its UTF-8 encoding, and
      for a file name the bytes of the name, which Python decodes with
      [surrogateescape].  The functions that split, join, replace and search
      do so at ASCII characters (digits, [.], [/], [_], [-], line breaks),
      which is the same on the bytes.  [title], [lower], [strip] and [lstrip]
      below know the ASCII letters and blanks only: they are the Python
      methods on ASCII text, and every theorem that rests on one of their
      laws is stated for ASCII text ([Py.isascii]).
    - Text files are read and written in UTF-8, the encoding of the locale:
      [read_text] raises on content that is not valid UTF-8, [write_text] on
      a text that cannot be encoded ([Py.utf8_valid]).  The registry file,
      when it exists, can be read and written by the process.
    - A Python [int] is a [Z].
    - A call that can raise returns a [result]; effects (logging, child
      processes, clipboard, inotify calls) are recorded in a trace, in program
      order, by the monad [Eff].
    - What lies outside the repository (the converter, the clipboard, the
      kernel's answer to a watch request, the content of the registry file)
      is a parameter: the record [World] and the value [RootsFile]. *)

From Stdlib Require Import String Ascii List ZArith Lia Bool.
From Stdlib Require QArith Sorted.
From stdpp Require Import base strings gmap list.

(** ** Results and exceptions *)

Inductive exn : Type :=
| IndexError
| ValueError
| FileNotFoundError
| UnicodeDecodeError
| UnicodeEncodeError
| CalledProcessError (returncode : Z)
| OtherError (name : string).

Inductive result (A : Type) : Type :=
| Ok (a : A)
| Raise (e : exn).
Arguments Ok {A} a.
Arguments Raise {A} e.

Definition is_ok {A} (r : result A) : bool :=
  match r with Ok _ => true | Raise _ => false end.

(** ** The Python builtins used by the program *)

Module Py.

Definition LF : ascii := "010"%char.
Definition CR : ascii := "013"%char.
Definition nl : string := String LF "".

Definition is_digit (c : ascii) : bool :=
  let n := nat_of_ascii c in (48 <=? n)%nat && (n <=? 57)%nat.

Definition is_upper (c : ascii) : bool :=
  let n := nat_of_ascii c in (65 <=? n)%nat && (n <=? 90)%nat.

Definition is_lower (c : ascii) : bool :=
  let n := nat_of_ascii c in (97 <=? n)%nat && (n <=? 122)%nat.

Definition is_cased (c : ascii) : bool := is_upper c || is_lower c.

(** [str.isspace] on the ASCII range: tab, line feed, vertical tab, form
    feed, carriage return, the four separators 0x1c..0x1f and the blank. *)
Definition is_space (c : ascii) : bool :=
  let n := nat_of_ascii c in
  ((9 <=? n)%nat && (n <=? 13)%nat) || ((28 <=? n)%nat && (n <=? 32)%nat).

Definition to_lower (c : ascii) : ascii :=
  if is_upper c then ascii_of_nat (nat_of_ascii c + 32) else c.

Definition to_upper (c : ascii) : ascii :=
  if is_lower c then ascii_of_nat (nat_of_ascii c - 32) else c.

Fixpoint map_chars (f : ascii -> ascii) (s : string) : string :=
  match s with
  | EmptyString => EmptyString
  | String c s' => String (f c) (map_chars f s')
  end.

(** [s.replace(old, new)] for one-character [old] and [new]. *)
Definition replace (old new : ascii) (s : string) : string :=
  map_chars (fun c => if Ascii.eqb c old then new else c) s.

(** [s.lower()] on ASCII text: the letters [A]..[Z] are mapped, every
    other byte is kept. *)
Definition lower (s : string) : string := map_chars to_lower s.

(** [s.title()] on ASCII text: a cased character is upper-cased when the
    character before it is not cased, and lower-cased otherwise; the cased
    characters are the ASCII letters. *)
Fixpoint title_from (previous_is_cased : bool) (s : string) : string :=
  match s with
  | EmptyString => EmptyString
  | String c s' =>
      String (if previous_is_cased then to_lower c else to_upper c)
             (title_from (is_cased c) s')
  end.

Definition title (s : string) : string := title_from false s.

(** [s.split(sep)] for a one-character separator: never the empty list. *)
Fixpoint split (sep : ascii) (s : string) : list string :=
  match s with
  | EmptyString => [EmptyString]
  | String c s' =>
      if Ascii.eqb c sep then EmptyString :: split sep s'
      else match split sep s' with
           | [] => [String c EmptyString]
           | w :: ws => String c w :: ws
           end
  end.

(** [sep.join(l)] *)
Definition join (sep : string) (l : list string) : string :=
  String.concat sep l.

Fixpoint lstrip_by (p : ascii -> bool) (s : string) : string :=
  match s with
  | EmptyString => EmptyString
  | String c s' => if p c then lstrip_by p s' else s
  end.

Fixpoint rstrip_by (p : ascii -> bool) (s : string) : string :=
  match s with
  | EmptyString => EmptyString
  | String c s' =>
      match rstrip_by p s' with
      | EmptyString => if p c then EmptyString else String c EmptyString
      | r => String c r
      end
  end.

(** [s.strip()] on ASCII text: the blanks removed at both ends are the
    ASCII ones of [is_space]. *)
Definition strip (s : string) : string :=
  rstrip_by is_space (lstrip_by is_space s).

(** [s.rfind(c)]: the index of the last occurrence; [None] stands for -1. *)
Fixpoint rfind (c : ascii) (s : string) : option nat :=
  match s with
  | EmptyString => None
  | String a s' =>
      match rfind c s' with
      | Some i => Some (S i)
      | None => if Ascii.eqb a c then Some 0%nat else None
      end
  end.

(** The character class of the pattern [[0-9.]+]. *)
Definition is_version_char (c : ascii) : bool :=
  is_digit c || Ascii.eqb c "."%char.

(** [re.findall(r"[0-9.]+", s)]: the maximal runs of digits and dots, from
    left to right.  [cur] is the run being read, if any. *)
Fixpoint findall_from (cur : option string) (s : string) : list string :=
  match s with
  | EmptyString => match cur with Some r => [r] | None => [] end
  | String c s' =>
      if is_version_char c then
        findall_from (Some (match cur with
                            | Some r => r +:+ String c EmptyString
                            | None => String c EmptyString
                            end)) s'
      else match cur with
           | Some r => r :: findall_from None s'
           | None => findall_from None s'
           end
  end.

Definition findall (s : string) : list string := findall_from None s.

(** [l[0]] *)
Definition index0 {A} (l : list A) : result A :=
  match l with
  | [] => Raise IndexError
  | x :: _ => Ok x
  end.

Definition digit_value (c : ascii) : Z := Z.of_nat (nat_of_ascii c - 48).

Fixpoint int_digits (acc : Z) (s : string) : option Z :=
  match s with
  | EmptyString => Some acc
  | String c s' =>
      if is_digit c then int_digits (10 * acc + digit_value c) s' else None
  end.

(** CPython refuses to convert a decimal string of more than
    [max_str_digits] digits ([sys.get_int_max_str_digits()], 4300 by default
    since 3.11, 0 for no limit); strings of at most 640 digits are never
    refused. *)
Definition over_digit_limit (max_str_digits : nat) (s : string) : bool :=
  (0 <? max_str_digits)%nat && (max_str_digits <? String.length s)%nat
  && (640 <? String.length s)%nat.

(** [int(s)] on the strings the program passes to it: sequences of decimal
    digits, possibly empty (see [split_version_parts_digits] below).  The
    empty string raises [ValueError]. *)
Definition int (max_str_digits : nat) (s : string) : result Z :=
  match s with
  | EmptyString => Raise ValueError
  | _ =>
      if over_digit_limit max_str_digits s then Raise ValueError
      else match int_digits 0 s with
           | Some n => Ok n
           | None => Raise ValueError
           end
  end.

(** [[f(x) for x in l]] when [f] can raise: the first exception wins. *)
Fixpoint map_result {A B} (f : A -> result B) (l : list A) : result (list B) :=
  match l with
  | [] => Ok []
  | x :: l' =>
      match f x with
      | Raise e => Raise e
      | Ok y => match map_result f l' with
                | Raise e => Raise e
                | Ok ys => Ok (y :: ys)
                end
      end
  end.

(** [a < b] on lists of integers: the first differing position decides, and
    a proper prefix is smaller. *)
Fixpoint list_lt (a b : list Z) : bool :=
  match a, b with
  | _, [] => false
  | [], _ :: _ => true
  | x :: a', y :: b' => if (x =? y)%Z then list_lt a' b' else (x <? y)%Z
  end.

(** [text.read()] of a file opened in text mode with the default
    [newline=None]: ["\r\n"] and a lone ["\r"] are read as ["\n"]. *)
Fixpoint universal_newlines (s : string) : string :=
  match s with
  | EmptyString => EmptyString
  | String c s' =>
      if Ascii.eqb c CR then
        match s' with
        | String c' s'' =>
            if Ascii.eqb c' LF then String LF (universal_newlines s'')
            else String LF (universal_newlines s')
        | EmptyString => String LF EmptyString
        end
      else String c (universal_newlines s')
  end.

Definition not_cr (c : ascii) : bool := negb (Ascii.eqb c CR).
Definition not_lf (c : ascii) : bool := negb (Ascii.eqb c LF).

(** Every character of [s] satisfies [p]. *)
Fixpoint forall_chars (p : ascii -> bool) (s : string) : bool :=
  match s with
  | EmptyString => true
  | String c s' => p c && forall_chars p s'
  end.

(** Some character of [s] satisfies [p]. *)
Fixpoint exists_chars (p : ascii -> bool) (s : string) : bool :=
  match s with
  | EmptyString => false
  | String c s' => p c || exists_chars p s'
  end.

(** The longest prefix of [s] whose characters satisfy [p]. *)
Fixpoint take_while (p : ascii -> bool) (s : string) : string :=
  match s with
  | EmptyString => EmptyString
  | String c s' => if p c then String c (take_while p s') else EmptyString
  end.

(** The first run of digits and dots of [s]: what the specification calls
    the version string.  It is empty when [s] has no digit and no dot. *)
Definition first_run (s : string) : string :=
  take_while is_version_char (lstrip_by (fun c => negb (is_version_char c)) s).

Definition has_version_char (s : string) : bool :=
  exists_chars is_version_char s.

(** The digit strings that [int] converts: not empty, within the limit. *)
Definition int_accepts (max_str_digits : nat) (s : string) : bool :=
  negb (String.eqb s "") && negb (over_digit_limit max_str_digits s).

(** The version texts that can be read: there is a run of digits and dots,
    and [int] converts each of its dot-separated pieces. *)
Definition readable_version (max_str_digits : nat) (s : string) : bool :=
  has_version_char s
  && forallb (int_accepts max_str_digits) (split "." (first_run s)).

(** The numeric tuple in the specification's words: the first run of digits
    and dots, split on the dot, every piece read as a number, padded with
    zeros to three components.  [None] when there is no run or some piece is
    not a number. *)
Definition spec_version_tuple (max_str_digits : nat) (s : string)
  : option (list Z) :=
  if has_version_char s then
    match map_result (int max_str_digits) (split "." (first_run s)) with
    | Ok m => Some (m ++ repeat 0%Z (3 - length m))
    | Raise _ => None
    end
  else None.

(** Every piece of the first match has at most 640 digits. *)
Definition short_version (s : string) : bool :=
  forallb (fun part => (String.length part <=? 640)%nat)
          (match findall s with
           | r :: _ => split "." r
           | [] => []
           end).

(** [s.lstrip()] on ASCII text *)
Definition lstrip (s : string) : string := lstrip_by is_space s.

(** [s.isascii()] *)
Definition isascii (s : string) : bool :=
  forall_chars (fun c => (nat_of_ascii c <? 128)%nat) s.

(** The UTF-8 codec with [errors="strict"], as an automaton over the bytes.
    The state says what the bytes seen so far leave open: nothing, or the
    continuation bytes of a character, with the narrower range that the
    first of them has after [E0], [ED], [F0] and [F4] (no overlong form, no
    surrogate, nothing above U+10FFFF). *)
Inductive utf8_state : Type :=
| Utf8Start
| Utf8Tail1
| Utf8Tail2
| Utf8Tail2_E0
| Utf8Tail2_ED
| Utf8Tail3
| Utf8Tail3_F0
| Utf8Tail3_F4.

Definition utf8_step (s : utf8_state) (c : ascii) : option utf8_state :=
  let n := nat_of_ascii c in
  let between (lo hi : nat) := (lo <=? n)%nat && (n <=? hi)%nat in
  match s with
  | Utf8Start =>
      if between 0 127 then Some Utf8Start
      else if between 194 223 then Some Utf8Tail1
      else if between 224 224 then Some Utf8Tail2_E0
      else if between 237 237 then Some Utf8Tail2_ED
      else if between 225 239 then Some Utf8Tail2
      else if between 240 240 then Some Utf8Tail3_F0
      else if between 241 243 then Some Utf8Tail3
      else if between 244 244 then Some Utf8Tail3_F4
      else None
  | Utf8Tail1 => if between 128 191 then Some Utf8Start else None
  | Utf8Tail2 => if between 128 191 then Some Utf8Tail1 else None
  | Utf8Tail2_E0 => if between 160 191 then Some Utf8Tail1 else None
  | Utf8Tail2_ED => if between 128 159 then Some Utf8Tail1 else None
  | Utf8Tail3 => if between 128 191 then Some Utf8Tail2 else None
  | Utf8Tail3_F0 => if between 144 191 then Some Utf8Tail2 else None
  | Utf8Tail3_F4 => if between 128 143 then Some Utf8Tail2 else None
  end.

Fixpoint utf8_run (s : utf8_state) (text : string) : bool :=
  match text with
  | EmptyString => match s with Utf8Start => true | _ => false end
  | String c text' =>
      match utf8_step s c with
      | Some s' => utf8_run s' text'
      | None => false
      end
  end.

(** The byte strings that [bytes.decode("utf-8")] accepts; on the side of
    [str], the texts that [str.encode("utf-8")] accepts, which are the ones
    without an escaped byte. *)
Definition utf8_valid (text : string) : bool := utf8_run Utf8Start text.

(** [len(s)] *)
Definition len (s : string) : Z := Z.of_nat (String.length s).

(** [c * n] for a one-character string [c]: empty when [n] is not
    positive. *)
Definition repeat_char (c : ascii) (n : Z) : string :=
  string_of_list_ascii (repeat c (Z.to_nat n)).

(** [l.index(x)]: the position of the first element equal to [x];
    [ValueError] when there is none. *)
Fixpoint index (x : string) (l : list string) : result Z :=
  match l with
  | [] => Raise ValueError
  | y :: l' =>
      if String.eqb y x then Ok 0%Z
      else match index x l' with
           | Ok i => Ok (i + 1)%Z
           | Raise e => Raise e
           end
  end.

(** [l[i]] for an integer [i]: a negative index counts from the end, and an
    index out of range raises [IndexError]. *)
Definition getitem {A} (l : list A) (i : Z) : result A :=
  let n := Z.of_nat (length l) in
  let j := if (i <? 0)%Z then (i + n)%Z else i in
  if (0 <=? j)%Z && (j <? n)%Z then
    match nth_error l (Z.to_nat j) with
    | Some x => Ok x
    | None => Raise IndexError
    end
  else Raise IndexError.

(** One step of a stable sort by decreasing key: [x] goes before the first
    element whose key is not greater than its own. *)
Fixpoint insert_reverse {A} (x : QArith_base.Q * A) (l : list (QArith_base.Q * A))
  : list (QArith_base.Q * A) :=
  match l with
  | [] => [x]
  | y :: l' =>
      if QArith_base.Qle_bool (fst y) (fst x) then x :: y :: l'
      else y :: insert_reverse x l'
  end.

(** [sorted(l, key=..., reverse=True)] on elements paired with their keys:
    by decreasing key, elements with equal keys in their original order. *)
Definition sorted_reverse {A} (l : list (QArith_base.Q * A)) : list A :=
  map snd (fold_right insert_reverse [] l).

(** Lexicographic order on integer lists, as a relation. *)
Inductive lex_lt : list Z -> list Z -> Prop :=
| lex_lt_nil y b : lex_lt [] (y :: b)
| lex_lt_head x a y b : (x < y)%Z -> lex_lt (x :: a) (y :: b)
| lex_lt_tail x a b : lex_lt a b -> lex_lt (x :: a) (x :: b).

End Py.

(** ** [pathlib.PurePosixPath] *)

Module Pathlib.

(** A parsed path: the root (empty, ["/"] or ["//"]) and the components
    after it. *)
Record PurePath : Type := { root : string; parts : list string }.

Definition is_component (x : string) : bool :=
  negb (String.eqb x "") && negb (String.eqb x ".").

(** [Path(s)]: leading slashes make the root (exactly two give ["//"]);
    empty components and ["."] are dropped. *)
Definition parse (s : string) : PurePath :=
  let rel := Py.lstrip_by (fun c => Ascii.eqb c "/"%char) s in
  let slashes := (String.length s - String.length rel)%nat in
  {| root := if (slashes =? 0)%nat then ""
             else if (slashes =? 2)%nat then "//" else "/";
     parts := List.filter is_component (Py.split "/"%char rel) |}.

(** [str(p)] *)
Definition str (p : PurePath) : string :=
  if String.eqb (root p) "" then
    match parts p with
    | [] => "."
    | _ => Py.join "/" (parts p)
    end
  else root p +:+ Py.join "/" (parts p).

(** [p.name] *)
Definition name (p : PurePath) : string := List.last (parts p) "".

(** [p.suffix]: from the last dot of the name, unless that dot is the first
    or the last character (pathlib of Python 3.4 to 3.13). *)
Definition suffix (p : PurePath) : string :=
  let n := name p in
  match Py.rfind "."%char n with
  | Some i =>
      if (0 <? i)%nat && (i <? String.length n - 1)%nat
      then String.substring i (String.length n - i) n
      else ""
  | None => ""
  end.

(** [p.stem] *)
Definition stem (p : PurePath) : string :=
  let n := name p in
  match Py.rfind "."%char n with
  | Some i =>
      if (0 <? i)%nat && (i <? String.length n - 1)%nat
      then String.substring 0 i n
      else n
  | None => n
  end.

(** [p.parent] *)
Definition parent (p : PurePath) : PurePath :=
  match parts p with
  | [] => p
  | _ => {| root := root p; parts := removelast (parts p) |}
  end.

(** [p / s] for a [str] [s]: an absolute right operand replaces [p]. *)
Definition joinpath (p : PurePath) (s : string) : PurePath :=
  let q := parse s in
  if String.eqb (root q) "" then
    {| root := root p; parts := parts p ++ parts q |}
  else q.

(** [p.absolute()] when the working directory is [cwd]: a relative path
    is put under the working directory, without any normalisation. *)
Definition absolute (cwd : string) (p : PurePath) : PurePath :=
  if String.eqb (root p) "" then
    {| root := root (parse cwd); parts := parts (parse cwd) ++ parts p |}
  else p.

(** The paths that parsing and joining produce: no component is empty, is
    ["."] or holds a slash. *)
Definition well_formed (p : PurePath) : Prop :=
  Forall (fun x => is_component x = true
                   /\ Py.forall_chars (fun c => negb (Ascii.eqb c "/"%char)) x = true)
         (parts p).

(** A value that is either a [str] or a path object: what [Path(...)],
    [subprocess.run] and [str(...)] accept. *)
Inductive pathlike : Type :=
| Str (s : string)
| PathObj (p : PurePath).

(** [Path(x)] *)
Definition Path (x : pathlike) : PurePath :=
  match x with
  | Str s => parse s
  | PathObj p => p
  end.

(** [str(x)] *)
Definition to_str (x : pathlike) : string :=
  match x with
  | Str s => s
  | PathObj p => str p
  end.

End Pathlib.

(** ** Effects *)

Inductive level : Type := DEBUG | INFO | ERROR.

(** An argument of a logging call, before formatting. *)
Inductive logarg : Type :=
| LStr (s : string)
| LPath (p : Pathlib.PurePath)
| LInt (n : Z).

(** The message of a logging call: a format string with its arguments
    ([log.info("Recompiling %s", filepath)]), or a text indented by
    [textwrap.indent(text, prefix)]. *)
Inductive logmsg : Type :=
| Fmt (fmt : string) (args : list logarg)
| Indent (text prefix : string).

(** What the program does to the outside, in program order. *)
Inductive effect : Type :=
| Log (lvl : level) (msg : logmsg)
| CheckOutput (argv : list string)
| Run (command : list Pathlib.pathlike)
| ClipboardCopy (text : string)
| InotifyInit
| AddWatch (path : string)
| RemoveWatch (path : string)
| Popen (argv : list string)
| Terminate
| WriteText (data : string).

(** The answers of the outside: the converter and the other child processes,
    the clipboard, the kernel's inotify calls, and the interpreter's limit on
    [int]. *)
Record World : Type := {
  check_output : list string -> result string;
  run : list Pathlib.pathlike -> result Z;
  pyperclip_copy : string -> result unit;
  inotify_init : result unit;
  inotify_add_watch : string -> result Z;
  inotify_rm_watch : string -> result unit;
  popen : list string -> result unit;
  int_max_str_digits : nat
}.

(** The registry's backing file: [None] when it does not exist, otherwise
    its content. *)
Definition RootsFile : Type := option string.

Definition Eff (A : Type) : Type := (list effect * result A)%type.

Definition ret {A} (a : A) : Eff A := ([], Ok a).

Definition bind {A B} (m : Eff A) (k : A -> Eff B) : Eff B :=
  match m with
  | (t, Ok a) => let (t', r) := k a in (t ++ t', r)
  | (t, Raise e) => (t, Raise e)
  end.

(** A pure computation that can raise. *)
Definition lift {A} (r : result A) : Eff A := ([], r).

(** One call to the outside: recorded, then answered. *)
Definition perform {A} (e : effect) (r : result A) : Eff A := ([e], r).

Definition log (lvl : level) (msg : logmsg) : Eff unit :=
  perform (Log lvl msg) (Ok tt).

(** [try: m except Exception: handler] *)
Definition try_except {A} (m : Eff A) (handler : Eff A) : Eff A :=
  match m with
  | (t, Ok a) => (t, Ok a)
  | (t, Raise _) => let (t', r) := handler in (t ++ t', r)
  end.

#[global] Instance Eff_ret : MRet Eff := @ret.
#[global] Instance Eff_bind : MBind Eff := fun A B k m => bind m k.

(** [roots_file.read_text()]: the content, decoded and with its line breaks
    read as line feeds.  It raises when the file does not exist and when the
    content cannot be decoded. *)
Definition read_text (f : RootsFile) : result string :=
  match f with
  | None => Raise FileNotFoundError
  | Some data =>
      if Py.utf8_valid data then Ok (Py.universal_newlines data)
      else Raise UnicodeDecodeError
  end.

(** [roots_file.write_text(data)]: the file is opened for writing, which
    empties it, then the text is encoded and written.  When the text cannot
    be encoded the call raises and the file stays empty.  [WriteText]
    records the content the call leaves in the file; the result is the file
    after the call. *)
Definition write_text (data : string) : Eff RootsFile :=
  if Py.utf8_valid data then perform (WriteText data) (Ok (Some data))
  else perform (WriteText "") (Raise UnicodeEncodeError).

(** The registry file after the effects of a trace. *)
Fixpoint registry_after (t : list effect) (f : RootsFile) : RootsFile :=
  match t with
  | [] => f
  | WriteText data :: t' => registry_after t' (Some data)
  | _ :: t' => registry_after t' f
  end.

Definition trace {A} (m : Eff A) : list effect := fst m.
Definition outcome {A} (m : Eff A) : result A := snd m.

(** The calls that start the converter: the version probe and the export. *)
Definition is_converter_invocation (e : effect) : bool :=
  match e with
  | CheckOutput _ | Run _ => true
  | _ => false
  end.

Definition converter_invocations (t : list effect) : list effect :=
  List.filter is_converter_invocation t.

(** The snippets handed to the clipboard. *)
Fixpoint snippets (t : list effect) : list string :=
  match t with
  | [] => []
  | ClipboardCopy s :: t' => s :: snippets t'
  | _ :: t' => snippets t'
  end.

(** The debug record of a refused watch (line 214 of
    [src/inkscapefigures/main.py]). *)
Definition could_not_add (root : string) : logmsg :=
  Fmt "Could not add root %s" [LStr root].

(** The paths for which a watch was requested. *)
Fixpoint watch_requests (t : list effect) : list string :=
  match t with
  | [] => []
  | AddWatch path :: t' => path :: watch_requests t'
  | _ :: t' => watch_requests t'
  end.

(** The log records of a trace at a given level. *)
Fixpoint logged (lvl : level) (t : list effect) : list logmsg :=
  match t with
  | [] => []
  | Log l m :: t' =>
      match lvl, l with
      | DEBUG, DEBUG | INFO, INFO | ERROR, ERROR => m :: logged lvl t'
      | _, _ => logged lvl t'
      end
  | _ :: t' => logged lvl t'
  end.

(** The paths whose watch the program asked to remove. *)
Fixpoint remove_requests (t : list effect) : list string :=
  match t with
  | [] => []
  | RemoveWatch path :: t' => path :: remove_requests t'
  | _ :: t' => remove_requests t'
  end.

(** The debug record that follows the removal of a watch (lines 224 and 226
    of [src/inkscapefigures/main.py]). *)
Definition removal_record (removed : bool) (root : string) : logmsg :=
  if removed then Fmt "Removed root %s" [LStr root]
  else Fmt "Could not remove root %s" [LStr root].

(** The inotify instance of the [inotify] package, at its interface: the
    path-to-handle table. *)
Record Inotify : Type := { watches : gmap string Z }.

(** [inotify.adapters.Inotify()] *)
Definition Inotify_new (w : World) : Eff Inotify :=
  perform InotifyInit
    (match inotify_init w with
     | Ok _ => Ok {| watches := ∅ |}
     | Raise e => Raise e
     end).

(** [i.add_watch(path, mask=IN_CLOSE_WRITE)]: raises when the kernel refuses
    the watch, otherwise records the handle. *)
Definition add_watch (w : World) (path : string) (i : Inotify) : Eff Inotify :=
  perform (AddWatch path)
    (match inotify_add_watch w path with
     | Ok wd => Ok {| watches := <[path := wd]> (watches i) |}
     | Raise e => Raise e
     end).

(** [i.remove_watch(path)] *)
Definition remove_watch (w : World) (path : string) (i : Inotify) : Eff Inotify :=
  perform (RemoveWatch path)
    (match inotify_rm_watch w path with
     | Ok _ => Ok {| watches := delete path (watches i) |}
     | Raise e => Raise e
     end).

(** An event of [i.event_gen(yield_nones=False)]:
    [(header, type_names, path, filename)], of which the program reads the
    last two. *)
Record Event : Type := {
  type_names : list string;
  event_path : string;
  event_filename : string
}.

(** The outside at the moment an event is delivered. *)
Record Tick (E : Type) : Type := {
  tick_world : World;
  tick_roots_file : RootsFile;
  tick_event : E
}.
Arguments tick_world {E} t.
Arguments tick_roots_file {E} t.
Arguments tick_event {E} t.

(** How the body of the event loop ends. *)
Inductive control : Type := Continue | Break.

#[global] Instance result_ret : MRet result := @Ok.
#[global] Instance result_bind : MBind result := fun A B k r =>
  match r with
  | Ok a => k a
  | Raise e => Raise e
  end.

(** ** The effects of the commands

    The commands [create] and [edit] also print, create directories, copy
    files and run the picker; their traces hold these on top of the effects
    above. *)

Inductive cli_effect : Type :=
| Shared (e : effect)
| Print (text : string)
| Mkdir (path : string)
| CopyFile (source destination : string)
| Rofi (args : list string) (input : string).

(** The answers of the host to the commands: the working directory, which
    paths exist, the outcome of [mkdir] and of [shutil.copy], the files a
    directory holds for a glob pattern, their modification times, and the
    picker's exit status and output. *)
Record Host : Type := {
  getcwd : string;
  path_exists : string -> bool;
  mkdir : string -> result unit;
  shutil_copy : string -> string -> result unit;
  glob : string -> string -> list Pathlib.PurePath;
  st_mtime : string -> result QArith_base.Q;
  rofi : list string -> string -> result (Z * string)
}.

Definition Cli (A : Type) : Type := (list cli_effect * result A)%type.

Definition cli_ret {A} (a : A) : Cli A := ([], Ok a).

Definition cli_bind {A B} (m : Cli A) (k : A -> Cli B) : Cli B :=
  match m with
  | (t, Ok a) => let (t', r) := k a in (t ++ t', r)
  | (t, Raise e) => (t, Raise e)
  end.

#[global] Instance Cli_ret : MRet Cli := @cli_ret.
#[global] Instance Cli_bind : MBind Cli := fun A B k m => cli_bind m k.

(** A computation of the daemon's monad inside a command. *)
Definition from_eff {A} (m : Eff A) : Cli A := (map Shared (fst m), snd m).

Definition cli_lift {A} (r : result A) : Cli A := ([], r).

Definition cli_perform {A} (e : cli_effect) (r : result A) : Cli A := ([e], r).

Definition cli_trace {A} (m : Cli A) : list cli_effect := fst m.
Definition cli_outcome {A} (m : Cli A) : result A := snd m.

(** What a command printed. *)
Fixpoint printed (t : list cli_effect) : list string :=
  match t with
  | [] => []
  | Print text :: t' => text :: printed t'
  | _ :: t' => printed t'
  end.

(** The effects a command shares with the daemon. *)
Fixpoint shared (t : list cli_effect) : list effect :=
  match t with
  | [] => []
  | Shared e :: t' => e :: shared t'
  | _ :: t' => shared t'
  end.

(** The child processes a trace starts with [subprocess.Popen]. *)
Fixpoint started (t : list effect) : list (list string) :=
  match t with
  | [] => []
  | Popen argv :: t' => argv :: started t'
  | _ :: t' => started t'
  end.

(** ** [src/inkscapefigures/main.py] *)

Module Figures.
Import Pathlib.

(** [beautify], lines 35-36 *)
Definition beautify (name : string) : string :=
  Py.title (Py.replace "-" " " (Py.replace "_" " " name)).

(** [latex_template], lines 39-52 *)
Definition latex_template (name title : string) : string :=
  let label := Py.lower (Py.replace " " "_" (Py.replace "-" "_" title)) in
  let title := Py.title (Py.replace "_" " " (Py.replace "-" " " title)) in
  Py.join Py.nl
    [ "\begin{figure}[ht]";
      "    \centering";
      "    \incfig{" +:+ name +:+ "}";
      "    \caption{" +:+ title +:+ "}";
      "    \label{fig:" +:+ label +:+ "}";
      "\end{figure}" ].

(** Lines 73-74, run once when the module is imported:
    [if not roots_file.is_file(): roots_file.touch()]. *)
Definition touch_roots_file (f : RootsFile) : RootsFile :=
  match f with
  | None => Some ""
  | Some data => Some data
  end.

(** [get_roots], lines 96-97.  [read_text] raises when the file does not
    exist and when its content cannot be decoded. *)
Definition get_roots (f : RootsFile) : result (list string) :=
  match read_text f with
  | Ok text =>
      Ok (List.filter (fun root => negb (String.eqb root ""))
                      (Py.split Py.LF text))
  | Raise e => Raise e
  end.

(** [path in roots] *)
Definition contains (path : string) (roots : list string) : bool :=
  existsb (String.eqb path) roots.

(** [add_root], lines 86-93.  The result is the backing file after the
    call. *)
Definition add_root (path : pathlike) (f : RootsFile) : Eff RootsFile :=
  let path := to_str path in
  roots ← lift (get_roots f);
  if contains path roots then mret f
  else
    let roots := roots ++ [path] in
    write_text (Py.join Py.nl roots).

(** A sequence of [add_root] calls, one after the other. *)
Fixpoint add_roots (paths : list pathlike) (f : RootsFile) : Eff RootsFile :=
  match paths with
  | [] => mret f
  | path :: paths' => f ← add_root path f; add_roots paths' f
  end.

(** A path that fits on one line of the backing file: not empty, and free
    of line feeds and carriage returns. *)
Definition one_line (path : string) : bool :=
  negb (String.eqb path "")
  && Py.forall_chars (fun c => Py.not_lf c && Py.not_cr c) path.

(** Lines 147-157: the version number read off the converter's answer. *)
Definition version_number (max_str_digits : nat) (inkscape_version : string)
  : result (list Z) :=
  inkscape_version ← Py.index0 (Py.findall inkscape_version);
  inkscape_version_number ←
    Py.map_result (Py.int max_str_digits) (Py.split "." inkscape_version);
  mret (inkscape_version_number
        ++ repeat 0%Z (3 - length inkscape_version_number)).

(** Line 139 *)
Definition pdf_path (filepath : PurePath) : PurePath :=
  joinpath (parent filepath) (stem filepath +:+ ".pdf").

(** Lines 159-181 *)
Definition command (inkscape_version_number : list Z)
    (filepath pdf_path : PurePath) : list pathlike :=
  if Py.list_lt inkscape_version_number [1; 0; 0]%Z then
    [ Str "inkscape";
      Str "--export-area-page";
      Str "--export-dpi";
      Str "300";
      Str "--export-pdf";
      PathObj pdf_path;
      Str "--export-latex";
      PathObj filepath ]
  else
    [ Str "inkscape";
      PathObj filepath;
      Str "--export-area-page";
      Str "--export-dpi";
      Str "300";
      Str "--export-type=pdf";
      Str "--export-latex";
      Str "--export-filename";
      PathObj pdf_path ].

(** The command builder: from the converter's version text and the source
    path to the argument vector and the output path (lines 139 and
    147-181). *)
Definition command_builder (max_str_digits : nat) (inkscape_version : string)
    (filepath : PurePath) : result (list pathlike * PurePath) :=
  inkscape_version_number ← version_number max_str_digits inkscape_version;
  mret (command inkscape_version_number filepath (pdf_path filepath),
        pdf_path filepath).

(** [b] comes right after [a] somewhere in [l]. *)
Definition adjacent {A} (a b : A) (l : list A) : Prop :=
  exists l1 l2, l = l1 ++ a :: b :: l2.

(** The legacy command form: [--export-pdf] takes the output path as its
    argument and the source path is the trailing positional. *)
Definition legacy_form (cmd : list pathlike) (source output : PurePath) : Prop :=
  adjacent (Str "--export-pdf") (PathObj output) cmd
  /\ List.last cmd (Str "") = PathObj source
  /\ ~ In (Str "--export-type=pdf") cmd.

(** The modern command form: the source path is the leading positional,
    with [--export-type=pdf] and [--export-filename] followed by the output
    path. *)
Definition modern_form (cmd : list pathlike) (source output : PurePath) : Prop :=
  cmd !! 1%nat = Some (PathObj source)
  /\ In (Str "--export-type=pdf") cmd
  /\ adjacent (Str "--export-filename") (PathObj output) cmd
  /\ ~ In (Str "--export-pdf") cmd.

Definition selects_legacy (max_str_digits : nat) (inkscape_version : string)
    (filepath : PurePath) : Prop :=
  exists cmd,
    command_builder max_str_digits inkscape_version filepath
    = Ok (cmd, pdf_path filepath)
    /\ legacy_form cmd filepath (pdf_path filepath).

Definition selects_modern (max_str_digits : nat) (inkscape_version : string)
    (filepath : PurePath) : Prop :=
  exists cmd,
    command_builder max_str_digits inkscape_version filepath
    = Ok (cmd, pdf_path filepath)
    /\ modern_form cmd filepath (pdf_path filepath).

Section Configured.

(** [user_dir] comes from [appdirs]; [config.py], when it exists, rebinds
    the module's [latex_template] (lines 81-83). *)
Variable user_dir : PurePath.
Variable config_latex_template : option (string -> string -> string).

Definition roots_file : PurePath := joinpath user_dir "roots".

Definition current_latex_template : string -> string -> string :=
  default latex_template config_latex_template.

(** [maybe_recompile_figure], lines 129-196 *)
Definition maybe_recompile_figure (w : World) (filepath : pathlike) : Eff unit :=
  let filepath := Path filepath in
  if negb (String.eqb (suffix filepath) ".svg") then
    log DEBUG
      (Fmt ("File has changed, but is nog an svg " +:+ suffix filepath) [])
  else
    log INFO (Fmt "Recompiling %s" [LPath filepath]);;
    let pdf_path := pdf_path filepath in
    let name := stem filepath in
    inkscape_version ←
      perform (CheckOutput ["inkscape"; "--version"])
              (check_output w ["inkscape"; "--version"]);
    log DEBUG (Fmt inkscape_version []);;
    inkscape_version_number ←
      lift (version_number (int_max_str_digits w) inkscape_version);
    let command := command inkscape_version_number filepath pdf_path in
    log DEBUG (Fmt "Running command:" []);;
    log DEBUG (Indent (Py.join " " (map to_str command)) "    ");;
    returncode ← perform (Run command) (run w command);
    (if negb (returncode =? 0)%Z
     then log ERROR (Fmt "Return code %s" [LInt returncode])
     else log DEBUG (Fmt "Command succeeded" []));;
    let template := current_latex_template name (beautify name) in
    perform (ClipboardCopy template) (pyperclip_copy w template);;
    log DEBUG (Fmt "Copying LaTeX template:" []);;
    log DEBUG (Indent template "    ").

(** Lines 210-214: one watch per root; a refused watch is logged and the
    loop goes on. *)
Fixpoint register_roots (w : World) (roots : list string) (i : Inotify)
  : Eff Inotify :=
  match roots with
  | [] => mret i
  | root :: roots' =>
      i ← try_except (add_watch w root i)
                     (log DEBUG (Fmt "Could not add root %s" [LStr root]);;
                      mret i);
      register_roots w roots' i
  end.

(** Lines 221-226 *)
Fixpoint unregister_roots (w : World) (roots : list string) (i : Inotify)
  : Eff Inotify :=
  match roots with
  | [] => mret i
  | root :: roots' =>
      i ← try_except
            (i ← remove_watch w root i;
             log DEBUG (Fmt "Removed root %s" [LStr root]);;
             mret i)
            (log DEBUG (Fmt "Could not remove root %s" [LStr root]);;
             mret i);
      unregister_roots w roots' i
  end.

(** Lines 204-214: the head of the outer loop of [watch_daemon_inotify]. *)
Definition inotify_setup (w : World) (f : RootsFile)
  : Eff (list string * Inotify) :=
  roots ← lift (get_roots f);
  i ← Inotify_new w;
  i ← add_watch w (str roots_file) i;
  roots_again ← lift (get_roots f);
  log INFO (Fmt ("Watching directories: " +:+ Py.join ", " roots_again) []);;
  i ← register_roots w roots i;
  mret (roots, i).

(** Lines 217-231: the body of the inner loop of [watch_daemon_inotify]. *)
Definition inotify_on_event (w : World) (roots : list string) (i : Inotify)
    (event : Event) : Eff (control * Inotify) :=
  let path := event_path event in
  let filename := event_filename event in
  if String.eqb path (str roots_file) then
    log INFO (Fmt "The roots file has been updated. Updating watches." []);;
    i ← unregister_roots w roots i;
    mret (Break, i)
  else
    let path := joinpath (parse path) filename in
    maybe_recompile_figure w (PathObj path);;
    mret (Continue, i).

(** The two loops of [watch_daemon_inotify] over the events delivered so
    far; the result is the state in which the daemon waits for the next
    event.  After [break] the outer loop starts over with a fresh inotify
    instance. *)
Fixpoint inotify_event_loop (roots : list string) (i : Inotify)
    (ticks : list (Tick Event)) : Eff (list string * Inotify) :=
  match ticks with
  | [] => mret (roots, i)
  | t :: ticks' =>
      r ← inotify_on_event (tick_world t) roots i (tick_event t);
      match r with
      | (Continue, i) => inotify_event_loop roots i ticks'
      | (Break, _) =>
          s ← inotify_setup (tick_world t) (tick_roots_file t);
          inotify_event_loop s.1 s.2 ticks'
      end
  end.

(** [watch_daemon_inotify], lines 199-231 *)
Definition watch_daemon_inotify (w : World) (f : RootsFile)
    (ticks : list (Tick Event)) : Eff (list string * Inotify) :=
  s ← inotify_setup w f;
  inotify_event_loop s.1 s.2 ticks.

(** Lines 236-244: the head of the outer loop of [watch_daemon_fswatch];
    the result is the argument vector of the child process. *)
Definition fswatch_setup (w : World) (f : RootsFile) : Eff (list string) :=
  roots ← lift (get_roots f);
  log INFO (Fmt ("Watching directories: " +:+ Py.join ", " roots) []);;
  let argv := "fswatch" :: roots ++ [str user_dir] in
  perform (Popen argv) (popen w argv);;
  mret argv.

(** Lines 247-254: the body of the inner loop of [watch_daemon_fswatch], on
    one line read from the child process. *)
Definition fswatch_on_line (w : World) (line : string) : Eff control :=
  let filepath := Py.strip line in
  if String.eqb filepath (str roots_file) then
    log INFO (Fmt "The roots file has been updated. Updating watches." []);;
    perform Terminate (Ok tt);;
    log DEBUG (Fmt "Removed main watch %s" []);;
    mret Break
  else
    maybe_recompile_figure w (Str filepath);;
    mret Continue.

Fixpoint fswatch_line_loop (argv : list string) (ticks : list (Tick string))
  : Eff (list string) :=
  match ticks with
  | [] => mret argv
  | t :: ticks' =>
      c ← fswatch_on_line (tick_world t) (tick_event t);
      match c with
      | Continue => fswatch_line_loop argv ticks'
      | Break =>
          argv ← fswatch_setup (tick_world t) (tick_roots_file t);
          fswatch_line_loop argv ticks'
      end
  end.

(** [watch_daemon_fswatch], lines 234-254 *)
Definition watch_daemon_fswatch (w : World) (f : RootsFile)
    (ticks : list (Tick string)) : Eff (list string) :=
  argv ← fswatch_setup w f;
  fswatch_line_loop argv ticks.

(** [inkscape], lines 24-27 *)
Definition inkscape (w : World) (path : PurePath) : Eff unit :=
  perform (Popen ["inkscape"; str path]) (popen w ["inkscape"; str path]).

(** [indent], lines 30-32 *)
Definition indent (text : string) (indentation : Z) : string :=
  let lines := Py.split Py.LF text in
  Py.join Py.nl
    (map (fun line => Py.repeat_char " " indentation +:+ line) lines).

(** Line 70 *)
Definition template : PurePath := joinpath user_dir "template.svg".

(** [create], lines 264-282.  The result is the registry's backing file
    after the command. *)
Definition create (w : World) (h : Host) (f : RootsFile) (title root : string)
  : Cli RootsFile :=
  let title := Py.strip title in
  let file_name := Py.lower (Py.replace " " "-" title) +:+ ".svg" in
  let figures := absolute (getcwd h) (parse root) in
  (if negb (path_exists h (str figures))
   then cli_perform (Mkdir (str figures)) (mkdir h (str figures))
   else mret tt);;
  let figure_path := joinpath figures file_name in
  if path_exists h (str figure_path) then
    cli_perform (Print (title +:+ " 2")) (Ok tt);;
    mret f
  else
    cli_perform (CopyFile (str template) (str figure_path))
                (shutil_copy h (str template) (str figure_path));;
    f ← from_eff (add_root (PathObj figures) f);
    from_eff (inkscape w figure_path);;
    let leading_spaces := (Py.len title - Py.len (Py.lstrip title))%Z in
    cli_perform
      (Print (indent (current_latex_template (stem figure_path) title)
                     leading_spaces))
      (Ok tt);;
    mret f.

End Configured.

End Figures.

(** ** [src/main.py]: the recompilation routine of the second entry point *)

Module Main.
Import Pathlib.

(** [beautify], lines 73-74 *)
Definition beautify (name : string) : string :=
  Py.title (Py.replace "-" " " (Py.replace "_" " " name)).

(** [latexTemplate], lines 77-92 *)
Definition latexTemplate (name caption : string) : string :=
  let label := Py.lower (Py.replace " " "_" (Py.replace "-" "_" caption)) in
  let caption := Py.title (Py.replace "_" " " (Py.replace "-" " " caption)) in
  Py.join Py.nl
    [ "\begin{figure}[H]";
      "    \centering";
      "";
      "    \incfig{" +:+ name +:+ "}";
      "";
      "    \caption{" +:+ caption +:+ "}";
      "    \label{fig:" +:+ label +:+ "}";
      "\end{figure}" ].

(** Lines 199-209 *)
Definition inkscapeVersionNumber (max_str_digits : nat)
    (inkscapeVersion : string) : result (list Z) :=
  inkscapeVersion ← Py.index0 (Py.findall inkscapeVersion);
  inkscapeVersionNumber ←
    Py.map_result (Py.int max_str_digits) (Py.split "." inkscapeVersion);
  mret (inkscapeVersionNumber
        ++ repeat 0%Z (3 - length inkscapeVersionNumber)).

(** Line 191 *)
Definition pdfPath (filepath : PurePath) : PurePath :=
  joinpath (parent filepath) (stem filepath +:+ ".pdf").

(** Lines 211-233 *)
Definition command (inkscapeVersionNumber : list Z)
    (filepath pdfPath : PurePath) : list pathlike :=
  if Py.list_lt inkscapeVersionNumber [1; 0; 0]%Z then
    [ Str "inkscape";
      Str "--export-area-page";
      Str "--export-dpi";
      Str "300";
      Str "--export-pdf";
      PathObj pdfPath;
      Str "--export-latex";
      PathObj filepath ]
  else
    [ Str "inkscape";
      PathObj filepath;
      Str "--export-area-page";
      Str "--export-dpi";
      Str "300";
      Str "--export-type=pdf";
      Str "--export-latex";
      Str "--export-filename";
      PathObj pdfPath ].

(** The command builder of this entry point (lines 191 and 199-233). *)
Definition commandBuilder (max_str_digits : nat) (inkscapeVersion : string)
    (filepath : PurePath) : result (list pathlike * PurePath) :=
  inkscapeVersionNumber ← inkscapeVersionNumber max_str_digits inkscapeVersion;
  mret (command inkscapeVersionNumber filepath (pdfPath filepath),
        pdfPath filepath).

(** [maybeRecompileFigure], lines 181-248 *)
Definition maybeRecompileFigure (w : World) (filepath : pathlike) : Eff unit :=
  let filepath := Path filepath in
  if negb (String.eqb (suffix filepath) ".svg") then
    log DEBUG
      (Fmt ("File has changed, but is nog an svg " +:+ suffix filepath) [])
  else
    log INFO (Fmt "Recompiling %s" [LPath filepath]);;
    let pdfPath := pdfPath filepath in
    let name := stem filepath in
    inkscapeVersion ←
      perform (CheckOutput ["inkscape"; "--version"])
              (check_output w ["inkscape"; "--version"]);
    log DEBUG (Fmt inkscapeVersion []);;
    inkscapeVersionNumber ←
      lift (inkscapeVersionNumber (int_max_str_digits w) inkscapeVersion);
    let command := command inkscapeVersionNumber filepath pdfPath in
    log DEBUG (Fmt "Running command:" []);;
    log DEBUG (Indent (Py.join " " (map to_str command)) "  ");;
    returncode ← perform (Run command) (run w command);
    (if negb (returncode =? 0)%Z
     then log ERROR (Fmt "Return code %s" [LInt returncode])
     else log DEBUG (Fmt "Command succeeded" []));;
    let template := latexTemplate name (beautify name) in
    perform (ClipboardCopy template) (pyperclip_copy w template);;
    log DEBUG (Fmt "Copying LaTeX template:" []);;
    log DEBUG (Indent template "    ").

(** [select], lines 24-59.  [code] is assigned by a chain of [if]
    statements; [None] stands for a variable not yet bound. *)
Definition select (h : Host) (prompt : string) (options : list string)
    (rofi_args : list string) (fuzzy : bool) : Cli (Z * Z * string) :=
  let optionstr := Py.join Py.nl (map (Py.replace Py.LF " ") options) in
  let args := ["rofi"; "-markup"] in
  let args := if fuzzy then args ++ ["-matching"; "fuzzy"] else args in
  let args := args ++ ["-dmenu"; "-p"; prompt; "-format"; "s"; "-i"] in
  let args := args ++ rofi_args in
  result ← cli_perform (Rofi args optionstr) (rofi h args optionstr);
  let returncode := result.1 in
  let stdout := Py.strip result.2 in
  let selected := Py.strip stdout in
  let index :=
    match Py.index selected (map Py.strip options) with
    | Ok i => i
    | Raise _ => (-1)%Z
    end in
  let code : option Z := None in
  let code := if (returncode =? 0)%Z then Some 0%Z else code in
  let code := if (returncode =? 1)%Z then Some (-1)%Z else code in
  let code := if (9 <? returncode)%Z then Some (returncode - 9)%Z
              else Some (-1)%Z in
  match code with
  | Some code => mret (code, index, selected)
  | None => cli_lift (Raise (OtherError "UnboundLocalError"))
  end.

(** [inkscape], lines 62-65 *)
Definition inkscape (w : World) (path : PurePath) : Eff unit :=
  perform (Popen ["inkscape"; str path]) (popen w ["inkscape"; str path]).

(** [getRoots], lines 148-149 *)
Definition getRoots (f : RootsFile) : result (list string) :=
  match read_text f with
  | Ok text =>
      Ok (List.filter (fun root => negb (String.eqb root ""))
                      (Py.split Py.LF text))
  | Raise e => Raise e
  end.

(** [addRoot], lines 138-145 *)
Definition addRoot (path : pathlike) (f : RootsFile) : Eff RootsFile :=
  let path := to_str path in
  roots ← lift (getRoots f);
  if existsb (String.eqb path) roots then mret f
  else
    let roots := roots ++ [path] in
    write_text (Py.join Py.nl roots).

(** [edit], lines 354-370.  The result is the registry's backing file after
    the command. *)
Definition edit (w : World) (h : Host) (f : RootsFile) (root : string)
  : Cli RootsFile :=
  let figures := absolute (getcwd h) (parse root) in
  let files := glob h (str figures) "*.svg" in
  mtimes ← cli_lift (Py.map_result (fun file => st_mtime h (str file)) files);
  let files := Py.sorted_reverse (combine mtimes files) in
  let names := map (fun file => beautify (stem file)) files in
  picked ← select h "Select figure" names [] true;
  let index := picked.1.2 in
  let selected := picked.2 in
  if negb (String.eqb selected "") then
    path ← cli_lift (Py.getitem files index);
    f ← from_eff (addRoot (PathObj figures) f);
    from_eff (inkscape w path);;
    let template := latexTemplate (stem path) (beautify (stem path)) in
    from_eff (perform (ClipboardCopy template) (pyperclip_copy w template));;
    from_eff (log DEBUG (Fmt "Copying LaTeX template:" []));;
    from_eff (log DEBUG (Indent template "    "));;
    mret f
  else mret f.

End Main.

(** ** Sample worlds *)

(** A host where everything succeeds: the converter answers the version
    probe with [version] and exits with [returncode]. *)
Definition sample_world (version : string) (returncode : Z) : World :=
  {| check_output := fun _ => Ok version;
     run := fun _ => Ok returncode;
     pyperclip_copy := fun _ => Ok tt;
     inotify_init := Ok tt;
     inotify_add_watch := fun _ => Ok 1%Z;
     inotify_rm_watch := fun _ => Ok tt;
     popen := fun _ => Ok tt;
     int_max_str_digits := 4300 |}.

(** The same host, on which the directories in [missing] cannot be
    watched. *)
Definition world_without (missing : list string) : World :=
  {| check_output := fun _ => Ok "Inkscape 1.2.0";
     run := fun _ => Ok 0%Z;
     pyperclip_copy := fun _ => Ok tt;
     inotify_init := Ok tt;
     inotify_add_watch := fun path =>
       if existsb (String.eqb path) missing then Raise (OtherError "InotifyError")
       else Ok 1%Z;
     inotify_rm_watch := fun _ => Ok tt;
     popen := fun _ => Ok tt;
     int_max_str_digits := 4300 |}.

Definition sample_user_dir : Pathlib.PurePath :=
  Pathlib.parse "/home/u/.config/inkscape-figures".

(** A host whose working directory is [/home/u/notes], where the paths in
    [existing] exist, where [mkdir] and [shutil.copy] succeed, where every
    directory holds the files [files] with their modification times, and
    where the picker exits with [returncode] after printing [stdout]. *)
Definition sample_host (existing : list string)
    (files : list (Pathlib.PurePath * QArith_base.Q))
    (returncode : Z) (stdout : string) : Host :=
  {| getcwd := "/home/u/notes";
     path_exists := fun path => existsb (String.eqb path) existing;
     mkdir := fun _ => Ok tt;
     shutil_copy := fun _ _ => Ok tt;
     glob := fun _ _ => map fst files;
     st_mtime := fun path =>
       match List.find (fun file => String.eqb (Pathlib.str (fst file)) path) files with
       | Some file => Ok (snd file)
       | None => Raise FileNotFoundError
       end;
     rofi := fun _ _ => Ok (returncode, stdout) |}.

(** Two figures of [/home/u/notes/figures], the second one modified
    last. *)
Definition sample_files : list (Pathlib.PurePath * QArith_base.Q) :=
  [(Pathlib.parse "/home/u/notes/figures/old-plot.svg", QArith_base.Qmake 1 1);
   (Pathlib.parse "/home/u/notes/figures/new-plot.svg", QArith_base.Qmake 2 1)].

(** * The builtins on small inputs *)

Example split_lines : Py.split Py.LF ("/a" +:+ Py.nl +:+ Py.nl +:+ "/b") = ["/a"; ""; "/b"].
Proof. reflexivity. Qed.

Example findall_version :
  Py.findall "Inkscape 0.92.4 (5da689c313, 2019-01-14)"
  = ["0.92.4"; "5"; "689"; "313"; "2019"; "01"; "14"].
Proof. reflexivity. Qed.

Example title_fig : Py.title "my figure 2b" = "My Figure 2B".
Proof. reflexivity. Qed.

Example strip_line : Py.strip ("  /tmp/a b" +:+ Py.nl) = "/tmp/a b".
Proof. reflexivity. Qed.

Example path_pieces :
  let p := Pathlib.parse "/tmp/a/fig1.svg" in
  Pathlib.suffix p = ".svg" /\ Pathlib.stem p = "fig1"
  /\ Pathlib.str (Pathlib.joinpath (Pathlib.parent p) (Pathlib.stem p +:+ ".pdf"))
     = "/tmp/a/fig1.pdf".
Proof. repeat split; reflexivity. Qed.

Example path_hidden_file : Pathlib.suffix (Pathlib.parse "/tmp/.svg") = "".
Proof. reflexivity. Qed.

Example int_examples :
  Py.int 4300 "092" = Ok 92%Z /\ Py.int 4300 "" = Raise ValueError.
Proof. split; reflexivity. Qed.

Example list_lt_examples :
  Py.list_lt [0; 99; 9]%Z [1; 0; 0]%Z = true
  /\ Py.list_lt [1; 0; 0]%Z [1; 0; 0]%Z = false
  /\ Py.list_lt [1; 0; 0; 0]%Z [1; 0; 0]%Z = false.
Proof. repeat split; reflexivity. Qed.

(** * Facts about the builtins *)

#[local] Arguments String.append !s1 s2 : simpl nomatch.

(** Unfolding of the two monads. *)
Ltac unfold_result := unfold mbind, mret, result_bind, result_ret.

Ltac eff_simpl :=
  unfold mbind, mret, Eff_bind, Eff_ret, bind, ret, lift, perform, log,
    try_except; simpl.

Section StringFacts.

Lemma append_empty_r (s : string) : s +:+ "" = s.
Proof. induction s as [|c s IH]; simpl; [reflexivity | now rewrite IH]. Qed.

Lemma append_assoc (a b c : string) : (a +:+ b) +:+ c = a +:+ (b +:+ c).
Proof. induction a as [|x a IH]; simpl; [reflexivity | now rewrite IH]. Qed.

Lemma forall_chars_app (p : ascii -> bool) (a b : string) :
  Py.forall_chars p (a +:+ b) = Py.forall_chars p a && Py.forall_chars p b.
Proof.
  induction a as [|x a IH]; simpl; [reflexivity |].
  now rewrite IH, andb_assoc.
Qed.

Lemma forall_chars_impl (p q : ascii -> bool) (s : string) :
  (forall c, p c = true -> q c = true) ->
  Py.forall_chars p s = true -> Py.forall_chars q s = true.
Proof.
  intros Hpq. induction s as [|c s IH]; simpl; [reflexivity |].
  intros [Hc Hs]%andb_prop. rewrite (Hpq _ Hc). simpl. auto.
Qed.

Lemma take_while_forall (p : ascii -> bool) (s : string) :
  Py.forall_chars p (Py.take_while p s) = true.
Proof.
  induction s as [|c s IH]; simpl; [reflexivity |].
  destruct (p c) eqn:Hc; simpl; [now rewrite Hc | reflexivity].
Qed.

Lemma split_not_nil (sep : ascii) (s : string) : Py.split sep s <> [].
Proof.
  destruct s as [|c s]; simpl; [discriminate |].
  destruct (Ascii.eqb c sep); [discriminate |].
  destruct (Py.split sep s); discriminate.
Qed.

(** The pieces of [split] keep the characters of the string and lose the
    separator. *)
Lemma split_forall (p : ascii -> bool) (sep : ascii) (s : string) :
  Py.forall_chars p s = true ->
  Forall (fun w => Py.forall_chars (fun c => p c && negb (Ascii.eqb c sep)) w = true)
         (Py.split sep s).
Proof.
  induction s as [|c s IH]; simpl.
  - intros _. repeat constructor.
  - intros [Hc Hs]%andb_prop. specialize (IH Hs).
    destruct (Ascii.eqb c sep) eqn:Hsep.
    + constructor; [reflexivity | exact IH].
    + destruct (Py.split sep s) as [|w ws].
      * repeat constructor. simpl. now rewrite Hc, Hsep.
      * inversion IH as [|? ? Hw Hws]; subst. constructor; [|exact Hws].
        simpl. now rewrite Hc, Hsep, Hw.
Qed.

(** A string without the separator is a single piece. *)
Lemma split_without_sep (sep : ascii) (s : string) :
  Py.forall_chars (fun c => negb (Ascii.eqb c sep)) s = true ->
  Py.split sep s = [s].
Proof.
  induction s as [|c s IH]; simpl; [reflexivity |].
  intros [Hc Hs]%andb_prop. apply negb_true_iff in Hc. rewrite Hc.
  now rewrite (IH Hs).
Qed.

(** [split] undoes a separator put after a separator-free string. *)
Lemma split_app_sep (sep : ascii) (a s : string) :
  Py.forall_chars (fun c => negb (Ascii.eqb c sep)) a = true ->
  Py.split sep (a +:+ String sep s) = a :: Py.split sep s.
Proof.
  induction a as [|c a IH]; simpl.
  - intros _. now rewrite Ascii.eqb_refl.
  - intros [Hc Ha]%andb_prop. apply negb_true_iff in Hc. rewrite Hc.
    now rewrite (IH Ha).
Qed.

End StringFacts.

Section FindallFacts.

Lemma findall_from_some (s r : string) :
  exists rest,
    Py.findall_from (Some r) s = (r +:+ Py.take_while Py.is_version_char s) :: rest.
Proof.
  revert r. induction s as [|c s IH]; intros r; simpl.
  - exists []. now rewrite append_empty_r.
  - destruct (Py.is_version_char c).
    + destruct (IH (r +:+ String c "")) as [rest Hrest].
      exists rest. rewrite Hrest, append_assoc. reflexivity.
    + exists (Py.findall_from None s). now rewrite append_empty_r.
Qed.

(** Without a digit or a dot the pattern matches nowhere. *)
Lemma findall_none (s : string) :
  Py.has_version_char s = false -> Py.findall s = [].
Proof.
  unfold Py.findall, Py.has_version_char.
  induction s as [|c s IH]; simpl; [reflexivity |].
  intros [Hc Hs]%orb_false_elim. rewrite Hc. auto.
Qed.

(** Otherwise the first match is the first run of digits and dots. *)
Lemma findall_head (s : string) :
  Py.has_version_char s = true ->
  exists rest, Py.findall s = Py.first_run s :: rest.
Proof.
  unfold Py.findall, Py.has_version_char, Py.first_run.
  induction s as [|c s IH]; simpl; [discriminate |].
  destruct (Py.is_version_char c) eqn:Hc; simpl.
  - intros _. rewrite Hc.
    destruct (findall_from_some s (String c "")) as [rest Hrest].
    exists rest. exact Hrest.
  - exact IH.
Qed.

Lemma index0_findall (s : string) :
  Py.index0 (Py.findall s)
  = if Py.has_version_char s then Ok (Py.first_run s) else Raise IndexError.
Proof.
  destruct (Py.has_version_char s) eqn:H.
  - destruct (findall_head s H) as [rest ->]. reflexivity.
  - now rewrite (findall_none s H).
Qed.

Lemma first_run_chars (s : string) :
  Py.forall_chars Py.is_version_char (Py.first_run s) = true.
Proof. apply take_while_forall. Qed.

(** The dot-separated pieces of the first run hold digits only: [int] is
    never given a sign, a blank or an underscore. *)
Lemma split_version_parts_digits (s : string) :
  Forall (fun part => Py.forall_chars Py.is_digit part = true)
         (Py.split "." (Py.first_run s)).
Proof.
  eapply Forall_impl; [apply split_forall, first_run_chars |].
  intros part. cbv beta. apply forall_chars_impl.
  intros c [Hv Hd]%andb_prop. unfold Py.is_version_char in Hv.
  apply negb_true_iff in Hd. rewrite Hd, orb_false_r in Hv. exact Hv.
Qed.

End FindallFacts.

Section IntFacts.

Lemma int_digits_some (s : string) :
  Py.forall_chars Py.is_digit s = true ->
  forall acc, (0 <= acc)%Z ->
  exists n, Py.int_digits acc s = Some n /\ (0 <= n)%Z.
Proof.
  induction s as [|c s IH]; simpl.
  - intros _ acc Hacc. exists acc. auto.
  - intros [Hc Hs]%andb_prop acc Hacc. rewrite Hc.
    apply (IH Hs). unfold Py.digit_value. lia.
Qed.

Lemma int_raises_ValueError (lim : nat) (s : string) (e : exn) :
  Py.int lim s = Raise e -> e = ValueError.
Proof.
  unfold Py.int. destruct s as [|c s]; [congruence |].
  destruct (Py.over_digit_limit lim _); [congruence |].
  destruct (Py.int_digits _ _); congruence.
Qed.

Lemma int_rejects (lim : nat) (s : string) :
  Py.int_accepts lim s = false -> Py.int lim s = Raise ValueError.
Proof.
  unfold Py.int_accepts, Py.int. destruct s as [|c s]; [reflexivity |].
  simpl. intros H%negb_false_iff. now rewrite H.
Qed.

Lemma int_converts (lim : nat) (s : string) :
  Py.forall_chars Py.is_digit s = true ->
  Py.int_accepts lim s = true ->
  exists n, Py.int lim s = Ok n /\ (0 <= n)%Z.
Proof.
  intros Hd Ha. unfold Py.int_accepts, Py.int in *.
  destruct s as [|c s]; [discriminate |].
  simpl in Ha. apply negb_true_iff in Ha. rewrite Ha.
  destruct (int_digits_some _ Hd 0%Z) as (n & -> & Hn); [lia |].
  exists n. auto.
Qed.

Lemma over_digit_limit_short (lim : nat) (s : string) :
  (String.length s <=? 640)%nat = true -> Py.over_digit_limit lim s = false.
Proof.
  intros H%Nat.leb_le. unfold Py.over_digit_limit.
  apply andb_false_intro2. apply Nat.ltb_ge. exact H.
Qed.

(** On short strings the interpreter's limit plays no part. *)
Lemma int_short (lim : nat) (s : string) :
  (String.length s <=? 640)%nat = true -> Py.int lim s = Py.int 0 s.
Proof.
  intros H. unfold Py.int. destruct s as [|c s]; [reflexivity |].
  now rewrite !over_digit_limit_short.
Qed.

Lemma map_result_ext {A B} (f g : A -> result B) (l : list A) :
  Forall (fun x => f x = g x) l -> Py.map_result f l = Py.map_result g l.
Proof.
  induction 1 as [|x l Hx _ IH]; simpl; [reflexivity |].
  now rewrite Hx, IH.
Qed.

Lemma is_ok_map_result {A B} (f : A -> result B) (l : list A) :
  is_ok (Py.map_result f l) = forallb (fun x => is_ok (f x)) l.
Proof.
  induction l as [|x l IH]; simpl; [reflexivity |].
  destruct (f x); simpl; [| reflexivity].
  rewrite <- IH. destruct (Py.map_result f l); reflexivity.
Qed.

Lemma map_result_length {A B} (f : A -> result B) (l : list A) (ys : list B) :
  Py.map_result f l = Ok ys -> length ys = length l.
Proof.
  revert ys. induction l as [|x l IH]; simpl; intros ys.
  - intros [= <-]. reflexivity.
  - destruct (f x); [| discriminate].
    destruct (Py.map_result f l); [| discriminate].
    intros [= <-]. simpl. f_equal. now apply IH.
Qed.

Lemma map_result_int_raises (lim : nat) (l : list string) (e : exn) :
  Py.map_result (Py.int lim) l = Raise e -> e = ValueError.
Proof.
  induction l as [|x l IH]; simpl; [discriminate |].
  destruct (Py.int lim x) eqn:Hx.
  - destruct (Py.map_result (Py.int lim) l); [discriminate |].
    intros [= <-]. now apply IH.
  - intros [= <-]. eapply int_raises_ValueError, Hx.
Qed.

Lemma map_result_int_nonneg (lim : nat) (l : list string) (ys : list Z) :
  Forall (fun part => Py.forall_chars Py.is_digit part = true) l ->
  Py.map_result (Py.int lim) l = Ok ys ->
  Forall (fun n => (0 <= n)%Z) ys.
Proof.
  intros Hl. revert ys. induction Hl as [|x l Hx _ IH]; simpl; intros ys.
  - intros [= <-]. constructor.
  - destruct (Py.int lim x) as [n|] eqn:Hn; [| discriminate].
    destruct (Py.map_result (Py.int lim) l) as [ns|]; [| discriminate].
    intros [= <-]. constructor; [| now apply IH].
    destruct (Py.int_accepts lim x) eqn:Ha.
    + destruct (int_converts lim x Hx Ha) as (m & Hm & Hpos). congruence.
    + rewrite (int_rejects _ _ Ha) in Hn. discriminate.
Qed.

Lemma is_ok_int (lim : nat) (s : string) :
  Py.forall_chars Py.is_digit s = true ->
  is_ok (Py.int lim s) = Py.int_accepts lim s.
Proof.
  intros Hd. destruct (Py.int_accepts lim s) eqn:Ha.
  - destruct (int_converts lim s Hd Ha) as (n & -> & _). reflexivity.
  - now rewrite (int_rejects _ _ Ha).
Qed.

End IntFacts.

Section ListOrderFacts.

(** Python's [<] on lists is the lexicographic order. *)
Lemma list_lt_lex (a b : list Z) : Py.list_lt a b = true <-> Py.lex_lt a b.
Proof.
  split.
  - revert b. induction a as [|x a IH]; intros [|y b]; simpl; try discriminate.
    + intros _. constructor.
    + destruct (Z.eqb_spec x y) as [->|Hne].
      * intros H. apply Py.lex_lt_tail. now apply IH.
      * intros H%Z.ltb_lt. now apply Py.lex_lt_head.
  - induction 1 as [y b | x a y b Hlt | x a b _ IH]; simpl.
    + reflexivity.
    + destruct (Z.eqb_spec x y); [lia | now apply Z.ltb_lt].
    + now rewrite Z.eqb_refl.
Qed.

(** On a version number of at least three non-negative components, being
    below [1, 0, 0] means having major version 0. *)
Lemma list_lt_100 (n : list Z) :
  (3 <= length n)%nat -> Forall (fun x => (0 <= x)%Z) n ->
  Py.list_lt n [1; 0; 0]%Z = (List.hd 0 n =? 0)%Z.
Proof.
  destruct n as [|x [|y [|z r]]]; simpl; try lia.
  intros _ Hpos.
  inversion Hpos as [|? ? Hx Hpos']; subst.
  inversion Hpos' as [|? ? Hy Hpos'']; subst.
  inversion Hpos'' as [|? ? Hz _]; subst.
  destruct (Z.eqb_spec x 1) as [->|Hx1].
  - simpl. destruct (Z.eqb_spec y 0) as [->|Hy0].
    + destruct (Z.eqb_spec z 0) as [->|Hz0]; [now destruct r |].
      apply Z.ltb_ge. lia.
    + apply Z.ltb_ge. lia.
  - destruct (Z.eqb_spec x 0) as [->|Hx0]; [reflexivity |].
    apply Z.ltb_ge. lia.
Qed.

End ListOrderFacts.

(** * The command builder *)

Section CommandBuilder.
Import Pathlib.

Lemma version_number_eq (lim : nat) (v : string) :
  Figures.version_number lim v
  = if Py.has_version_char v then
      match Py.map_result (Py.int lim) (Py.split "." (Py.first_run v)) with
      | Ok m => Ok (m ++ repeat 0%Z (3 - length m))
      | Raise e => Raise e
      end
    else Raise IndexError.
Proof.
  unfold Figures.version_number. unfold_result.
  rewrite index0_findall. destruct (Py.has_version_char v); reflexivity.
Qed.

(** The code's version number is the specification's numeric tuple. *)
Lemma version_number_spec (lim : nat) (v : string) (n : list Z) :
  Figures.version_number lim v = Ok n <-> Py.spec_version_tuple lim v = Some n.
Proof.
  rewrite version_number_eq. unfold Py.spec_version_tuple.
  destruct (Py.has_version_char v); [| split; discriminate].
  destruct (Py.map_result _ _); split; congruence.
Qed.

Lemma is_ok_version_number (lim : nat) (v : string) :
  is_ok (Figures.version_number lim v) = Py.readable_version lim v.
Proof.
  rewrite version_number_eq. unfold Py.readable_version.
  destruct (Py.has_version_char v); [simpl | reflexivity].
  transitivity (is_ok (Py.map_result (Py.int lim) (Py.split "." (Py.first_run v)))).
  { destruct (Py.map_result _ _); reflexivity. }
  rewrite is_ok_map_result.
  pose proof (split_version_parts_digits v) as Hd.
  induction Hd as [|part parts Hpart _ IH]; simpl; [reflexivity |].
  now rewrite IH, is_ok_int.
Qed.

Lemma version_number_raises (lim : nat) (v : string) (e : exn) :
  Figures.version_number lim v = Raise e ->
  e = if Py.has_version_char v then ValueError else IndexError.
Proof.
  rewrite version_number_eq. destruct (Py.has_version_char v); [| congruence].
  destruct (Py.map_result _ _) eqn:Hm; [discriminate |].
  intros [= <-]. eapply map_result_int_raises, Hm.
Qed.

(** A version number has at least three components, none negative. *)
Lemma version_number_shape (lim : nat) (v : string) (n : list Z) :
  Figures.version_number lim v = Ok n ->
  (3 <= length n)%nat /\ Forall (fun x => (0 <= x)%Z) n /\ n <> [].
Proof.
  rewrite version_number_eq. destruct (Py.has_version_char v); [| discriminate].
  destruct (Py.map_result _ _) as [m|] eqn:Hm; [| discriminate].
  intros [= <-]. split; [| split].
  - rewrite length_app, repeat_length. lia.
  - apply Forall_app. split.
    + eapply map_result_int_nonneg, Hm. apply split_version_parts_digits.
    + apply Forall_forall. intros x Hx%list_elem_of_In%repeat_spec. lia.
  - apply map_result_length in Hm.
    pose proof (split_not_nil "." (Py.first_run v)).
    destruct m; [| discriminate].
    destruct (Py.split "." (Py.first_run v)); [congruence | discriminate].
Qed.

Lemma version_number_short (lim : nat) (v : string) :
  Py.short_version v = true ->
  Figures.version_number lim v = Figures.version_number 0 v.
Proof.
  unfold Py.short_version, Figures.version_number. unfold_result.
  destruct (Py.findall v) as [|r rest]; simpl; [reflexivity |].
  intros H. rewrite (map_result_ext (Py.int lim) (Py.int 0)); [reflexivity |].
  apply Forall_forall. intros part Hpart%list_elem_of_In. apply int_short.
  rewrite forallb_forall in H. now apply H.
Qed.

Lemma command_builder_eq (lim : nat) (v : string) (p : PurePath) :
  Figures.command_builder lim v p
  = match Figures.version_number lim v with
    | Ok n => Ok (Figures.command n p (Figures.pdf_path p), Figures.pdf_path p)
    | Raise e => Raise e
    end.
Proof. reflexivity. Qed.

Lemma commandBuilder_eq (lim : nat) (v : string) (p : PurePath) :
  Main.commandBuilder lim v p
  = match Figures.version_number lim v with
    | Ok n => Ok (Figures.command n p (Figures.pdf_path p), Figures.pdf_path p)
    | Raise e => Raise e
    end.
Proof. reflexivity. Qed.

Lemma legacy_command_form (n : list Z) (p out : PurePath) :
  Py.list_lt n [1; 0; 0]%Z = true ->
  Figures.legacy_form (Figures.command n p out) p out.
Proof.
  intros H. unfold Figures.command. rewrite H. repeat split.
  - exists [Str "inkscape"; Str "--export-area-page"; Str "--export-dpi"; Str "300"],
      [Str "--export-latex"; PathObj p].
    reflexivity.
  - simpl. intuition discriminate.
Qed.

Lemma modern_command_form (n : list Z) (p out : PurePath) :
  Py.list_lt n [1; 0; 0]%Z = false ->
  Figures.modern_form (Figures.command n p out) p out.
Proof.
  intros H. unfold Figures.command. rewrite H. repeat split.
  - simpl. intuition.
  - exists [Str "inkscape"; PathObj p; Str "--export-area-page"; Str "--export-dpi";
       Str "300"; Str "--export-type=pdf"; Str "--export-latex"], [].
    reflexivity.
  - simpl. intuition discriminate.
Qed.

(** The two forms exclude each other. *)
Lemma legacy_not_modern (cmd : list pathlike) (p out : PurePath) :
  Figures.legacy_form cmd p out -> ~ Figures.modern_form cmd p out.
Proof. intros (_ & _ & Hno) (_ & Hin & _). contradiction. Qed.

(** The legacy form is chosen exactly for major version 0. *)
Lemma legacy_iff_major_zero (lim : nat) (v : string) (n : list Z) :
  Figures.version_number lim v = Ok n ->
  Py.list_lt n [1; 0; 0]%Z = (List.hd 0 n =? 0)%Z.
Proof.
  intros (Hlen & Hpos & _)%version_number_shape. now apply list_lt_100.
Qed.

Lemma selects_by_evaluation (lim : nat) (v : string) (p : PurePath) (n : list Z) :
  Py.short_version v = true ->
  Figures.version_number 0 v = Ok n ->
  if Py.list_lt n [1; 0; 0]%Z then Figures.selects_legacy lim v p
  else Figures.selects_modern lim v p.
Proof.
  intros Hshort Hn.
  destruct (Py.list_lt n [1; 0; 0]%Z) eqn:Hlt;
    exists (Figures.command n p (Figures.pdf_path p));
    rewrite command_builder_eq, (version_number_short lim v Hshort), Hn;
    (split; [reflexivity |]).
  - now apply legacy_command_form.
  - now apply modern_command_form.
Qed.

End CommandBuilder.

Section CommandBuilderClaims.
Import Pathlib.

(** C1, as the code has it: a version text without any digit or dot makes the
    command builder raise [IndexError], in both entry points, although
    ["0.0.0"] is read and builds a command; the exception leaves the pipeline
    and ends the daemon. *)
Lemma command_builder_raises_without_digits :
  Figures.command_builder 4300 "" (parse "/tmp/a/fig1.svg") = Raise IndexError
  /\ Main.commandBuilder 4300 "" (parse "/tmp/a/fig1.svg") = Raise IndexError
  /\ Figures.command_builder 4300 "no version here" (parse "/tmp/a/fig1.svg")
     = Raise IndexError
  /\ is_ok (Figures.command_builder 4300 "0.0.0" (parse "/tmp/a/fig1.svg")) = true
  /\ outcome (Figures.maybe_recompile_figure None (sample_world "" 0)
                (Str "/tmp/a/fig1.svg")) = Raise IndexError
  /\ outcome (Main.maybeRecompileFigure (sample_world "" 0)
                (Str "/tmp/a/fig1.svg")) = Raise IndexError
  /\ outcome (Figures.watch_daemon_inotify sample_user_dir None
                (sample_world "" 0) (Some "/tmp/a")
                [{| tick_world := sample_world "" 0;
                    tick_roots_file := Some "/tmp/a";
                    tick_event := {| type_names := ["IN_CLOSE_WRITE"];
                                     event_path := "/tmp/a";
                                     event_filename := "fig1.svg" |} |}])
     = Raise IndexError.
Proof. repeat split; vm_compute; reflexivity. Qed.

(** C1 (amended): in both entry points the command builder returns a command
    exactly on the readable version texts, those with a run of digits and
    dots whose dot-separated pieces are all numbers; ["0.0.0"] is one of them
    and selects the legacy form.  A text without digit or dot raises
    [IndexError], and a first run with a piece that is not a number raises
    [ValueError]. *)
Theorem command_builder_readable_or_raises
    (lim : nat) (v : string) (p : PurePath) :
  (Py.readable_version lim v = true ->
   exists n,
     Py.spec_version_tuple lim v = Some n
     /\ Figures.command_builder lim v p
        = Ok (Figures.command n p (Figures.pdf_path p), Figures.pdf_path p)
     /\ Main.commandBuilder lim v p
        = Ok (Main.command n p (Main.pdfPath p), Main.pdfPath p))
  /\ (Py.has_version_char v = false ->
      Figures.command_builder lim v p = Raise IndexError
      /\ Main.commandBuilder lim v p = Raise IndexError)
  /\ (Py.has_version_char v = true -> Py.readable_version lim v = false ->
      Figures.command_builder lim v p = Raise ValueError
      /\ Main.commandBuilder lim v p = Raise ValueError)
  /\ Figures.selects_legacy lim "0.0.0" p.
Proof.
  split; [| split; [| split]].
  - intros Hr. rewrite <- is_ok_version_number in Hr.
    destruct (Figures.version_number lim v) as [n|] eqn:Hn; [| discriminate].
    exists n. split; [now apply version_number_spec |].
    rewrite command_builder_eq, commandBuilder_eq, Hn. split; reflexivity.
  - intros Hnone.
    rewrite command_builder_eq, commandBuilder_eq, version_number_eq, Hnone.
    split; reflexivity.
  - intros Hsome Hr. rewrite <- is_ok_version_number in Hr.
    rewrite command_builder_eq, commandBuilder_eq.
    destruct (Figures.version_number lim v) eqn:Hn; [discriminate |].
    apply version_number_raises in Hn. rewrite Hsome in Hn. subst.
    split; reflexivity.
  - apply (selects_by_evaluation lim "0.0.0" p [0; 0; 0]%Z); reflexivity.
Qed.

Lemma command_builder_readable_or_raises_witness :
  Py.readable_version 4300 "Inkscape 0.92.4 (5da689c313, 2019-01-14)" = true
  /\ Py.has_version_char "inkscape: command not found" = false
  /\ Py.has_version_char "v1..2" = true
  /\ Py.readable_version 4300 "v1..2" = false
  /\ (exists n,
        Py.spec_version_tuple 4300 "Inkscape 0.92.4 (5da689c313, 2019-01-14)"
        = Some n)
  /\ Figures.command_builder 4300 "inkscape: command not found"
       (parse "/tmp/a/fig1.svg") = Raise IndexError
  /\ Main.commandBuilder 4300 "v1..2" (parse "/tmp/a/fig1.svg")
     = Raise ValueError.
Proof.
  pose proof (command_builder_readable_or_raises 4300
                "Inkscape 0.92.4 (5da689c313, 2019-01-14)"
                (parse "/tmp/a/fig1.svg")) as (H1 & _).
  pose proof (command_builder_readable_or_raises 4300
                "inkscape: command not found"
                (parse "/tmp/a/fig1.svg")) as (_ & H2 & _).
  pose proof (command_builder_readable_or_raises 4300 "v1..2"
                (parse "/tmp/a/fig1.svg")) as (_ & _ & H3 & _).
  assert (R1 : Py.readable_version 4300
                 "Inkscape 0.92.4 (5da689c313, 2019-01-14)" = true)
    by (vm_compute; reflexivity).
  assert (R2 : Py.has_version_char "inkscape: command not found" = false)
    by (vm_compute; reflexivity).
  assert (R3 : Py.has_version_char "v1..2" = true) by (vm_compute; reflexivity).
  assert (R4 : Py.readable_version 4300 "v1..2" = false)
    by (vm_compute; reflexivity).
  destruct (H1 R1) as (n & Hn & _).
  exact (conj R1 (conj R2 (conj R3 (conj R4
          (conj (ex_intro _ n Hn)
                (conj (proj1 (H2 R2)) (proj2 (H3 R3 R4)))))))).
Defined.

(** C2: when the first run of digits and dots, split on the dot and padded
    with zeros to three numeric components, is lexicographically below
    [(1, 0, 0)], the command builder emits the legacy form, and otherwise the
    modern form; ["1.0.0"], ["1.0"] and ["1.0.0rc1"] select the modern form
    and ["0.92.4"] the legacy form. *)
Theorem command_form_follows_version :
  (forall (lim : nat) (v : string) (p : PurePath) (n : list Z),
     Py.spec_version_tuple lim v = Some n ->
     (Py.lex_lt n [1; 0; 0]%Z -> Figures.selects_legacy lim v p)
     /\ (~ Py.lex_lt n [1; 0; 0]%Z -> Figures.selects_modern lim v p))
  /\ (forall (lim : nat) (p : PurePath),
        Figures.selects_modern lim "1.0.0" p
        /\ Figures.selects_modern lim "1.0" p
        /\ Figures.selects_modern lim "1.0.0rc1" p
        /\ Figures.selects_legacy lim "0.92.4" p).
Proof.
  split.
  - intros lim v p n Hn%version_number_spec.
    split; intros Hlt; exists (Figures.command n p (Figures.pdf_path p));
      rewrite command_builder_eq, Hn; (split; [reflexivity |]).
    + apply legacy_command_form. now apply list_lt_lex.
    + apply modern_command_form. apply not_true_is_false.
      intros Hc. now apply Hlt, list_lt_lex.
  - intros lim p. repeat split.
    + apply (selects_by_evaluation lim "1.0.0" p [1; 0; 0]%Z); reflexivity.
    + apply (selects_by_evaluation lim "1.0" p [1; 0; 0]%Z); reflexivity.
    + apply (selects_by_evaluation lim "1.0.0rc1" p [1; 0; 0]%Z); reflexivity.
    + apply (selects_by_evaluation lim "0.92.4" p [0; 92; 4]%Z); reflexivity.
Qed.

Lemma command_form_follows_version_witness :
  Py.spec_version_tuple 4300 "Inkscape 0.99.9 (2020)" = Some [0; 99; 9]%Z
  /\ Py.lex_lt [0; 99; 9]%Z [1; 0; 0]%Z
  /\ Figures.selects_legacy 4300 "Inkscape 0.99.9 (2020)" (parse "/tmp/a/fig1.svg")
  /\ Py.spec_version_tuple 4300 "Inkscape 1.2.0" = Some [1; 2; 0]%Z
  /\ ~ Py.lex_lt [1; 2; 0]%Z [1; 0; 0]%Z
  /\ Figures.selects_modern 4300 "Inkscape 1.2.0" (parse "/tmp/a/fig1.svg").
Proof.
  pose proof command_form_follows_version as (H & _).
  assert (T1 : Py.spec_version_tuple 4300 "Inkscape 0.99.9 (2020)"
               = Some [0; 99; 9]%Z) by (vm_compute; reflexivity).
  assert (L1 : Py.lex_lt [0; 99; 9]%Z [1; 0; 0]%Z)
    by (apply Py.lex_lt_head; lia).
  assert (T2 : Py.spec_version_tuple 4300 "Inkscape 1.2.0" = Some [1; 2; 0]%Z)
    by (vm_compute; reflexivity).
  assert (L2 : ~ Py.lex_lt [1; 2; 0]%Z [1; 0; 0]%Z).
  { intros Hc%list_lt_lex. vm_compute in Hc. discriminate. }
  exact (conj T1 (conj L1
          (conj (proj1 (H 4300 _ (parse "/tmp/a/fig1.svg") _ T1) L1)
                (conj T2 (conj L2
                   (proj2 (H 4300 _ (parse "/tmp/a/fig1.svg") _ T2) L2)))))).
Defined.

End CommandBuilderClaims.

(** * The recompilation pipeline *)

#[local] Arguments Figures.command : simpl never.
#[local] Arguments Figures.pdf_path : simpl never.
#[local] Arguments Figures.version_number : simpl never.
#[local] Arguments Figures.current_latex_template : simpl never.
#[local] Arguments Figures.beautify : simpl never.
#[local] Arguments Main.command : simpl never.
#[local] Arguments Main.pdfPath : simpl never.
#[local] Arguments Main.inkscapeVersionNumber : simpl never.
#[local] Arguments Main.latexTemplate : simpl never.
#[local] Arguments Main.beautify : simpl never.
#[local] Arguments Pathlib.stem : simpl never.
#[local] Arguments Pathlib.suffix : simpl never.
#[local] Arguments Pathlib.str : simpl never.
#[local] Arguments Py.join : simpl never.

Section Pipeline.
Import Pathlib.

Variable config_latex_template : option (string -> string -> string).

(** The pipeline on a file that is not an [.svg]: one debug record and
    nothing else. *)
Lemma maybe_recompile_figure_not_svg (w : World) (x : pathlike) :
  suffix (Path x) <> ".svg" ->
  Figures.maybe_recompile_figure config_latex_template w x
  = ([Log DEBUG (Fmt ("File has changed, but is nog an svg " +:+ suffix (Path x)) [])],
     Ok tt).
Proof.
  intros Hne. unfold Figures.maybe_recompile_figure.
  destruct (String.eqb_spec (suffix (Path x)) ".svg") as [Heq|_]; [contradiction |].
  reflexivity.
Qed.

(** The pipeline on an [.svg] file whose converter answers the probe with a
    readable version and finishes the export with some exit status. *)
Lemma maybe_recompile_figure_svg (w : World) (x : pathlike)
    (v : string) (n : list Z) (rc : Z) :
  suffix (Path x) = ".svg" ->
  check_output w ["inkscape"; "--version"] = Ok v ->
  Figures.version_number (int_max_str_digits w) v = Ok n ->
  run w (Figures.command n (Path x) (Figures.pdf_path (Path x))) = Ok rc ->
  let cmd := Figures.command n (Path x) (Figures.pdf_path (Path x)) in
  let template :=
    Figures.current_latex_template config_latex_template
      (stem (Path x)) (Figures.beautify (stem (Path x))) in
  let before_copy :=
    [Log INFO (Fmt "Recompiling %s" [LPath (Path x)]);
     CheckOutput ["inkscape"; "--version"];
     Log DEBUG (Fmt v []);
     Log DEBUG (Fmt "Running command:" []);
     Log DEBUG (Indent (Py.join " " (map to_str cmd)) "    ");
     Run cmd;
     (if (rc =? 0)%Z then Log DEBUG (Fmt "Command succeeded" [])
      else Log ERROR (Fmt "Return code %s" [LInt rc]));
     ClipboardCopy template] in
  Figures.maybe_recompile_figure config_latex_template w x
  = match pyperclip_copy w template with
    | Ok _ =>
        (before_copy ++ [Log DEBUG (Fmt "Copying LaTeX template:" []);
                         Log DEBUG (Indent template "    ")],
         Ok tt)
    | Raise e => (before_copy, Raise e)
    end.
Proof.
  intros Hsvg Hv Hn Hrc cmd template before_copy.
  unfold Figures.maybe_recompile_figure. rewrite Hsvg. simpl negb. cbv iota.
  subst before_copy cmd template.
  eff_simpl. rewrite Hv. simpl. rewrite Hn. simpl. rewrite Hrc.
  destruct (rc =? 0)%Z; simpl; destruct (pyperclip_copy w _); reflexivity.
Qed.

(** When the version text cannot be read the pipeline stops there: the
    exception leaves [maybe_recompile_figure], nothing is exported and no
    snippet is dispatched. *)
Lemma maybe_recompile_figure_unreadable (w : World) (x : pathlike)
    (v : string) (e : exn) :
  suffix (Path x) = ".svg" ->
  check_output w ["inkscape"; "--version"] = Ok v ->
  Figures.version_number (int_max_str_digits w) v = Raise e ->
  Figures.maybe_recompile_figure config_latex_template w x
  = ([Log INFO (Fmt "Recompiling %s" [LPath (Path x)]);
      CheckOutput ["inkscape"; "--version"];
      Log DEBUG (Fmt v [])],
     Raise e).
Proof.
  intros Hsvg Hv Hn.
  unfold Figures.maybe_recompile_figure. rewrite Hsvg. simpl negb. cbv iota.
  eff_simpl. rewrite Hv. simpl. rewrite Hn. reflexivity.
Qed.

(** C6: a changed file whose extension is not [.svg] is discarded with a
    debug record only: no converter invocation (neither version probe nor
    export) and no snippet. *)
Theorem non_svg_event_is_discarded (w : World) (x : pathlike) :
  suffix (Path x) <> ".svg" ->
  let r := Figures.maybe_recompile_figure config_latex_template w x in
  outcome r = Ok tt
  /\ converter_invocations (trace r) = []
  /\ snippets (trace r) = []
  /\ logged INFO (trace r) = [] /\ logged ERROR (trace r) = []
  /\ length (logged DEBUG (trace r)) = 1%nat
  /\ length (trace r) = 1%nat.
Proof.
  intros Hne r. subst r. rewrite (maybe_recompile_figure_not_svg w x Hne).
  repeat split.
Qed.

(** When the version probe itself fails, the exception leaves the pipeline
    at once. *)
Lemma maybe_recompile_figure_probe_fails (w : World) (x : pathlike) (e : exn) :
  suffix (Path x) = ".svg" ->
  check_output w ["inkscape"; "--version"] = Raise e ->
  Figures.maybe_recompile_figure config_latex_template w x
  = ([Log INFO (Fmt "Recompiling %s" [LPath (Path x)]);
      CheckOutput ["inkscape"; "--version"]],
     Raise e).
Proof.
  intros Hsvg Hv.
  unfold Figures.maybe_recompile_figure. rewrite Hsvg. simpl negb. cbv iota.
  eff_simpl. rewrite Hv. reflexivity.
Qed.

(** C5, as the code has it: a changed [.svg] file does not always give a
    snippet.  When the converter answers the version probe with a text
    without digits, the pipeline raises [IndexError] while it reads the
    version: the export is not started and nothing is handed to the
    clipboard. *)
Lemma svg_event_without_snippet :
  suffix (Path (Str "/tmp/a/figure.svg")) = ".svg"
  /\ outcome (Figures.maybe_recompile_figure None (sample_world "Inkscape" 0)
                (Str "/tmp/a/figure.svg"))
     = Raise IndexError
  /\ snippets (trace (Figures.maybe_recompile_figure None (sample_world "Inkscape" 0)
                        (Str "/tmp/a/figure.svg")))
     = []
  /\ converter_invocations
       (trace (Figures.maybe_recompile_figure None (sample_world "Inkscape" 0)
                 (Str "/tmp/a/figure.svg")))
     = [CheckOutput ["inkscape"; "--version"]].
Proof. repeat split. Qed.

(** C5 (amended): for a changed [.svg] file whose export is started (the
    version probe answers and its answer holds a readable version) and
    returns, exactly one snippet is handed to the clipboard whatever the
    exit status; a non-zero status is logged as an error and a zero status
    is not.  The snippet is computed from the file stem: it is the
    configured template, or else the six lines of the built-in one, on the
    stem as figure name and the stem with blanks for [_] and [-] and in
    title case as title.  When the probe fails, or its answer holds no
    readable version, the pipeline raises before the export and hands
    nothing to the clipboard. *)
Theorem snippet_dispatched_whatever_exit_status (w : World) (x : pathlike) :
  suffix (Path x) = ".svg" ->
  let r := Figures.maybe_recompile_figure config_latex_template w x in
  let name := stem (Path x) in
  let title := Py.title (Py.replace "-" " " (Py.replace "_" " " name)) in
  (forall (v : string) (n : list Z) (rc : Z),
     check_output w ["inkscape"; "--version"] = Ok v ->
     Py.spec_version_tuple (int_max_str_digits w) v = Some n ->
     run w (Figures.command n (Path x) (Figures.pdf_path (Path x))) = Ok rc ->
     snippets (trace r)
     = [match config_latex_template with
        | Some template => template name title
        | None =>
            Py.join Py.nl
              [ "\begin{figure}[ht]";
                "    \centering";
                "    \incfig{" +:+ name +:+ "}";
                "    \caption{"
                  +:+ Py.title (Py.replace "_" " " (Py.replace "-" " " title))
                  +:+ "}";
                "    \label{fig:"
                  +:+ Py.lower (Py.replace " " "_" (Py.replace "-" "_" title))
                  +:+ "}";
                "\end{figure}" ]
        end]
     /\ logged ERROR (trace r)
        = (if (rc =? 0)%Z then [] else [Fmt "Return code %s" [LInt rc]])
     /\ converter_invocations (trace r)
        = [CheckOutput ["inkscape"; "--version"];
           Run (Figures.command n (Path x) (Figures.pdf_path (Path x)))])
  /\ (forall v : string,
        check_output w ["inkscape"; "--version"] = Ok v ->
        Py.spec_version_tuple (int_max_str_digits w) v = None ->
        is_ok (outcome r) = false
        /\ snippets (trace r) = []
        /\ converter_invocations (trace r) = [CheckOutput ["inkscape"; "--version"]])
  /\ (forall e : exn,
        check_output w ["inkscape"; "--version"] = Raise e ->
        outcome r = Raise e
        /\ snippets (trace r) = []
        /\ converter_invocations (trace r) = [CheckOutput ["inkscape"; "--version"]]).
Proof.
  intros Hsvg r name title. subst r. split; [| split].
  - intros v n rc Hv Hn%version_number_spec Hrc.
    rewrite (maybe_recompile_figure_svg w x v n rc Hsvg Hv Hn Hrc).
    fold name. unfold trace.
    assert (Htemplate :
              Figures.current_latex_template config_latex_template name
                (Figures.beautify name)
              = match config_latex_template with
                | Some template => template name title
                | None =>
                    Py.join Py.nl
                      [ "\begin{figure}[ht]";
                        "    \centering";
                        "    \incfig{" +:+ name +:+ "}";
                        "    \caption{"
                          +:+ Py.title (Py.replace "_" " " (Py.replace "-" " " title))
                          +:+ "}";
                        "    \label{fig:"
                          +:+ Py.lower (Py.replace " " "_" (Py.replace "-" "_" title))
                          +:+ "}";
                        "\end{figure}" ]
                end).
    { unfold Figures.current_latex_template, Figures.beautify.
      destruct config_latex_template; reflexivity. }
    rewrite <- Htemplate.
    destruct (pyperclip_copy w _); simpl fst;
      destruct (rc =? 0)%Z; repeat split.
  - intros v Hv Hnone.
    destruct (Figures.version_number (int_max_str_digits w) v) as [n|e] eqn:Hn.
    + apply version_number_spec in Hn. congruence.
    + rewrite (maybe_recompile_figure_unreadable w x v e Hsvg Hv Hn).
      repeat split.
  - intros e He. rewrite (maybe_recompile_figure_probe_fails w x e Hsvg He).
    repeat split.
Qed.

End Pipeline.

(** C5 at work: the export fails with status 3 and the snippet for
    [phase-plot.svg] is dispatched all the same. *)
Lemma snippet_dispatched_whatever_exit_status_witness :
  Pathlib.suffix (Pathlib.Path (Pathlib.Str "/tmp/a/phase-plot.svg")) = ".svg"
  /\ snippets (trace (Figures.maybe_recompile_figure None
                        (sample_world "Inkscape 0.92.4 (5da689c313)" 3)
                        (Pathlib.Str "/tmp/a/phase-plot.svg")))
     = ["\begin{figure}[ht]" +:+ Py.nl
        +:+ "    \centering" +:+ Py.nl
        +:+ "    \incfig{phase-plot}" +:+ Py.nl
        +:+ "    \caption{Phase Plot}" +:+ Py.nl
        +:+ "    \label{fig:phase_plot}" +:+ Py.nl
        +:+ "\end{figure}"]
  /\ logged ERROR (trace (Figures.maybe_recompile_figure None
                            (sample_world "Inkscape 0.92.4 (5da689c313)" 3)
                            (Pathlib.Str "/tmp/a/phase-plot.svg")))
     = [Fmt "Return code %s" [LInt 3]].
Proof.
  assert (Hsvg : Pathlib.suffix (Pathlib.Path (Pathlib.Str "/tmp/a/phase-plot.svg"))
                 = ".svg") by reflexivity.
  pose proof (snippet_dispatched_whatever_exit_status None
                (sample_world "Inkscape 0.92.4 (5da689c313)" 3)
                (Pathlib.Str "/tmp/a/phase-plot.svg") Hsvg) as (H & _).
  destruct (H "Inkscape 0.92.4 (5da689c313)" [0; 92; 4]%Z 3%Z
              eq_refl eq_refl eq_refl) as (H1 & H2 & _).
  exact (conj Hsvg (conj H1 H2)).
Defined.

Lemma non_svg_event_is_discarded_witness :
  Pathlib.suffix (Pathlib.Path (Pathlib.Str "/tmp/a/figure.txt")) <> ".svg"
  /\ converter_invocations
       (trace (Figures.maybe_recompile_figure None (sample_world "Inkscape 1.2.0" 0)
                 (Pathlib.Str "/tmp/a/figure.txt"))) = []
  /\ snippets
       (trace (Figures.maybe_recompile_figure None (sample_world "Inkscape 1.2.0" 0)
                 (Pathlib.Str "/tmp/a/figure.txt"))) = [].
Proof.
  assert (Hne : Pathlib.suffix (Pathlib.Path (Pathlib.Str "/tmp/a/figure.txt"))
                <> ".svg") by (vm_compute; discriminate).
  pose proof (non_svg_event_is_discarded None (sample_world "Inkscape 1.2.0" 0)
                (Pathlib.Str "/tmp/a/figure.txt") Hne) as (_ & H1 & H2 & _).
  exact (conj Hne (conj H1 H2)).
Defined.

(** * Paths *)

Section PathFacts.
Import Pathlib.

Lemma substring_all (b : string) : String.substring 0 (String.length b) b = b.
Proof. induction b as [|c b IH]; simpl; [reflexivity | now rewrite IH]. Qed.

Lemma substring_split (n : string) (i : nat) :
  (i <= String.length n)%nat ->
  n = String.substring 0 i n +:+ String.substring i (String.length n - i) n.
Proof.
  revert i. induction n as [|c n IH]; intros [|i] Hi.
  - reflexivity.
  - simpl in Hi. lia.
  - rewrite Nat.sub_0_r, substring_all. reflexivity.
  - simpl in Hi. simpl. f_equal. apply IH. lia.
Qed.

Lemma substring_prefix_length (n : string) (i : nat) :
  (i <= String.length n)%nat -> String.length (String.substring 0 i n) = i.
Proof.
  revert i. induction n as [|c n IH]; intros [|i]; simpl; intros Hi;
    try reflexivity; try lia.
  f_equal. apply IH. lia.
Qed.

Lemma substring_app_l (a b : string) :
  String.substring 0 (String.length a) (a +:+ b) = a.
Proof.
  induction a as [|c a IH]; simpl.
  - now destruct b.
  - now rewrite IH.
Qed.

Lemma substring_app_r (a b : string) :
  String.substring (String.length a) (String.length b) (a +:+ b) = b.
Proof.
  induction a as [|c a IH]; simpl; [apply substring_all | exact IH].
Qed.

Lemma length_app_string (a b : string) :
  String.length (a +:+ b) = (String.length a + String.length b)%nat.
Proof. induction a as [|c a IH]; simpl; [reflexivity | now rewrite IH]. Qed.

Lemma rfind_lt (c : ascii) (n : string) (i : nat) :
  Py.rfind c n = Some i -> (i < String.length n)%nat.
Proof.
  revert i. induction n as [|d n IH]; simpl; intros i; [discriminate |].
  destruct (Py.rfind c n) as [j|].
  - intros [= <-]. specialize (IH j eq_refl). lia.
  - destruct (Ascii.eqb d c); [| discriminate]. intros [= <-]. lia.
Qed.

Lemma rfind_absent (c : ascii) (b : string) :
  Py.forall_chars (fun d => negb (Ascii.eqb d c)) b = true ->
  Py.rfind c b = None.
Proof.
  induction b as [|d b IH]; simpl; [reflexivity |].
  intros [Hd Hb]%andb_prop. rewrite (IH Hb).
  apply negb_true_iff in Hd. now rewrite Hd.
Qed.

Lemma rfind_app (c : ascii) (a b : string) :
  Py.forall_chars (fun d => negb (Ascii.eqb d c)) b = true ->
  Py.rfind c (a +:+ String c b) = Some (String.length a).
Proof.
  intros Hb. induction a as [|d a IH]; simpl.
  - now rewrite (rfind_absent c b Hb), Ascii.eqb_refl.
  - now rewrite IH.
Qed.

(** A name with suffix [.svg] is its stem followed by [.svg], and the stem
    is not empty. *)
Lemma svg_name (p : PurePath) :
  suffix p = ".svg" ->
  name p = stem p +:+ ".svg" /\ stem p <> "".
Proof.
  unfold suffix, stem. destruct (Py.rfind "." (name p)) as [i|] eqn:Hi;
    [| discriminate].
  pose proof (rfind_lt _ _ _ Hi) as Hlt.
  destruct ((0 <? i)%nat && (i <? String.length (name p) - 1)%nat) eqn:Hc;
    [| discriminate].
  apply andb_prop in Hc as [Hpos%Nat.ltb_lt _].
  intros Hs. split.
  - rewrite <- Hs. apply substring_split. lia.
  - intros He. apply (f_equal String.length) in He.
    rewrite substring_prefix_length in He by lia. simpl in He. lia.
Qed.

Lemma stem_suffix_of_dotted (a ext : string) :
  a <> "" -> ext <> "" ->
  Py.forall_chars (fun d => negb (Ascii.eqb d ".")) ext = true ->
  forall p, name p = a +:+ String "." ext ->
  stem p = a /\ suffix p = String "." ext.
Proof.
  intros Ha Hext Hnodot p Hname. unfold stem, suffix. rewrite Hname.
  rewrite (rfind_app "." a ext Hnodot).
  rewrite length_app_string. simpl String.length.
  assert (0 < String.length a)%nat by (destruct a; [congruence | simpl; lia]).
  assert (0 < String.length ext)%nat by (destruct ext; [congruence | simpl; lia]).
  assert (Hc : (0 <? String.length a)%nat
               && (String.length a <? String.length a + S (String.length ext) - 1)%nat
               = true).
  { apply andb_true_intro. split; apply Nat.ltb_lt; lia. }
  rewrite Hc. split.
  - apply substring_app_l.
  - replace (String.length a + S (String.length ext) - String.length a)%nat
      with (String.length (String "." ext)) by (simpl; lia).
    apply substring_app_r.
Qed.

Lemma lstrip_by_no_match (f : ascii -> bool) (s : string) :
  Py.forall_chars (fun c => negb (f c)) s = true -> Py.lstrip_by f s = s.
Proof.
  destruct s as [|c s]; simpl; [reflexivity |].
  intros [Hc _]%andb_prop. apply negb_true_iff in Hc. now rewrite Hc.
Qed.

(** Parsing a plain file name gives that one component. *)
Lemma parse_plain_name (s : string) :
  is_component s = true ->
  Py.forall_chars (fun c => negb (Ascii.eqb c "/")) s = true ->
  parse s = {| root := ""; parts := [s] |}.
Proof.
  intros Hcomp Hslash. unfold parse.
  rewrite (lstrip_by_no_match _ s Hslash), Nat.sub_diag. simpl.
  rewrite (split_without_sep "/" s Hslash). simpl. now rewrite Hcomp.
Qed.

Lemma parse_well_formed (s : string) : well_formed (parse s).
Proof.
  unfold well_formed, parse. simpl.
  set (rel := Py.lstrip_by _ s).
  pose proof (split_forall (fun _ => true) "/" rel) as Hsplit.
  assert (Hall : Py.forall_chars (fun _ => true) rel = true)
    by (clear; induction rel; simpl; auto).
  specialize (Hsplit Hall). clear Hall.
  induction Hsplit as [|x l Hx _ IH]; simpl; [constructor |].
  destruct (is_component x) eqn:Hc; [| exact IH].
  constructor; [| exact IH]. split; [exact Hc | exact Hx].
Qed.

Lemma joinpath_well_formed (p : PurePath) (s : string) :
  well_formed p -> well_formed (joinpath p s).
Proof.
  intros Hp. unfold joinpath.
  destruct (String.eqb (root (parse s)) ""); [| apply parse_well_formed].
  unfold well_formed. simpl. apply Forall_app. split; [exact Hp |].
  apply parse_well_formed.
Qed.

Lemma Path_well_formed (x : pathlike) :
  match x with Str _ => True | PathObj p => well_formed p end ->
  well_formed (Path x).
Proof. destruct x; simpl; [intros _; apply parse_well_formed | auto]. Qed.

Lemma last_well_formed (p : PurePath) :
  well_formed p -> parts p <> [] ->
  is_component (name p) = true
  /\ Py.forall_chars (fun c => negb (Ascii.eqb c "/")) (name p) = true.
Proof.
  unfold well_formed, name. intros Hwf Hne.
  induction Hwf as [|x l Hx _ IH]; [congruence |].
  destruct l as [|y l]; [exact Hx |]. apply IH. discriminate.
Qed.

(** The output path of an [.svg] source: same root, same directory, the
    stem followed by [.pdf]. *)
Lemma pdf_path_parts (p : PurePath) :
  well_formed p -> suffix p = ".svg" ->
  Figures.pdf_path p
  = {| root := root p; parts := removelast (parts p) ++ [stem p +:+ ".pdf"] |}.
Proof.
  intros Hwf Hsvg. destruct (svg_name p Hsvg) as [Hname Hstem].
  assert (Hparts : parts p <> []).
  { intros He. unfold name in Hname. rewrite He in Hname. simpl in Hname.
    destruct (stem p); discriminate. }
  destruct (last_well_formed p Hwf Hparts) as [_ Hslash].
  rewrite Hname, forall_chars_app in Hslash.
  apply andb_prop in Hslash as [Hslash _].
  unfold Figures.pdf_path, joinpath.
  rewrite (parse_plain_name (stem p +:+ ".pdf")).
  - simpl. unfold parent. destruct (parts p); [congruence | reflexivity].
  - unfold is_component. apply andb_true_intro. split; apply negb_true_iff;
      apply String.eqb_neq; destruct (stem p) as [|c [|d r]];
      try congruence; discriminate.
  - rewrite forall_chars_app, Hslash. reflexivity.
Qed.

(** The output path keeps the directory and the stem of the source and has
    the extension [.pdf]. *)
Lemma pdf_path_spec (p : PurePath) :
  well_formed p -> suffix p = ".svg" ->
  parent (Figures.pdf_path p) = parent p
  /\ stem (Figures.pdf_path p) = stem p
  /\ suffix (Figures.pdf_path p) = ".pdf"
  /\ root (Figures.pdf_path p) = root p.
Proof.
  intros Hwf Hsvg. rewrite (pdf_path_parts p Hwf Hsvg).
  destruct (svg_name p Hsvg) as [Hname Hstem].
  assert (Hparts : parts p <> []).
  { intros He. unfold name in Hname. rewrite He in Hname. simpl in Hname.
    destruct (stem p); discriminate. }
  assert (Hn : name {| root := root p;
                       parts := removelast (parts p) ++ [stem p +:+ ".pdf"] |}
               = stem p +:+ ".pdf").
  { unfold name. simpl. apply last_last. }
  destruct (stem_suffix_of_dotted (stem p) "pdf" Hstem ltac:(discriminate)
              eq_refl _ Hn) as [Hs Hx].
  repeat split; try assumption.
  unfold parent. simpl.
  destruct (removelast (parts p) ++ [stem p +:+ ".pdf"]) eqn:Hl.
  - destruct (removelast (parts p)); discriminate.
  - rewrite <- Hl, removelast_last. destruct (parts p); [congruence | reflexivity].
Qed.

End PathFacts.

(** * The two entry points *)

Section EntryPoints.
Import Pathlib.

Lemma same_converter_invocations
    (cfg : option (string -> string -> string)) (w : World) (x : pathlike) :
  converter_invocations (trace (Figures.maybe_recompile_figure cfg w x))
  = converter_invocations (trace (Main.maybeRecompileFigure w x)).
Proof.
  unfold Figures.maybe_recompile_figure, Main.maybeRecompileFigure.
  destruct (negb (String.eqb (suffix (Path x)) ".svg")); [reflexivity |].
  eff_simpl.
  destruct (check_output w ["inkscape"; "--version"]) as [v|]; [| reflexivity].
  simpl. change (Main.inkscapeVersionNumber (int_max_str_digits w) v)
    with (Figures.version_number (int_max_str_digits w) v).
  destruct (Figures.version_number (int_max_str_digits w) v) as [n|];
    [| reflexivity].
  simpl. change (Main.command n (Path x) (Main.pdfPath (Path x)))
    with (Figures.command n (Path x) (Figures.pdf_path (Path x))).
  destruct (run w _) as [rc|]; [| reflexivity].
  destruct (rc =? 0)%Z; simpl;
    destruct (pyperclip_copy w (Figures.current_latex_template _ _ _));
    destruct (pyperclip_copy w (Main.latexTemplate _ _)); reflexivity.
Qed.

(** C10: for every version text and source path the two entry points build
    the same argument vector and the same output path, and their pipelines
    start the converter with the same arguments; for an [.svg] source the
    output path has the stem of the source, the extension [.pdf] and the
    directory of the source. *)
Theorem entry_points_build_same_command :
  (forall (lim : nat) (v : string) (p : PurePath),
     Figures.command_builder lim v p = Main.commandBuilder lim v p)
  /\ (forall p : PurePath, Figures.pdf_path p = Main.pdfPath p)
  /\ (forall (cfg : option (string -> string -> string)) (w : World) (x : pathlike),
        converter_invocations (trace (Figures.maybe_recompile_figure cfg w x))
        = converter_invocations (trace (Main.maybeRecompileFigure w x)))
  /\ (forall p : PurePath,
        well_formed p -> suffix p = ".svg" ->
        parent (Main.pdfPath p) = parent p
        /\ stem (Main.pdfPath p) = stem p
        /\ suffix (Main.pdfPath p) = ".pdf").
Proof.
  split; [reflexivity |]. split; [reflexivity |].
  split; [exact same_converter_invocations |].
  intros p Hwf Hsvg.
  destruct (pdf_path_spec p Hwf Hsvg) as (H1 & H2 & H3 & _).
  exact (conj H1 (conj H2 H3)).
Qed.

Lemma entry_points_build_same_command_witness :
  well_formed (parse "/tmp/a/fig1.svg")
  /\ suffix (parse "/tmp/a/fig1.svg") = ".svg"
  /\ str (Main.pdfPath (parse "/tmp/a/fig1.svg")) = "/tmp/a/fig1.pdf"
  /\ parent (Main.pdfPath (parse "/tmp/a/fig1.svg")) = parent (parse "/tmp/a/fig1.svg")
  /\ suffix (Main.pdfPath (parse "/tmp/a/fig1.svg")) = ".pdf".
Proof.
  pose proof entry_points_build_same_command as (_ & _ & _ & H).
  destruct (H (parse "/tmp/a/fig1.svg") (parse_well_formed _) eq_refl)
    as (H1 & _ & H3).
  exact (conj (parse_well_formed _) (conj eq_refl (conj eq_refl (conj H1 H3)))).
Defined.

(** The snippets of the two entry points differ: the float placement is
    [ht] in one and [H] in the other. *)
Lemma entry_points_snippets_differ :
  Figures.latex_template "fig1" "Fig1" <> Main.latexTemplate "fig1" "Fig1".
Proof. vm_compute. discriminate. Qed.

End EntryPoints.

(** * The root registry *)

Section Registry.
Import Pathlib.

Lemma forall_chars_andb (p q : ascii -> bool) (s : string) :
  Py.forall_chars (fun c => p c && q c) s
  = Py.forall_chars p s && Py.forall_chars q s.
Proof.
  induction s as [|c s IH]; cbn [Py.forall_chars]; [reflexivity |].
  rewrite IH. destruct (p c), (q c), (Py.forall_chars p s); reflexivity.
Qed.

Lemma universal_newlines_id (s : string) :
  Py.forall_chars Py.not_cr s = true -> Py.universal_newlines s = s.
Proof.
  induction s as [|c s IH]; simpl; [reflexivity |].
  intros [Hc Hs]%andb_prop. apply negb_true_iff in Hc. rewrite Hc.
  now rewrite (IH Hs).
Qed.

Lemma universal_newlines_cr_free_upto (k : nat) (s : string) :
  (String.length s <= k)%nat ->
  Py.forall_chars Py.not_cr (Py.universal_newlines s) = true.
Proof.
  revert s. induction k as [|k IH]; intros [|c s] Hlen; simpl in *;
    try reflexivity; try lia.
  destruct (Ascii.eqb c Py.CR) eqn:Hc.
  - destruct s as [|c' s']; [reflexivity |].
    destruct (Ascii.eqb c' Py.LF); simpl.
    + apply IH. simpl in Hlen. lia.
    + apply (IH (String c' s')). lia.
  - simpl. unfold Py.not_cr at 1. rewrite Hc. simpl. apply IH. lia.
Qed.

(** What [read_text] returns holds no carriage return. *)
Lemma universal_newlines_cr_free (s : string) :
  Py.forall_chars Py.not_cr (Py.universal_newlines s) = true.
Proof. now apply (universal_newlines_cr_free_upto (String.length s)). Qed.

Lemma join_cons2 (sep x y : string) (l : list string) :
  Py.join sep (x :: y :: l) = x +:+ sep +:+ Py.join sep (y :: l).
Proof. reflexivity. Qed.

(** Splitting at the line feeds and joining with line feeds gives the text
    back. *)
Lemma join_split (s : string) : Py.join Py.nl (Py.split Py.LF s) = s.
Proof.
  induction s as [|c s IH]; [reflexivity |].
  cbn [Py.split]. destruct (Ascii.eqb_spec c Py.LF) as [->|Hne].
  - pose proof (split_not_nil Py.LF s) as Hnn.
    destruct (Py.split Py.LF s) as [|w ws] eqn:E; [congruence |].
    rewrite join_cons2, IH. reflexivity.
  - pose proof (split_not_nil Py.LF s) as Hnn.
    destruct (Py.split Py.LF s) as [|w ws] eqn:E; [congruence |].
    destruct ws as [|w' ws].
    + change (Py.join Py.nl [w]) with w in IH. subst w. reflexivity.
    + rewrite join_cons2 in *. rewrite <- IH. reflexivity.
Qed.

(** A line feed or a carriage return is accepted between two characters
    only. *)
Lemma utf8_step_lf (s : Py.utf8_state) :
  Py.utf8_step s Py.LF
  = match s with Py.Utf8Start => Some Py.Utf8Start | _ => None end.
Proof. destruct s; reflexivity. Qed.

Lemma utf8_step_cr (s : Py.utf8_state) :
  Py.utf8_step s Py.CR
  = match s with Py.Utf8Start => Some Py.Utf8Start | _ => None end.
Proof. destruct s; reflexivity. Qed.

Lemma utf8_run_lf (s : Py.utf8_state) (text : string) :
  Py.utf8_run s (String Py.LF text)
  = match s with Py.Utf8Start => Py.utf8_valid text | _ => false end.
Proof. cbn [Py.utf8_run]. rewrite utf8_step_lf. destruct s; reflexivity. Qed.

Lemma utf8_run_cr (s : Py.utf8_state) (text : string) :
  Py.utf8_run s (String Py.CR text)
  = match s with Py.Utf8Start => Py.utf8_valid text | _ => false end.
Proof. cbn [Py.utf8_run]. rewrite utf8_step_cr. destruct s; reflexivity. Qed.

Lemma utf8_run_app_lf (s : Py.utf8_state) (a b : string) :
  Py.utf8_run s (a +:+ String Py.LF b) = Py.utf8_run s a && Py.utf8_valid b.
Proof.
  revert s. induction a as [|c a IH]; intros s.
  - change ("" +:+ String Py.LF b) with (String Py.LF b).
    rewrite utf8_run_lf. destruct s; reflexivity.
  - change (String c a +:+ String Py.LF b) with (String c (a +:+ String Py.LF b)).
    cbn [Py.utf8_run]. destruct (Py.utf8_step s c); [apply IH | reflexivity].
Qed.

(** Lines joined by line feeds can be encoded exactly when each of them
    can. *)
Lemma utf8_valid_join (l : list string) :
  Py.utf8_valid (Py.join Py.nl l) = forallb Py.utf8_valid l.
Proof.
  induction l as [|x l IH]; [reflexivity |].
  destruct l as [|y l].
  - change (Py.join Py.nl [x]) with x. cbn [forallb]. now rewrite andb_true_r.
  - rewrite join_cons2. unfold Py.nl at 1.
    change (x +:+ String Py.LF "" +:+ Py.join Py.nl (y :: l))
      with (x +:+ String Py.LF (Py.join Py.nl (y :: l))).
    unfold Py.utf8_valid at 1. rewrite utf8_run_app_lf, IH. reflexivity.
Qed.

Lemma utf8_valid_split (text : string) :
  forallb Py.utf8_valid (Py.split Py.LF text) = Py.utf8_valid text.
Proof. now rewrite <- utf8_valid_join, join_split. Qed.

Lemma utf8_run_universal_newlines_upto (k : nat) (s : Py.utf8_state)
    (text : string) :
  (String.length text <= k)%nat ->
  Py.utf8_run s (Py.universal_newlines text) = Py.utf8_run s text.
Proof.
  revert s text. induction k as [|k IH]; intros s [|c text] Hlen;
    try reflexivity; simpl in Hlen; try lia.
  cbn [Py.universal_newlines].
  destruct (Ascii.eqb_spec c Py.CR) as [->|Hc].
  - rewrite utf8_run_cr. destruct text as [|c' text'].
    + rewrite utf8_run_lf. reflexivity.
    + destruct (Ascii.eqb_spec c' Py.LF) as [->|Hc'].
      * rewrite utf8_run_lf. unfold Py.utf8_valid at 2. rewrite utf8_run_lf.
        destruct s; try reflexivity. apply IH. simpl in Hlen. lia.
      * rewrite utf8_run_lf. destruct s; try reflexivity.
        apply (IH Py.Utf8Start (String c' text')). lia.
  - cbn [Py.utf8_run]. destruct (Py.utf8_step s c); [| reflexivity].
    apply IH. lia.
Qed.

(** Reading the line breaks as line feeds does not change what can be
    decoded. *)
Lemma utf8_valid_universal_newlines (text : string) :
  Py.utf8_valid (Py.universal_newlines text) = Py.utf8_valid text.
Proof. apply (utf8_run_universal_newlines_upto (String.length text)). lia. Qed.

(** An ASCII text can be encoded. *)
Lemma isascii_utf8_valid (text : string) :
  Py.isascii text = true -> Py.utf8_valid text = true.
Proof.
  unfold Py.isascii, Py.utf8_valid.
  induction text as [|c text IH]; [reflexivity |].
  cbn [Py.forall_chars Py.utf8_run]. intros [Hc Ht]%andb_prop.
  unfold Py.utf8_step. cbv zeta.
  apply Nat.ltb_lt in Hc.
  destruct (Nat.leb_spec 0 (nat_of_ascii c)); [| lia].
  destruct (Nat.leb_spec (nat_of_ascii c) 127); [| lia].
  cbn [andb]. now apply IH.
Qed.

Lemma join_cr_free (l : list string) :
  Forall (fun r => Py.forall_chars Py.not_cr r = true) l ->
  Py.forall_chars Py.not_cr (Py.join Py.nl l) = true.
Proof.
  induction 1 as [|x l Hx Hl IH]; [reflexivity |].
  destruct l as [|y l]; [exact Hx |].
  rewrite join_cons2, !forall_chars_app, Hx, IH. reflexivity.
Qed.

(** Joining lines with the line feed and splitting on it gives the lines
    back, provided no line holds a line feed. *)
Lemma split_join (l : list string) :
  l <> [] ->
  Forall (fun r => Py.forall_chars Py.not_lf r = true) l ->
  Py.split Py.LF (Py.join Py.nl l) = l.
Proof.
  intros Hne Hl. induction Hl as [|x l Hx Hl IH]; [congruence |].
  destruct l as [|y l].
  - apply split_without_sep. exact Hx.
  - rewrite join_cons2. unfold Py.nl at 1. simpl String.append.
    rewrite (split_app_sep Py.LF x _ Hx). f_equal. apply IH. discriminate.
Qed.

Lemma filter_nonempty_id (l : list string) :
  Forall (fun r => r <> "") l ->
  List.filter (fun root => negb (String.eqb root "")) l = l.
Proof.
  induction 1 as [|x l Hx _ IH]; simpl; [reflexivity |].
  apply String.eqb_neq in Hx. now rewrite Hx, IH.
Qed.

Lemma one_line_spec (r : string) :
  Figures.one_line r = true
  <-> r <> "" /\ Py.forall_chars Py.not_lf r = true /\ Py.forall_chars Py.not_cr r = true.
Proof.
  unfold Figures.one_line.
  rewrite (forall_chars_andb Py.not_lf Py.not_cr r).
  rewrite !andb_true_iff, negb_true_iff, String.eqb_neq. tauto.
Qed.

Lemma contains_In (path : string) (roots : list string) :
  Figures.contains path roots = true <-> In path roots.
Proof.
  unfold Figures.contains. rewrite existsb_exists. split.
  - intros (r & Hin & ->%String.eqb_eq). exact Hin.
  - intros Hin. exists path. split; [exact Hin | apply String.eqb_refl].
Qed.

(** [get_roots] returns normally exactly on a file that exists and whose
    content can be decoded. *)
Lemma get_roots_some (data : string) :
  Py.utf8_valid data = true ->
  Figures.get_roots (Some data)
  = Ok (List.filter (fun root => negb (String.eqb root ""))
          (Py.split Py.LF (Py.universal_newlines data))).
Proof. intros H. unfold Figures.get_roots, read_text. now rewrite H. Qed.

Lemma get_roots_undecodable (data : string) :
  Py.utf8_valid data = false ->
  Figures.get_roots (Some data) = Raise UnicodeDecodeError.
Proof. intros H. unfold Figures.get_roots, read_text. now rewrite H. Qed.

Lemma get_roots_inv (f : RootsFile) (roots : list string) :
  Figures.get_roots f = Ok roots ->
  exists data,
    f = Some data /\ Py.utf8_valid data = true
    /\ roots = List.filter (fun root => negb (String.eqb root ""))
                 (Py.split Py.LF (Py.universal_newlines data)).
Proof.
  destruct f as [data|]; [| discriminate].
  unfold Figures.get_roots, read_text.
  destruct (Py.utf8_valid data) eqn:H; [| discriminate].
  intros [= <-]. eauto.
Qed.

(** Every entry that [get_roots] returns can be encoded again. *)
Lemma get_roots_valid (f : RootsFile) (roots : list string) :
  Figures.get_roots f = Ok roots ->
  Forall (fun r => Py.utf8_valid r = true) roots.
Proof.
  intros (data & -> & Hvalid & ->)%get_roots_inv.
  rewrite <- utf8_valid_universal_newlines, <- utf8_valid_split in Hvalid.
  rewrite forallb_forall in Hvalid.
  apply List.Forall_forall. intros r [Hr _]%filter_In. now apply Hvalid.
Qed.

(** Every entry that [get_roots] returns fits on one line. *)
Lemma get_roots_one_line (data : string) (roots : list string) :
  Figures.get_roots (Some data) = Ok roots ->
  Forall (fun r => Figures.one_line r = true) roots.
Proof.
  intros (data' & [= <-] & _ & ->)%get_roots_inv.
  apply Forall_forall. intros r Hr%list_elem_of_In.
  apply filter_In in Hr as [Hin Hne]. apply one_line_spec.
  pose proof (split_forall Py.not_cr Py.LF _ (universal_newlines_cr_free data)) as Hs.
  rewrite Forall_forall in Hs. specialize (Hs r). cbv beta in Hs.
  assert (Hr : Py.forall_chars (fun c => Py.not_cr c && negb (Ascii.eqb c Py.LF)) r = true)
    by (apply Hs, list_elem_of_In, Hin).
  split; [| split].
  - apply String.eqb_neq, negb_true_iff, Hne.
  - revert Hr. apply forall_chars_impl. intros c [_ H]%andb_prop. exact H.
  - revert Hr. apply forall_chars_impl. intros c [H _]%andb_prop. exact H.
Qed.

(** Writing one-line entries and reading them back gives the same list. *)
Lemma get_roots_join (l : list string) :
  Forall (fun r => Figures.one_line r = true) l ->
  Forall (fun r => Py.utf8_valid r = true) l ->
  Figures.get_roots (Some (Py.join Py.nl l)) = Ok l.
Proof.
  intros Hl Hvalid. destruct l as [|x l]; [reflexivity |].
  rewrite get_roots_some
    by (rewrite utf8_valid_join; apply forallb_forall;
        now apply List.Forall_forall).
  f_equal.
  rewrite universal_newlines_id.
  - rewrite split_join; [| discriminate |].
    + apply filter_nonempty_id. eapply Forall_impl; [exact Hl |].
      intros r Hr%one_line_spec. tauto.
    + eapply Forall_impl; [exact Hl |]. intros r Hr%one_line_spec. tauto.
  - apply join_cr_free. eapply Forall_impl; [exact Hl |].
    intros r Hr%one_line_spec. tauto.
Qed.

Lemma add_root_present (x : pathlike) (f : RootsFile) (roots : list string) :
  Figures.get_roots f = Ok roots ->
  Figures.contains (to_str x) roots = true ->
  Figures.add_root x f = ([], Ok f).
Proof.
  intros Hroots Hin. unfold Figures.add_root. eff_simpl.
  now rewrite Hroots, Hin.
Qed.

(** What [add_root] writes can be encoded exactly when the new path
    can. *)
Lemma utf8_valid_new_registry (f : RootsFile) (roots : list string) (path : string) :
  Figures.get_roots f = Ok roots ->
  Py.utf8_valid (Py.join Py.nl (roots ++ [path])) = Py.utf8_valid path.
Proof.
  intros Hvalid%get_roots_valid.
  rewrite utf8_valid_join, forallb_app. cbn [forallb]. rewrite andb_true_r.
  replace (forallb Py.utf8_valid roots) with true; [reflexivity |].
  symmetry. apply forallb_forall. now apply List.Forall_forall.
Qed.

Lemma add_root_absent (x : pathlike) (f : RootsFile) (roots : list string) :
  Figures.get_roots f = Ok roots ->
  Figures.contains (to_str x) roots = false ->
  Py.utf8_valid (to_str x) = true ->
  Figures.add_root x f
  = ([WriteText (Py.join Py.nl (roots ++ [to_str x]))],
     Ok (Some (Py.join Py.nl (roots ++ [to_str x])))).
Proof.
  intros Hroots Hin Hvalid. unfold Figures.add_root, write_text. eff_simpl.
  rewrite Hroots. simpl. rewrite Hin.
  now rewrite (utf8_valid_new_registry f roots _ Hroots), Hvalid.
Qed.

(** A path that cannot be encoded is in no registry that was read, and
    writing it fails after the file was emptied. *)
Lemma add_root_unencodable (x : pathlike) (f : RootsFile) (roots : list string) :
  Figures.get_roots f = Ok roots ->
  Py.utf8_valid (to_str x) = false ->
  Figures.contains (to_str x) roots = false
  /\ Figures.add_root x f = ([WriteText ""], Raise UnicodeEncodeError).
Proof.
  intros Hroots Hvalid.
  assert (Hin : Figures.contains (to_str x) roots = false).
  { destruct (Figures.contains (to_str x) roots) eqn:Hin; [| reflexivity].
    apply contains_In in Hin.
    pose proof (get_roots_valid f roots Hroots) as Hall.
    rewrite List.Forall_forall in Hall. rewrite (Hall _ Hin) in Hvalid.
    discriminate. }
  split; [exact Hin |].
  unfold Figures.add_root, write_text. eff_simpl.
  rewrite Hroots. simpl. rewrite Hin.
  now rewrite (utf8_valid_new_registry f roots _ Hroots), Hvalid.
Qed.

(** The registry after [add_root]: the entries that were there, then the
    new path if it was not among them. *)
Lemma add_root_get_roots (x : pathlike) (f : RootsFile) (roots : list string) :
  Figures.one_line (to_str x) = true ->
  Py.utf8_valid (to_str x) = true ->
  Figures.get_roots f = Ok roots ->
  exists f',
    outcome (Figures.add_root x f) = Ok f'
    /\ Figures.get_roots f'
       = Ok (if Figures.contains (to_str x) roots then roots
             else roots ++ [to_str x]).
Proof.
  intros Hline Hvalid Hroots.
  destruct (Figures.contains (to_str x) roots) eqn:Hin.
  - exists f. rewrite (add_root_present x f roots Hroots Hin). auto.
  - eexists. rewrite (add_root_absent x f roots Hroots Hin Hvalid).
    split; [reflexivity |].
    apply get_roots_join; apply Forall_app; split.
    + destruct f as [data|]; [| discriminate].
      eapply get_roots_one_line, Hroots.
    + repeat constructor. exact Hline.
    + eapply get_roots_valid, Hroots.
    + repeat constructor. exact Hvalid.
Qed.

Lemma add_root_keeps_NoDup (x : pathlike) (roots : list string) :
  NoDup roots ->
  NoDup (if Figures.contains (to_str x) roots then roots else roots ++ [to_str x]).
Proof.
  intros Hnd. destruct (Figures.contains (to_str x) roots) eqn:Hin; [exact Hnd |].
  apply NoDup_app. split; [exact Hnd |]. split; [| apply NoDup_singleton].
  intros r Hr ->%list_elem_of_singleton.
  assert (Figures.contains (to_str x) roots = true)
    by (apply contains_In, list_elem_of_In, Hr).
  congruence.
Qed.

(** Any sequence of [add_root] calls with one-line paths that can be
    encoded keeps a duplicate-free registry duplicate-free, and every added
    path is in it. *)
Lemma add_roots_keep_NoDup (paths : list pathlike) :
  Forall (fun x => Figures.one_line (to_str x) = true
                   /\ Py.utf8_valid (to_str x) = true) paths ->
  forall (f : RootsFile) (roots : list string),
    Figures.get_roots f = Ok roots -> NoDup roots ->
    exists f' roots',
      outcome (Figures.add_roots paths f) = Ok f'
      /\ Figures.get_roots f' = Ok roots'
      /\ NoDup roots'
      /\ (forall r, In r roots -> In r roots')
      /\ (forall x, In x paths -> In (to_str x) roots').
Proof.
  induction 1 as [|x paths [Hx Hvx] _ IH]; intros f roots Hroots Hnd.
  - exists f, roots. simpl. repeat split; auto. intros x [].
  - destruct (add_root_get_roots x f roots Hx Hvx Hroots) as (f1 & Hadd & Hroots1).
    destruct (IH f1 _ Hroots1 (add_root_keeps_NoDup x roots Hnd))
      as (f' & roots' & Hout & Hget & Hnd' & Hold & Hnew).
    exists f', roots'.
    assert (Hx1 : In (to_str x)
                    (if Figures.contains (to_str x) roots then roots
                     else roots ++ [to_str x])).
    { destruct (Figures.contains (to_str x) roots) eqn:Hin.
      - now apply contains_In.
      - apply in_or_app. right. now left. }
    repeat split; auto.
    + simpl. unfold outcome in *. eff_simpl.
      destruct (Figures.add_root x f) as [t [f1'|e]]; simpl in *; [| discriminate].
      injection Hadd as ->.
      destruct (Figures.add_roots paths f1) as [t' r']. simpl in *. exact Hout.
    + intros r Hr. apply Hold.
      destruct (Figures.contains (to_str x) roots); [exact Hr |].
      apply in_or_app. now left.
    + intros y [<- | Hy]; [now apply Hold | now apply Hnew].
Qed.

End Registry.

Section RegistryClaims.
Import Pathlib.

Lemma count_after_add (x : pathlike) (roots : list string) (r : string) :
  count_occ String.string_dec
    (if Figures.contains (to_str x) roots then roots else roots ++ [to_str x]) r
  = if String.eqb r (to_str x)
    then Nat.max 1 (count_occ String.string_dec roots r)
    else count_occ String.string_dec roots r.
Proof.
  destruct (String.eqb_spec r (to_str x)) as [->|Hne].
  - destruct (Figures.contains (to_str x) roots) eqn:Hin.
    + apply contains_In in Hin.
      apply (count_occ_In String.string_dec) in Hin. lia.
    + assert (Hnot : ~ In (to_str x) roots).
      { intros Hc%contains_In. congruence. }
      apply (count_occ_not_In String.string_dec) in Hnot.
      rewrite count_occ_app, Hnot. simpl.
      destruct (String.string_dec (to_str x) (to_str x)); [reflexivity | congruence].
  - destruct (Figures.contains (to_str x) roots); [reflexivity |].
    rewrite count_occ_app. simpl.
    destruct (String.string_dec (to_str x) r); [congruence | lia].
Qed.

(** No sequence of [add_root] calls with one-line paths that can be encoded
    raises the number of copies of an entry above one. *)
Lemma add_roots_count (paths : list pathlike) :
  Forall (fun x => Figures.one_line (to_str x) = true
                   /\ Py.utf8_valid (to_str x) = true) paths ->
  forall (f : RootsFile) (roots : list string),
    Figures.get_roots f = Ok roots ->
    exists f' roots',
      outcome (Figures.add_roots paths f) = Ok f'
      /\ Figures.get_roots f' = Ok roots'
      /\ forall r, (count_occ String.string_dec roots' r
                    <= Nat.max 1 (count_occ String.string_dec roots r))%nat.
Proof.
  induction 1 as [|x paths [Hx Hvx] _ IH]; intros f roots Hroots.
  - exists f, roots. repeat split; auto. intros r. lia.
  - destruct (add_root_get_roots x f roots Hx Hvx Hroots) as (f1 & Hadd & Hroots1).
    destruct (IH f1 _ Hroots1) as (f' & roots' & Hout & Hget & Hcount).
    exists f', roots'. repeat split; auto.
    + simpl. unfold outcome in *. eff_simpl.
      destruct (Figures.add_root x f) as [t [f1'|e]]; simpl in *; [| discriminate].
      injection Hadd as ->.
      destruct (Figures.add_roots paths f1) as [t' r']. simpl in *. exact Hout.
    + intros r. specialize (Hcount r). rewrite count_after_add in Hcount.
      destruct (String.eqb r (to_str x)); lia.
Qed.

(** C7, as the code has it: a path that holds a line break is stored on two
    lines, so it is never found again; adding it a second time rewrites the
    file and leaves duplicate entries. *)
Lemma add_root_twice_duplicates_entries :
  outcome (Figures.add_roots [Str ("/tmp/a" +:+ Py.nl +:+ "b");
                              Str ("/tmp/a" +:+ Py.nl +:+ "b")] (Some ""))
  = Ok (Some ("/tmp/a" +:+ Py.nl +:+ "b" +:+ Py.nl +:+ "/tmp/a" +:+ Py.nl +:+ "b"))
  /\ Figures.get_roots
       (Some ("/tmp/a" +:+ Py.nl +:+ "b" +:+ Py.nl +:+ "/tmp/a" +:+ Py.nl +:+ "b"))
     = Ok ["/tmp/a"; "b"; "/tmp/a"; "b"]
  /\ ~ NoDup ["/tmp/a"; "b"; "/tmp/a"; "b"]
  /\ length (trace (Figures.add_roots [Str ("/tmp/a" +:+ Py.nl +:+ "b");
                                       Str ("/tmp/a" +:+ Py.nl +:+ "b")] (Some "")))
     = 2%nat.
Proof.
  repeat split; try (vm_compute; reflexivity).
  intros [Hnotin _]%NoDup_cons. apply Hnotin.
  apply list_elem_of_In. simpl. tauto.
Qed.

(** C7 (amended): for a path that fits on one line (not empty, no line
    break) and can be encoded, and a registry file that can be read,
    [add_root] is idempotent and never creates a duplicate: a path already
    present is left alone and the file is not written; after a first call a
    second call changes nothing, and the path is in the registry once unless
    it was there several times before; and no sequence of such calls raises
    the number of copies of any entry above one, so a duplicate-free registry
    stays duplicate-free. *)
Theorem add_root_idempotent_unique
    (x : pathlike) (f : RootsFile) (roots : list string) :
  Figures.one_line (to_str x) = true ->
  Py.utf8_valid (to_str x) = true ->
  Figures.get_roots f = Ok roots ->
  (In (to_str x) roots -> Figures.add_root x f = ([], Ok f))
  /\ (exists f1 roots1,
        outcome (Figures.add_root x f) = Ok f1
        /\ registry_after (trace (Figures.add_root x f)) f = f1
        /\ Figures.get_roots f1 = Ok roots1
        /\ Figures.add_root x f1 = ([], Ok f1)
        /\ count_occ String.string_dec roots1 (to_str x)
           = Nat.max 1 (count_occ String.string_dec roots (to_str x)))
  /\ (forall paths,
        Forall (fun y => Figures.one_line (to_str y) = true
                         /\ Py.utf8_valid (to_str y) = true) paths ->
        exists f' roots',
          outcome (Figures.add_roots paths f) = Ok f'
          /\ Figures.get_roots f' = Ok roots'
          /\ (forall r, (count_occ String.string_dec roots' r
                         <= Nat.max 1 (count_occ String.string_dec roots r))%nat)
          /\ (NoDup roots -> NoDup roots')).
Proof.
  intros Hline Hvalid Hroots. split; [| split].
  - intros Hin%contains_In. now apply (add_root_present x f roots).
  - destruct (add_root_get_roots x f roots Hline Hvalid Hroots)
      as (f1 & Hadd & Hroots1).
    assert (Hafter : registry_after (trace (Figures.add_root x f)) f = f1).
    { destruct (Figures.contains (to_str x) roots) eqn:Hin.
      - rewrite (add_root_present x f roots Hroots Hin) in Hadd |- *.
        now injection Hadd.
      - rewrite (add_root_absent x f roots Hroots Hin Hvalid) in Hadd |- *.
        now injection Hadd. }
    exists f1. eexists. split; [exact Hadd |]. split; [exact Hafter |].
    split; [exact Hroots1 |]. split.
    + apply (add_root_present x f1 _ Hroots1). apply contains_In.
      destruct (Figures.contains (to_str x) roots) eqn:Hin.
      * now apply contains_In.
      * apply in_or_app. right. now left.
    + rewrite count_after_add, String.eqb_refl. reflexivity.
  - intros paths Hpaths.
    destruct (add_roots_count paths Hpaths f roots Hroots)
      as (f' & roots' & Hout & Hget & Hcount).
    exists f', roots'. repeat split; auto.
    intros Hnd.
    destruct (add_roots_keep_NoDup paths Hpaths f roots Hroots Hnd)
      as (f2 & roots2 & Hout2 & Hget2 & Hnd2 & _).
    congruence.
Qed.

Lemma add_root_idempotent_unique_witness :
  Figures.one_line (to_str (Str "/tmp/a")) = true
  /\ Figures.get_roots (Some "/tmp/b") = Ok ["/tmp/b"]
  /\ exists f1 roots1,
       outcome (Figures.add_root (Str "/tmp/a") (Some "/tmp/b")) = Ok f1
       /\ Figures.get_roots f1 = Ok roots1
       /\ Figures.add_root (Str "/tmp/a") f1 = ([], Ok f1)
       /\ count_occ String.string_dec roots1 "/tmp/a" = 1%nat.
Proof.
  pose proof (add_root_idempotent_unique (Str "/tmp/a") (Some "/tmp/b")
                ["/tmp/b"] eq_refl eq_refl eq_refl)
    as (_ & (f1 & roots1 & H1 & _ & H2 & H3 & H4) & _).
  exact (conj eq_refl (conj eq_refl
          (ex_intro _ f1 (ex_intro _ roots1 (conj H1 (conj H2 (conj H3 H4))))))).
Defined.

(** C9, as the code has it: [get_roots] on an absent backing file raises
    [FileNotFoundError]; it neither returns the empty registry nor creates
    the file. *)
Lemma get_roots_absent_file_raises :
  Figures.get_roots None = Raise FileNotFoundError
  /\ Figures.get_roots None <> Ok []
  /\ Figures.add_root (Str "/tmp/a") None = ([], Raise FileNotFoundError).
Proof. repeat split; discriminate. Qed.

(** C9 (amended): [get_roots] reads the backing file, splits it at the line
    breaks and drops the empty lines; it raises when the content cannot be
    decoded.  The absent file is dealt with when the module is imported,
    which creates it empty: after that [get_roots] returns without raising
    on every content that can be decoded, with the empty registry when the
    file was absent.  [get_roots] itself raises when the file is absent. *)
Theorem get_roots_reads_lines :
  (forall data : string,
     Py.utf8_valid data = true ->
     exists roots,
       Figures.get_roots (Some data) = Ok roots
       /\ (forall r, In r roots
                     <-> r <> "" /\ In r (Py.split Py.LF (Py.universal_newlines data)))
       /\ Forall (fun r => Figures.one_line r = true) roots)
  /\ (forall data : string,
        Py.utf8_valid data = false ->
        Figures.get_roots (Some data) = Raise UnicodeDecodeError)
  /\ Figures.touch_roots_file None = Some ""
  /\ Figures.get_roots (Figures.touch_roots_file None) = Ok []
  /\ (forall f : RootsFile,
        is_ok (Figures.get_roots (Figures.touch_roots_file f))
        = match f with
          | None => true
          | Some data => Py.utf8_valid data
          end
        /\ (f <> None -> Figures.touch_roots_file f = f))
  /\ Figures.get_roots None = Raise FileNotFoundError.
Proof.
  split; [| split; [exact get_roots_undecodable
                   | split; [reflexivity | split; [reflexivity
                                                  | split; [| reflexivity]]]]].
  - intros data Hvalid. eexists. split; [exact (get_roots_some data Hvalid) |].
    split.
    + intros r. rewrite filter_In, negb_true_iff, String.eqb_neq. tauto.
    + apply (get_roots_one_line data). exact (get_roots_some data Hvalid).
  - intros [data|]; split; try reflexivity; try congruence.
    cbn [Figures.touch_roots_file].
    destruct (Py.utf8_valid data) eqn:Hvalid.
    + now rewrite (get_roots_some data Hvalid).
    + now rewrite (get_roots_undecodable data Hvalid).
Qed.

Lemma get_roots_reads_lines_witness :
  Py.utf8_valid ("/tmp/a" +:+ Py.nl) = true
  /\ Some ("/tmp/a" +:+ Py.nl) <> None
  /\ Figures.touch_roots_file (Some ("/tmp/a" +:+ Py.nl)) = Some ("/tmp/a" +:+ Py.nl)
  /\ exists roots,
       Figures.get_roots (Some ("/tmp/a" +:+ Py.nl)) = Ok roots
       /\ (In "/tmp/a" roots
           <-> "/tmp/a" <> ""
               /\ In "/tmp/a"
                    (Py.split Py.LF (Py.universal_newlines ("/tmp/a" +:+ Py.nl)))).
Proof.
  pose proof get_roots_reads_lines as (H1 & _ & _ & _ & H & _).
  destruct (H (Some ("/tmp/a" +:+ Py.nl))) as (_ & H2).
  destruct (H1 ("/tmp/a" +:+ Py.nl) eq_refl) as (roots & Hget & Hin & _).
  assert (Hne : Some ("/tmp/a" +:+ Py.nl) <> None) by discriminate.
  exact (conj eq_refl (conj Hne (conj (H2 Hne)
           (ex_intro _ roots (conj Hget (Hin "/tmp/a")))))).
Defined.

End RegistryClaims.

(** * The watch daemon *)

Section Daemon.
Import Pathlib.

Variable user_dir : PurePath.
Variable config_latex_template : option (string -> string -> string).

(** The registration loop: it never raises, it asks for a watch on every
    root in turn, it ends up watching the roots the kernel accepted, and it
    leaves one debug record for each root the kernel refused. *)
Lemma register_roots_spec (w : World) (roots : list string) (i : Inotify) :
  exists i',
    Figures.register_roots w roots i
    = (trace (Figures.register_roots w roots i), Ok i')
    /\ (forall p, p ∈ dom (watches i')
                  <-> p ∈ dom (watches i)
                      \/ (In p roots /\ is_ok (inotify_add_watch w p) = true))
    /\ watch_requests (trace (Figures.register_roots w roots i)) = roots
    /\ logged DEBUG (trace (Figures.register_roots w roots i))
       = map could_not_add
             (List.filter (fun r => negb (is_ok (inotify_add_watch w r))) roots)
    /\ converter_invocations (trace (Figures.register_roots w roots i)) = []
    /\ snippets (trace (Figures.register_roots w roots i)) = [].
Proof.
  revert i. induction roots as [|root roots IH]; intros i.
  - exists i. simpl. repeat split; auto. intros [H | [[] _]]. exact H.
  - simpl. eff_simpl. unfold add_watch. eff_simpl.
    destruct (inotify_add_watch w root) as [wd|e] eqn:Hroot; simpl.
    + destruct (IH {| watches := <[root := wd]> (watches i) |})
        as (i' & Heq & Hdom & Hreq & Hlog & Hconv & Hsnip).
      destruct (Figures.register_roots w roots _) as [t r]. simpl in *.
      injection Heq as ->. exists i'. repeat split; auto.
      * rewrite Hdom, dom_insert, elem_of_union, elem_of_singleton.
        intros [[-> | H] | [H1 H2]]; auto.
        right. split; [now left |]. now rewrite Hroot.
      * rewrite Hdom, dom_insert, elem_of_union, elem_of_singleton.
        intros [H | [[<- | H1] H2]]; auto.
      * now rewrite Hreq.
    + destruct (IH i) as (i' & Heq & Hdom & Hreq & Hlog & Hconv & Hsnip).
      destruct (Figures.register_roots w roots i) as [t r]. simpl in *.
      injection Heq as ->. exists i'. repeat split; auto.
      * rewrite Hdom. intros [H | [H1 H2]]; auto.
      * rewrite Hdom. intros [H | [[<- | H1] H2]]; auto.
        rewrite Hroot in H2. discriminate.
      * now rewrite Hreq.
      * now rewrite Hlog.
Qed.

(** The unregistration loop never raises and starts no converter. *)
Lemma unregister_roots_spec (w : World) (roots : list string) (i : Inotify) :
  exists i',
    Figures.unregister_roots w roots i
    = (trace (Figures.unregister_roots w roots i), Ok i')
    /\ converter_invocations (trace (Figures.unregister_roots w roots i)) = []
    /\ snippets (trace (Figures.unregister_roots w roots i)) = []
    /\ watch_requests (trace (Figures.unregister_roots w roots i)) = [].
Proof.
  revert i. induction roots as [|root roots IH]; intros i.
  - exists i. simpl. repeat split; auto.
  - simpl. eff_simpl. unfold remove_watch. eff_simpl.
    destruct (inotify_rm_watch w root) as [u|e]; simpl.
    + destruct (IH {| watches := delete root (watches i) |})
        as (i' & Heq & Hconv & Hsnip & Hreq).
      destruct (Figures.unregister_roots w roots _) as [t r]. simpl in *.
      injection Heq as ->. exists i'. repeat split; auto.
    + destruct (IH i) as (i' & Heq & Hconv & Hsnip & Hreq).
      destruct (Figures.unregister_roots w roots i) as [t r]. simpl in *.
      injection Heq as ->. exists i'. repeat split; auto.
Qed.

(** The head of the outer loop, when the registry file can be read and
    watched. *)
Lemma inotify_setup_spec (w : World) (f : RootsFile) (roots : list string)
    (wd : Z) (u : unit) :
  Figures.get_roots f = Ok roots ->
  inotify_init w = Ok u ->
  inotify_add_watch w (str (Figures.roots_file user_dir)) = Ok wd ->
  exists i,
    Figures.inotify_setup user_dir w f
    = (trace (Figures.inotify_setup user_dir w f), Ok (roots, i))
    /\ (forall p, p ∈ dom (watches i)
                  <-> p = str (Figures.roots_file user_dir)
                      \/ (In p roots /\ is_ok (inotify_add_watch w p) = true))
    /\ watch_requests (trace (Figures.inotify_setup user_dir w f))
       = str (Figures.roots_file user_dir) :: roots
    /\ logged DEBUG (trace (Figures.inotify_setup user_dir w f))
       = map could_not_add
             (List.filter (fun r => negb (is_ok (inotify_add_watch w r))) roots)
    /\ converter_invocations (trace (Figures.inotify_setup user_dir w f)) = []
    /\ snippets (trace (Figures.inotify_setup user_dir w f)) = [].
Proof.
  intros Hroots Hinit Hwatch.
  unfold Figures.inotify_setup, Inotify_new, add_watch. eff_simpl.
  rewrite Hroots, Hinit. simpl. rewrite Hwatch. simpl.
  set (i0 := {| watches := <[str (Figures.roots_file user_dir) := wd]> ∅ |}).
  destruct (register_roots_spec w roots i0)
    as (i & Heq & Hdom & Hreq & Hlog & Hconv & Hsnip).
  destruct (Figures.register_roots w roots i0) as [t r]. simpl in *.
  injection Heq as ->. exists i.
  unfold trace. simpl fst. rewrite app_nil_r.
  split; [reflexivity |]. split; [| split; [| split; [| split]]].
  - intros p. rewrite Hdom. unfold i0. simpl.
    rewrite dom_insert, elem_of_union, elem_of_singleton, dom_empty.
    split; [intros [[H | H] | H] | intros [H | H]]; auto.
    now apply elem_of_empty in H.
  - simpl. now rewrite Hreq.
  - simpl. exact Hlog.
  - simpl. exact Hconv.
  - simpl. exact Hsnip.
Qed.

(** An event on the registry file in the inotify backend: the watches are
    dropped, the loop is left, and the pipeline is not entered. *)
Lemma inotify_on_registry_event (w : World) (roots : list string) (i : Inotify)
    (event : Event) :
  event_path event = str (Figures.roots_file user_dir) ->
  exists i',
    Figures.inotify_on_event user_dir config_latex_template w roots i event
    = (trace (Figures.inotify_on_event user_dir config_latex_template w roots i event),
       Ok (Break, i'))
    /\ converter_invocations
         (trace (Figures.inotify_on_event user_dir config_latex_template w roots i event))
       = []
    /\ snippets
         (trace (Figures.inotify_on_event user_dir config_latex_template w roots i event))
       = [].
Proof.
  intros Hpath. unfold Figures.inotify_on_event.
  rewrite Hpath, String.eqb_refl. eff_simpl.
  destruct (unregister_roots_spec w roots i) as (i' & Heq & Hconv & Hsnip & _).
  destruct (Figures.unregister_roots w roots i) as [t r]. simpl in *.
  injection Heq as ->. exists i'.
  unfold trace. simpl fst. rewrite app_nil_r.
  split; [reflexivity |]. split; simpl; assumption.
Qed.

Lemma rstrip_by_app (p : ascii -> bool) (a b : string) :
  Py.rstrip_by p b <> "" ->
  Py.rstrip_by p (a +:+ b) = a +:+ Py.rstrip_by p b.
Proof.
  intros Hb. induction a as [|c a IH]; simpl; [reflexivity |].
  rewrite IH. destruct (a +:+ Py.rstrip_by p b) eqn:E; [| reflexivity].
  destruct a; simpl in E; [congruence | discriminate].
Qed.

Lemma join_snoc (sep x : string) (l : list string) :
  exists pre, Py.join sep (l ++ [x]) = pre +:+ x.
Proof.
  induction l as [|y l [pre IH]]; simpl.
  - exists "". reflexivity.
  - destruct l as [|z l].
    + exists (y +:+ sep). unfold Py.join. simpl. now rewrite append_assoc.
    + exists (y +:+ sep +:+ pre). simpl app in *. rewrite join_cons2, IH.
      now rewrite !append_assoc.
Qed.

(** For an absolute configuration directory, the line that fswatch prints
    for the registry file is recognised after [strip]. *)
Lemma strip_registry_line :
  root user_dir = "/" ->
  Py.strip (str (Figures.roots_file user_dir) +:+ Py.nl)
  = str (Figures.roots_file user_dir).
Proof.
  intros Hroot. unfold Figures.roots_file, joinpath. simpl.
  unfold str. simpl. rewrite Hroot. simpl.
  destruct (join_snoc "/" "roots" (parts user_dir)) as [pre ->].
  unfold Py.strip.
  change (Py.lstrip_by Py.is_space (String "/" ((pre +:+ "roots") +:+ Py.nl)))
    with ((String "/" pre +:+ "roots") +:+ Py.nl).
  rewrite append_assoc.
  rewrite rstrip_by_app; [| discriminate].
  change (Py.rstrip_by Py.is_space ("roots" +:+ Py.nl)) with "roots".
  reflexivity.
Qed.

(** The same in the fswatch backend: the child process is terminated, the
    loop is left, and the pipeline is not entered. *)
Lemma fswatch_on_registry_line (w : World) (line : string) :
  Py.strip line = str (Figures.roots_file user_dir) ->
  Figures.fswatch_on_line user_dir config_latex_template w line
  = ([Log INFO (Fmt "The roots file has been updated. Updating watches." []);
      Terminate;
      Log DEBUG (Fmt "Removed main watch %s" [])],
     Ok Break).
Proof.
  intros Hline. unfold Figures.fswatch_on_line.
  rewrite Hline, String.eqb_refl. reflexivity.
Qed.

(** The effects of the removal loop: for every root in turn, the request
    and the debug record that says how it went. *)
Lemma unregister_roots_trace (w : World) (roots : list string) (i : Inotify) :
  exists i',
    Figures.unregister_roots w roots i
    = (flat_map
         (fun r => [RemoveWatch r;
                    Log DEBUG (removal_record (is_ok (inotify_rm_watch w r)) r)])
         roots,
       Ok i').
Proof.
  revert i. induction roots as [|root roots IH]; intros i.
  - exists i. reflexivity.
  - simpl. eff_simpl. unfold remove_watch. eff_simpl.
    destruct (inotify_rm_watch w root) as [u|e]; simpl.
    + destruct (IH {| watches := delete root (watches i) |}) as (i' & ->).
      exists i'. reflexivity.
    + destruct (IH i) as (i' & ->). exists i'. reflexivity.
Qed.

(** The effects of the registration loop: for every root in turn, the
    request, and a debug record when it was refused. *)
Lemma register_roots_trace (w : World) (roots : list string) (i : Inotify) :
  trace (Figures.register_roots w roots i)
  = flat_map
      (fun r => AddWatch r
                :: (if is_ok (inotify_add_watch w r) then []
                    else [Log DEBUG (could_not_add r)]))
      roots.
Proof.
  revert i. induction roots as [|root roots IH]; intros i; [reflexivity |].
  simpl. eff_simpl. unfold add_watch. eff_simpl.
  destruct (inotify_add_watch w root) as [wd|e]; simpl.
  - specialize (IH {| watches := <[root := wd]> (watches i) |}).
    destruct (Figures.register_roots w roots _) as [t r]. simpl in *.
    now rewrite IH.
  - specialize (IH i).
    destruct (Figures.register_roots w roots i) as [t r]. simpl in *.
    now rewrite IH.
Qed.

(** Neither loop starts the converter or touches the clipboard. *)
Lemma removal_effects_quiet (w : World) (roots : list string) :
  converter_invocations
    (flat_map
       (fun r => [RemoveWatch r;
                  Log DEBUG (removal_record (is_ok (inotify_rm_watch w r)) r)])
       roots) = []
  /\ snippets
       (flat_map
          (fun r => [RemoveWatch r;
                     Log DEBUG (removal_record (is_ok (inotify_rm_watch w r)) r)])
          roots) = [].
Proof. induction roots as [|r roots [IH1 IH2]]; simpl; auto. Qed.

Lemma registration_effects_quiet (w : World) (roots : list string) :
  converter_invocations
    (flat_map
       (fun r => AddWatch r
                 :: (if is_ok (inotify_add_watch w r) then []
                     else [Log DEBUG (could_not_add r)]))
       roots) = []
  /\ snippets
       (flat_map
          (fun r => AddWatch r
                    :: (if is_ok (inotify_add_watch w r) then []
                        else [Log DEBUG (could_not_add r)]))
          roots) = [].
Proof.
  induction roots as [|r roots [IH1 IH2]]; simpl; auto.
  destruct (is_ok (inotify_add_watch w r)); simpl; auto.
Qed.

Lemma converter_invocations_app (t1 t2 : list effect) :
  converter_invocations (t1 ++ t2)
  = converter_invocations t1 ++ converter_invocations t2.
Proof. apply List.filter_app. Qed.

Lemma snippets_concat (t1 t2 : list effect) :
  snippets (t1 ++ t2) = snippets t1 ++ snippets t2.
Proof.
  induction t1 as [|e t1 IH]; simpl; [reflexivity |].
  destruct e; simpl; now rewrite ?IH.
Qed.

(** The head of the outer loop of the inotify backend never starts the
    converter, whether it completes or raises. *)
Lemma inotify_setup_quiet (w : World) (f : RootsFile) :
  converter_invocations (trace (Figures.inotify_setup user_dir w f)) = []
  /\ snippets (trace (Figures.inotify_setup user_dir w f)) = [].
Proof.
  unfold Figures.inotify_setup, Inotify_new, add_watch. eff_simpl.
  destruct (Figures.get_roots f) as [roots|e]; simpl; [| auto].
  destruct (inotify_init w) as [u|e]; simpl; [| auto].
  destruct (inotify_add_watch w (str (Figures.roots_file user_dir))) as [wd|e];
    simpl; [| auto].
  set (i0 := {| watches := <[str (Figures.roots_file user_dir) := wd]> ∅ |}).
  destruct (register_roots_spec w roots i0) as (i & Heq & _ & _ & _ & Hconv & Hsnip).
  destruct (Figures.register_roots w roots i0) as [t r]. simpl in *.
  injection Heq as ->. simpl. rewrite app_nil_r. auto.
Qed.

Lemma fswatch_setup_quiet (w : World) (f : RootsFile) :
  converter_invocations (trace (Figures.fswatch_setup user_dir w f)) = []
  /\ snippets (trace (Figures.fswatch_setup user_dir w f)) = [].
Proof.
  unfold Figures.fswatch_setup. eff_simpl.
  destruct (Figures.get_roots f) as [roots|e]; simpl; [| auto].
  destruct (popen w _); simpl; auto.
Qed.

(** The handler of an event on the registry file in the inotify backend:
    the record of the update, then the removal loop, and the inner loop is
    left. *)
Lemma inotify_on_registry_event_trace (w : World) (roots : list string)
    (i : Inotify) (event : Event) :
  event_path event = str (Figures.roots_file user_dir) ->
  exists i',
    Figures.inotify_on_event user_dir config_latex_template w roots i event
    = (Log INFO (Fmt "The roots file has been updated. Updating watches." [])
         :: flat_map
              (fun r => [RemoveWatch r;
                         Log DEBUG (removal_record (is_ok (inotify_rm_watch w r)) r)])
              roots,
       Ok (Break, i')).
Proof.
  intros Hpath. unfold Figures.inotify_on_event.
  rewrite Hpath, String.eqb_refl. eff_simpl.
  destruct (unregister_roots_trace w roots i) as (i' & ->).
  exists i'. now rewrite app_nil_r.
Qed.

(** The effects of the head of the outer loop when it completes. *)
Lemma inotify_setup_trace (w : World) (f : RootsFile) (roots : list string)
    (wd : Z) (u : unit) :
  Figures.get_roots f = Ok roots ->
  inotify_init w = Ok u ->
  inotify_add_watch w (str (Figures.roots_file user_dir)) = Ok wd ->
  trace (Figures.inotify_setup user_dir w f)
  = [InotifyInit;
     AddWatch (str (Figures.roots_file user_dir));
     Log INFO (Fmt ("Watching directories: " +:+ Py.join ", " roots) [])]
    ++ flat_map
         (fun r => AddWatch r
                   :: (if is_ok (inotify_add_watch w r) then []
                       else [Log DEBUG (could_not_add r)]))
         roots.
Proof.
  intros Hroots Hinit Hwatch.
  unfold Figures.inotify_setup, Inotify_new, add_watch. eff_simpl.
  rewrite Hroots, Hinit. simpl. rewrite Hwatch. simpl.
  set (i0 := {| watches := <[str (Figures.roots_file user_dir) := wd]> ∅ |}).
  pose proof (register_roots_trace w roots i0) as Htrace.
  destruct (Figures.register_roots w roots i0) as [t [i|e]]; simpl in *;
    now rewrite ?app_nil_r, Htrace.
Qed.

(** One turn of the loops on an event for the registry file: the handler,
    then the head of the outer loop. *)
Lemma inotify_loop_on_registry_event (roots : list string) (i : Inotify)
    (t : Tick Event) (ticks : list (Tick Event)) :
  event_path (tick_event t) = str (Figures.roots_file user_dir) ->
  Figures.inotify_event_loop user_dir config_latex_template roots i (t :: ticks)
  = bind (Log INFO (Fmt "The roots file has been updated. Updating watches." [])
            :: flat_map
                 (fun r =>
                    [RemoveWatch r;
                     Log DEBUG
                       (removal_record (is_ok (inotify_rm_watch (tick_world t) r)) r)])
                 roots,
          Ok tt)
      (fun _ =>
         bind (Figures.inotify_setup user_dir (tick_world t) (tick_roots_file t))
           (fun s =>
              Figures.inotify_event_loop user_dir config_latex_template s.1 s.2 ticks)).
Proof.
  intros Hpath.
  destruct (inotify_on_registry_event_trace (tick_world t) roots i (tick_event t) Hpath)
    as (i0 & Hev).
  cbn [Figures.inotify_event_loop]. unfold mbind at 1. unfold Eff_bind.
  rewrite Hev. reflexivity.
Qed.

Lemma fswatch_loop_on_registry_line (argv : list string) (t : Tick string)
    (ticks : list (Tick string)) :
  Py.strip (tick_event t) = str (Figures.roots_file user_dir) ->
  Figures.fswatch_line_loop user_dir config_latex_template argv (t :: ticks)
  = bind ([Log INFO (Fmt "The roots file has been updated. Updating watches." []);
           Terminate;
           Log DEBUG (Fmt "Removed main watch %s" [])],
          Ok tt)
      (fun _ =>
         bind (Figures.fswatch_setup user_dir (tick_world t) (tick_roots_file t))
           (fun argv' =>
              Figures.fswatch_line_loop user_dir config_latex_template argv' ticks)).
Proof.
  intros Hline.
  cbn [Figures.fswatch_line_loop]. unfold mbind at 1. unfold Eff_bind.
  rewrite (fswatch_on_registry_line (tick_world t) (tick_event t) Hline).
  reflexivity.
Qed.

(** The effects of a computation followed by one that has none. *)
Lemma trace_bind_ret {A B} (t : list effect) (m : Eff A) (g : A -> B) :
  trace (bind (t, Ok tt) (fun _ => bind m (fun a => ret (g a))))
  = t ++ trace m.
Proof.
  destruct m as [tm [a|e]]; unfold bind, ret, trace; cbn [fst];
    now rewrite ?app_nil_r.
Qed.

End Daemon.

Section DaemonClaims.
Import Pathlib.

(** C8: in the registration of the watches, at start and at every reload, a
    root whose watch is refused is logged and skipped, and the loop goes on
    with the remaining roots: registration never raises because of a root,
    every root is tried, and every root the kernel accepts is watched. *)
Theorem bad_root_does_not_stop_registration :
  (forall (w : World) (roots : list string) (i : Inotify),
     exists i',
       outcome (Figures.register_roots w roots i) = Ok i'
       /\ watch_requests (trace (Figures.register_roots w roots i)) = roots
       /\ (forall p, In p roots -> is_ok (inotify_add_watch w p) = true ->
                     p ∈ dom (watches i'))
       /\ logged DEBUG (trace (Figures.register_roots w roots i))
          = map could_not_add
                (List.filter (fun r => negb (is_ok (inotify_add_watch w r))) roots))
  /\ (forall (user_dir : PurePath) (w : World) (f : RootsFile)
             (roots : list string) (wd : Z) (u : unit),
        Figures.get_roots f = Ok roots ->
        inotify_init w = Ok u ->
        inotify_add_watch w (str (Figures.roots_file user_dir)) = Ok wd ->
        exists i,
          outcome (Figures.inotify_setup user_dir w f) = Ok (roots, i)
          /\ (forall p, p ∈ dom (watches i)
                        <-> p = str (Figures.roots_file user_dir)
                            \/ (In p roots /\ is_ok (inotify_add_watch w p) = true))
          /\ watch_requests (trace (Figures.inotify_setup user_dir w f))
             = str (Figures.roots_file user_dir) :: roots
          /\ logged DEBUG (trace (Figures.inotify_setup user_dir w f))
             = map could_not_add
                   (List.filter (fun r => negb (is_ok (inotify_add_watch w r)))
                                roots)).
Proof.
  split.
  - intros w roots i.
    destruct (register_roots_spec w roots i)
      as (i' & Heq & Hdom & Hreq & Hlog & _).
    exists i'. split; [now rewrite Heq |]. split; [exact Hreq |].
    split; [| exact Hlog]. intros p Hin Hok. apply Hdom. auto.
  - intros user_dir w f roots wd u Hroots Hinit Hwatch.
    destruct (inotify_setup_spec user_dir w f roots wd u Hroots Hinit Hwatch)
      as (i & Heq & Hdom & Hreq & Hlog & _).
    exists i. split; [now rewrite Heq |]. auto.
Qed.

Lemma bad_root_does_not_stop_registration_witness :
  Figures.get_roots (Some ("/tmp/a" +:+ Py.nl +:+ "/tmp/b" +:+ Py.nl +:+ "/tmp/c"))
  = Ok ["/tmp/a"; "/tmp/b"; "/tmp/c"]
  /\ is_ok (inotify_add_watch (world_without ["/tmp/b"]) "/tmp/b") = false
  /\ exists i,
       outcome (Figures.inotify_setup sample_user_dir (world_without ["/tmp/b"])
                  (Some ("/tmp/a" +:+ Py.nl +:+ "/tmp/b" +:+ Py.nl +:+ "/tmp/c")))
       = Ok (["/tmp/a"; "/tmp/b"; "/tmp/c"], i)
       /\ "/tmp/a" ∈ dom (watches i) /\ "/tmp/c" ∈ dom (watches i)
       /\ "/tmp/b" ∉ dom (watches i).
Proof.
  pose proof bad_root_does_not_stop_registration as (_ & H).
  destruct (H sample_user_dir (world_without ["/tmp/b"])
              (Some ("/tmp/a" +:+ Py.nl +:+ "/tmp/b" +:+ Py.nl +:+ "/tmp/c"))
              ["/tmp/a"; "/tmp/b"; "/tmp/c"] 1%Z tt eq_refl eq_refl eq_refl)
    as (i & Hout & Hdom & _).
  split; [reflexivity |]. split; [reflexivity |].
  exists i. split; [exact Hout |]. split; [| split].
  - apply Hdom. right. split; [simpl; tauto | reflexivity].
  - apply Hdom. right. split; [simpl; tauto | reflexivity].
  - intros [Hc | [_ Hc]]%Hdom; [vm_compute in Hc |]; discriminate.
Defined.

(** C4: an event on the registry's backing file is not handed to the
    recompilation pipeline; it triggers the reload.  In the inotify backend
    the whole effect of the event is: the record of the update, for every
    root registered so far the request to remove its watch with the debug
    record of how it went, then a fresh inotify instance, the watch on the
    registry file, the record of the directories read from the registry as
    it is now, and a watch request for each of them, with a debug record
    when it is refused; the daemon goes on with these directories and the
    watches that were accepted.  In the fswatch backend it is: the record
    of the update, the end of the child process and its record, the record
    of the directories read from the registry as it is now, and a new child
    process started on them.  In both backends, and whether or not the
    reload completes, the event starts no converter and gives nothing to
    the clipboard. *)
Theorem registry_event_triggers_reload_only
    (user_dir : PurePath) (cfg : option (string -> string -> string)) :
  (forall (roots : list string) (i : Inotify) (t : Tick Event)
          (ticks : list (Tick Event)) (roots' : list string) (wd : Z) (u : unit),
     event_path (tick_event t) = str (Figures.roots_file user_dir) ->
     Figures.get_roots (tick_roots_file t) = Ok roots' ->
     inotify_init (tick_world t) = Ok u ->
     inotify_add_watch (tick_world t) (str (Figures.roots_file user_dir)) = Ok wd ->
     let reload :=
       Log INFO (Fmt "The roots file has been updated. Updating watches." [])
       :: flat_map
            (fun r =>
               [RemoveWatch r;
                Log DEBUG
                  (removal_record (is_ok (inotify_rm_watch (tick_world t) r)) r)])
            roots
       ++ [InotifyInit;
           AddWatch (str (Figures.roots_file user_dir));
           Log INFO (Fmt ("Watching directories: " +:+ Py.join ", " roots') [])]
       ++ flat_map
            (fun r =>
               AddWatch r
               :: (if is_ok (inotify_add_watch (tick_world t) r) then []
                   else [Log DEBUG (could_not_add r)]))
            roots' in
     exists i',
       Figures.inotify_event_loop user_dir cfg roots i (t :: ticks)
       = bind (reload, Ok tt)
           (fun _ => Figures.inotify_event_loop user_dir cfg roots' i' ticks)
       /\ (forall p, p ∈ dom (watches i')
                     <-> p = str (Figures.roots_file user_dir)
                         \/ (In p roots'
                             /\ is_ok (inotify_add_watch (tick_world t) p) = true))
       /\ converter_invocations reload = []
       /\ snippets reload = [])
  /\ (forall (argv : list string) (t : Tick string) (ticks : list (Tick string))
             (roots' : list string) (u : unit),
        Py.strip (tick_event t) = str (Figures.roots_file user_dir) ->
        Figures.get_roots (tick_roots_file t) = Ok roots' ->
        popen (tick_world t) ("fswatch" :: roots' ++ [str user_dir]) = Ok u ->
        Figures.fswatch_line_loop user_dir cfg argv (t :: ticks)
        = bind ([Log INFO (Fmt "The roots file has been updated. Updating watches." []);
                 Terminate;
                 Log DEBUG (Fmt "Removed main watch %s" []);
                 Log INFO (Fmt ("Watching directories: " +:+ Py.join ", " roots') []);
                 Popen ("fswatch" :: roots' ++ [str user_dir])],
                Ok tt)
            (fun _ =>
               Figures.fswatch_line_loop user_dir cfg
                 ("fswatch" :: roots' ++ [str user_dir]) ticks))
  /\ (forall (roots : list string) (i : Inotify) (t : Tick Event),
        event_path (tick_event t) = str (Figures.roots_file user_dir) ->
        converter_invocations
          (trace (Figures.inotify_event_loop user_dir cfg roots i [t])) = []
        /\ snippets
             (trace (Figures.inotify_event_loop user_dir cfg roots i [t])) = [])
  /\ (forall (argv : list string) (t : Tick string),
        Py.strip (tick_event t) = str (Figures.roots_file user_dir) ->
        converter_invocations
          (trace (Figures.fswatch_line_loop user_dir cfg argv [t])) = []
        /\ snippets
             (trace (Figures.fswatch_line_loop user_dir cfg argv [t])) = []).
Proof.
  split; [| split; [| split]].
  - intros roots i t ticks roots' wd u Hpath Hroots Hinit Hwatch reload.
    destruct (inotify_setup_spec user_dir (tick_world t) (tick_roots_file t)
                roots' wd u Hroots Hinit Hwatch) as (i' & Hsetup & Hdom & _).
    rewrite (inotify_setup_trace user_dir (tick_world t) (tick_roots_file t)
               roots' wd u Hroots Hinit Hwatch) in Hsetup.
    exists i'. split; [| split; [exact Hdom |]].
    + rewrite (inotify_loop_on_registry_event user_dir cfg roots i t ticks Hpath).
      rewrite Hsetup. unfold bind. cbn [fst snd].
      destruct (Figures.inotify_event_loop user_dir cfg roots' i' ticks) as [t' r'].
      subst reload. f_equal. cbn [app]. f_equal. now rewrite <- !app_assoc.
    + subst reload.
      destruct (removal_effects_quiet (tick_world t) roots) as [Hc1 Hs1].
      destruct (registration_effects_quiet (tick_world t) roots') as [Hc2 Hs2].
      split.
      * change (converter_invocations (?a :: ?l)) with (converter_invocations l).
        rewrite !converter_invocations_app, Hc1, Hc2. reflexivity.
      * cbn [snippets]. rewrite !snippets_concat, Hs1, Hs2. reflexivity.
  - intros argv t ticks roots' u Hline Hroots Hpopen.
    rewrite (fswatch_loop_on_registry_line user_dir cfg argv t ticks Hline).
    unfold Figures.fswatch_setup. eff_simpl. rewrite Hroots. simpl.
    rewrite Hpopen. simpl.
    destruct (Figures.fswatch_line_loop user_dir cfg _ ticks) as [t' r'].
    reflexivity.
  - intros roots i t Hpath.
    rewrite (inotify_loop_on_registry_event user_dir cfg roots i t [] Hpath).
    cbn [Figures.inotify_event_loop].
    change (fun s : list string * Inotify => mret (s.1, s.2))
      with (fun s : list string * Inotify => ret (s.1, s.2)).
    rewrite (trace_bind_ret _ _ (fun s : list string * Inotify => (s.1, s.2))).
    destruct (removal_effects_quiet (tick_world t) roots) as [Hc1 Hs1].
    destruct (inotify_setup_quiet user_dir (tick_world t) (tick_roots_file t))
      as [Hc2 Hs2].
    split.
    + change (converter_invocations ((?a :: ?l) ++ ?l'))
        with (converter_invocations (l ++ l')).
      now rewrite converter_invocations_app, Hc1, Hc2.
    + cbn [app snippets]. now rewrite snippets_concat, Hs1, Hs2.
  - intros argv t Hline.
    rewrite (fswatch_loop_on_registry_line user_dir cfg argv t [] Hline).
    cbn [Figures.fswatch_line_loop].
    change (fun argv' : list string => mret argv')
      with (fun argv' : list string => ret ((fun a : list string => a) argv')).
    rewrite (trace_bind_ret _ _ (fun a : list string => a)).
    destruct (fswatch_setup_quiet user_dir (tick_world t) (tick_roots_file t))
      as [Hc2 Hs2].
    split.
    + change (converter_invocations ([?a; ?b; ?c] ++ ?l'))
        with (converter_invocations l').
      exact Hc2.
    + cbn [app snippets]. exact Hs2.
Qed.

Lemma registry_event_triggers_reload_only_witness :
  event_path {| type_names := ["IN_CLOSE_WRITE"];
                event_path := "/home/u/.config/inkscape-figures/roots";
                event_filename := "" |}
  = str (Figures.roots_file sample_user_dir)
  /\ (exists i',
        Figures.inotify_event_loop sample_user_dir None ["/tmp/a"]
          {| watches := {["/tmp/a" := 1%Z]} |}
          [{| tick_world := world_without ["/tmp/c"];
              tick_roots_file := Some ("/tmp/b" +:+ Py.nl +:+ "/tmp/c");
              tick_event := {| type_names := ["IN_CLOSE_WRITE"];
                               event_path := "/home/u/.config/inkscape-figures/roots";
                               event_filename := "" |} |}]
        = ([Log INFO (Fmt "The roots file has been updated. Updating watches." []);
            RemoveWatch "/tmp/a";
            Log DEBUG (Fmt "Removed root %s" [LStr "/tmp/a"]);
            InotifyInit;
            AddWatch "/home/u/.config/inkscape-figures/roots";
            Log INFO (Fmt "Watching directories: /tmp/b, /tmp/c" []);
            AddWatch "/tmp/b";
            AddWatch "/tmp/c";
            Log DEBUG (Fmt "Could not add root %s" [LStr "/tmp/c"])],
           Ok (["/tmp/b"; "/tmp/c"], i'))
        /\ "/tmp/b" ∈ dom (watches i'))
  /\ Py.strip ("/home/u/.config/inkscape-figures/roots" +:+ Py.nl)
     = str (Figures.roots_file sample_user_dir)
  /\ Figures.fswatch_line_loop sample_user_dir None
       ["fswatch"; "/tmp/a"; "/home/u/.config/inkscape-figures"]
       [{| tick_world := sample_world "Inkscape 1.2.0" 0;
           tick_roots_file := Some ("/tmp/b" +:+ Py.nl +:+ "/tmp/c");
           tick_event := "/home/u/.config/inkscape-figures/roots" +:+ Py.nl |}]
     = ([Log INFO (Fmt "The roots file has been updated. Updating watches." []);
         Terminate;
         Log DEBUG (Fmt "Removed main watch %s" []);
         Log INFO (Fmt "Watching directories: /tmp/b, /tmp/c" []);
         Popen ["fswatch"; "/tmp/b"; "/tmp/c"; "/home/u/.config/inkscape-figures"]],
        Ok ["fswatch"; "/tmp/b"; "/tmp/c"; "/home/u/.config/inkscape-figures"]).
Proof.
  pose proof (registry_event_triggers_reload_only sample_user_dir None)
    as (H & H' & _).
  destruct (H ["/tmp/a"] {| watches := {["/tmp/a" := 1%Z]} |}
              {| tick_world := world_without ["/tmp/c"];
                 tick_roots_file := Some ("/tmp/b" +:+ Py.nl +:+ "/tmp/c");
                 tick_event := {| type_names := ["IN_CLOSE_WRITE"];
                                  event_path := "/home/u/.config/inkscape-figures/roots";
                                  event_filename := "" |} |}
              [] ["/tmp/b"; "/tmp/c"] 1%Z tt eq_refl eq_refl eq_refl eq_refl)
    as (i' & Hloop & Hdom & _).
  pose proof (H' ["fswatch"; "/tmp/a"; "/home/u/.config/inkscape-figures"]
                {| tick_world := sample_world "Inkscape 1.2.0" 0;
                   tick_roots_file := Some ("/tmp/b" +:+ Py.nl +:+ "/tmp/c");
                   tick_event := "/home/u/.config/inkscape-figures/roots" +:+ Py.nl |}
                [] ["/tmp/b"; "/tmp/c"] tt eq_refl eq_refl eq_refl) as Hline.
  split; [reflexivity |].
  split; [exists i'; split; [exact Hloop |] |].
  - apply Hdom. right. split; [simpl; tauto | reflexivity].
  - split; [reflexivity | exact Hline].
Defined.

End DaemonClaims.

Section ReloadConvergence.
Import Pathlib.

(** After a completed [add_root] with a one-line path, the path is in the
    registry that the next [get_roots] returns. *)
Lemma add_root_then_get_roots (x : pathlike) (f f1 : RootsFile) :
  Figures.one_line (to_str x) = true ->
  outcome (Figures.add_root x f) = Ok f1 ->
  exists roots1, Figures.get_roots f1 = Ok roots1 /\ In (to_str x) roots1.
Proof.
  intros Hline Hadd.
  destruct (Figures.get_roots f) as [roots|e] eqn:Hroots.
  - assert (Hvalid : Py.utf8_valid (to_str x) = true).
    { destruct (Py.utf8_valid (to_str x)) eqn:Hvalid; [reflexivity |].
      destruct (add_root_unencodable x f roots Hroots Hvalid) as [_ Hraise].
      rewrite Hraise in Hadd. discriminate. }
    destruct (add_root_get_roots x f roots Hline Hvalid Hroots)
      as (f' & Hout & Hget).
    rewrite Hadd in Hout. injection Hout as <-.
    eexists. split; [exact Hget |].
    destruct (Figures.contains (to_str x) roots) eqn:Hin.
    + now apply contains_In.
    + apply in_or_app. right. now left.
  - unfold Figures.add_root in Hadd. revert Hadd. eff_simpl.
    rewrite Hroots. discriminate.
Qed.

(** C3, as the code has it: a directory whose name holds a line break is
    written to the registry on two lines; the reload that follows its
    [add_root] reads two other paths, and the directory itself is not in the
    live watch set although the kernel would accept a watch on it. *)
Lemma multiline_root_is_not_watched_after_reload :
  exists f1 roots' i',
    outcome (Figures.add_root (Str ("/tmp/a" +:+ Py.nl +:+ "b")) (Some "")) = Ok f1
    /\ is_ok (inotify_add_watch (sample_world "Inkscape 1.2.0" 0)
                ("/tmp/a" +:+ Py.nl +:+ "b")) = true
    /\ outcome (Figures.inotify_event_loop sample_user_dir None [] {| watches := ∅ |}
                  [{| tick_world := sample_world "Inkscape 1.2.0" 0;
                      tick_roots_file := f1;
                      tick_event :=
                        {| type_names := ["IN_CLOSE_WRITE"];
                           event_path := "/home/u/.config/inkscape-figures/roots";
                           event_filename := "" |} |}])
       = Ok (roots', i')
    /\ roots' = ["/tmp/a"; "b"]
    /\ ("/tmp/a" +:+ Py.nl +:+ "b") ∉ dom (watches i').
Proof.
  eexists. eexists. eexists.
  split; [vm_compute; reflexivity |].
  split; [reflexivity |].
  split; [vm_compute; reflexivity |].
  split; [reflexivity |].
  rewrite elem_of_dom. intros [wd Hwd]. vm_compute in Hwd. discriminate.
Qed.

(** C3 (amended): after a completed [add_root] of a path that fits on one
    line (not empty, no line break), the next reload cycle of the inotify
    daemon, provided the registry file itself can be watched, ends with that
    path in the registry snapshot and, when the kernel accepts its watch, in
    the live watch set. *)
Theorem added_root_is_watched_after_reload
    (user_dir : PurePath) (cfg : option (string -> string -> string))
    (w : World) (f f1 : RootsFile) (x : pathlike)
    (roots : list string) (i : Inotify) (event : Event) (wd : Z) (u : unit) :
  Figures.one_line (to_str x) = true ->
  outcome (Figures.add_root x f) = Ok f1 ->
  event_path event = str (Figures.roots_file user_dir) ->
  inotify_init w = Ok u ->
  inotify_add_watch w (str (Figures.roots_file user_dir)) = Ok wd ->
  is_ok (inotify_add_watch w (to_str x)) = true ->
  exists roots' i',
    outcome (Figures.inotify_event_loop user_dir cfg roots i
               [{| tick_world := w; tick_roots_file := f1; tick_event := event |}])
    = Ok (roots', i')
    /\ Figures.get_roots f1 = Ok roots'
    /\ In (to_str x) roots'
    /\ to_str x ∈ dom (watches i').
Proof.
  intros Hline Hadd Hpath Hinit Hwatch Hok.
  destruct (add_root_then_get_roots x f f1 Hline Hadd) as (roots1 & Hget & Hin).
  destruct (inotify_on_registry_event user_dir cfg w roots i event Hpath)
    as (i0 & Hev & _).
  destruct (inotify_setup_spec user_dir w f1 roots1 wd u Hget Hinit Hwatch)
    as (i' & Hsetup & Hdom & _).
  exists roots1, i'. split; [| split; [exact Hget | split; [exact Hin |]]].
  - simpl. unfold mbind at 1. unfold Eff_bind. rewrite Hev.
    unfold bind at 1. cbv iota beta.
    unfold mbind at 1. unfold Eff_bind. rewrite Hsetup. reflexivity.
  - apply Hdom. right. auto.
Qed.

Lemma added_root_is_watched_after_reload_witness :
  Figures.one_line (to_str (Str "/tmp/c")) = true
  /\ outcome (Figures.add_root (Str "/tmp/c") (Some "/tmp/a"))
     = Ok (Some ("/tmp/a" +:+ Py.nl +:+ "/tmp/c"))
  /\ exists roots' i',
       outcome (Figures.inotify_event_loop sample_user_dir None
                  ["/tmp/a"] {| watches := ∅ |}
                  [{| tick_world := world_without ["/tmp/a"];
                      tick_roots_file := Some ("/tmp/a" +:+ Py.nl +:+ "/tmp/c");
                      tick_event :=
                        {| type_names := ["IN_CLOSE_WRITE"];
                           event_path := "/home/u/.config/inkscape-figures/roots";
                           event_filename := "" |} |}])
       = Ok (roots', i')
       /\ "/tmp/c" ∈ dom (watches i').
Proof.
  destruct (added_root_is_watched_after_reload sample_user_dir None
              (world_without ["/tmp/a"]) (Some "/tmp/a")
              (Some ("/tmp/a" +:+ Py.nl +:+ "/tmp/c")) (Str "/tmp/c")
              ["/tmp/a"] {| watches := ∅ |}
              {| type_names := ["IN_CLOSE_WRITE"];
                 event_path := "/home/u/.config/inkscape-figures/roots";
                 event_filename := "" |}
              1%Z tt eq_refl eq_refl eq_refl eq_refl eq_refl eq_refl)
    as (roots' & i' & Hout & _ & _ & Hdom).
  split; [reflexivity |]. split; [reflexivity |].
  exists roots', i'. split; [exact Hout | exact Hdom].
Defined.

(** The fswatch backend after the same [add_root]: the child process of the
    next reload is started with the path among its arguments. *)
Lemma added_root_is_passed_to_fswatch
    (user_dir : PurePath) (w : World) (f f1 : RootsFile) (x : pathlike) (u : unit) :
  Figures.one_line (to_str x) = true ->
  outcome (Figures.add_root x f) = Ok f1 ->
  (forall argv, popen w argv = Ok u) ->
  exists argv,
    outcome (Figures.fswatch_setup user_dir w f1) = Ok argv
    /\ In (to_str x) argv
    /\ In (Popen argv) (trace (Figures.fswatch_setup user_dir w f1)).
Proof.
  intros Hline Hadd Hpopen.
  destruct (add_root_then_get_roots x f f1 Hline Hadd) as (roots1 & Hget & Hin).
  exists ("fswatch" :: roots1 ++ [str user_dir]).
  unfold Figures.fswatch_setup. eff_simpl. rewrite Hget. simpl.
  rewrite Hpopen. simpl. split; [reflexivity |]. split.
  - right. apply in_or_app. now left.
  - right. now left.
Qed.

End ReloadConvergence.

(** * Further properties of the code *)

Section MoreCommandBuilder.
Import Pathlib.

(** X1: for a version text that can be read, the legacy command form is
    built exactly when the first number of the version is 0, whatever the
    other components are. *)
Theorem legacy_exactly_for_major_zero
    (lim : nat) (v : string) (p : PurePath) (n : list Z) :
  Figures.version_number lim v = Ok n ->
  (Figures.selects_legacy lim v p <-> List.hd 0%Z n = 0%Z)
  /\ (Figures.selects_modern lim v p <-> List.hd 0%Z n <> 0%Z).
Proof.
  intros Hn. pose proof (legacy_iff_major_zero lim v n Hn) as Hlt.
  assert (Hcmd : Figures.command_builder lim v p
                 = Ok (Figures.command n p (Figures.pdf_path p), Figures.pdf_path p))
    by (rewrite command_builder_eq, Hn; reflexivity).
  destruct (Z.eqb_spec (List.hd 0%Z n) 0) as [Hz|Hnz].
  - assert (Hleg : Figures.legacy_form (Figures.command n p (Figures.pdf_path p))
                     p (Figures.pdf_path p)) by now apply legacy_command_form.
    split; split; try tauto.
    + intros _. eexists. split; [exact Hcmd | exact Hleg].
    + intros (cmd & Hc & Hmod). rewrite Hcmd in Hc. injection Hc as <-.
      exfalso. now apply (legacy_not_modern _ _ _ Hleg).
  - assert (Hmod : Figures.modern_form (Figures.command n p (Figures.pdf_path p))
                     p (Figures.pdf_path p)) by now apply modern_command_form.
    split; split; try tauto.
    + intros (cmd & Hc & Hleg). rewrite Hcmd in Hc. injection Hc as <-.
      exfalso. now apply (legacy_not_modern _ _ _ Hleg).
    + intros _. eexists. split; [exact Hcmd | exact Hmod].
Qed.

Lemma legacy_exactly_for_major_zero_witness :
  Figures.version_number 4300 "Inkscape 0.1000.7" = Ok [0; 1000; 7]%Z
  /\ Figures.selects_legacy 4300 "Inkscape 0.1000.7" (parse "/tmp/a/fig1.svg").
Proof.
  assert (Hn : Figures.version_number 4300 "Inkscape 0.1000.7" = Ok [0; 1000; 7]%Z)
    by (vm_compute; reflexivity).
  destruct (legacy_exactly_for_major_zero 4300 "Inkscape 0.1000.7"
              (parse "/tmp/a/fig1.svg") _ Hn) as ((_ & H) & _).
  exact (conj Hn (H eq_refl)).
Defined.

(** X2: the version number compared with [1, 0, 0] has one component per
    dot-separated piece of the first run, and three when there are fewer:
    short versions are padded, long ones are not cut; no component is
    negative. *)
Theorem version_number_components (lim : nat) (v : string) (n : list Z) :
  Figures.version_number lim v = Ok n ->
  length n = Nat.max 3 (length (Py.split "." (Py.first_run v)))
  /\ Forall (fun x => (0 <= x)%Z) n.
Proof.
  intros Hn. split; [| now apply (version_number_shape lim v n)].
  rewrite version_number_eq in Hn.
  destruct (Py.has_version_char v); [| discriminate].
  destruct (Py.map_result _ _) as [m|] eqn:Hm; [| discriminate].
  injection Hn as <-. apply map_result_length in Hm.
  rewrite length_app, repeat_length, Hm. lia.
Qed.

Lemma version_number_components_witness :
  Figures.version_number 4300 "Inkscape 1.2" = Ok [1; 2; 0]%Z
  /\ length [1; 2; 0]%Z = Nat.max 3 (length (Py.split "." (Py.first_run "Inkscape 1.2"))).
Proof.
  assert (Hn : Figures.version_number 4300 "Inkscape 1.2" = Ok [1; 2; 0]%Z)
    by (vm_compute; reflexivity).
  exact (conj Hn (proj1 (version_number_components 4300 _ _ Hn))).
Defined.

End MoreCommandBuilder.

Section MorePipeline.
Import Pathlib.

(** X3: the pipeline does not react to its own product: a change event for
    the output path of an [.svg] source is discarded without any converter
    invocation or snippet. *)
Theorem own_output_is_discarded
    (cfg : option (string -> string -> string)) (w : World) (p : PurePath) :
  well_formed p -> suffix p = ".svg" ->
  let r := Figures.maybe_recompile_figure cfg w (PathObj (Figures.pdf_path p)) in
  outcome r = Ok tt
  /\ converter_invocations (trace r) = []
  /\ snippets (trace r) = [].
Proof.
  intros Hwf Hsvg r. subst r.
  destruct (pdf_path_spec p Hwf Hsvg) as (_ & _ & Hpdf & _).
  rewrite (maybe_recompile_figure_not_svg cfg w (PathObj (Figures.pdf_path p))).
  - repeat split.
  - simpl. rewrite Hpdf. discriminate.
Qed.

Lemma own_output_is_discarded_witness :
  well_formed (parse "/tmp/a/fig1.svg")
  /\ suffix (parse "/tmp/a/fig1.svg") = ".svg"
  /\ converter_invocations
       (trace (Figures.maybe_recompile_figure None (sample_world "Inkscape 1.2.0" 0)
                 (PathObj (Figures.pdf_path (parse "/tmp/a/fig1.svg"))))) = [].
Proof.
  destruct (own_output_is_discarded None (sample_world "Inkscape 1.2.0" 0)
              (parse "/tmp/a/fig1.svg") (parse_well_formed _) eq_refl)
    as (_ & H & _).
  exact (conj (parse_well_formed _) (conj eq_refl H)).
Defined.

(** X4: in every world one call of the pipeline starts the converter at
    most twice (probe, export) and hands over at most one snippet, and a
    snippet is handed over only after the export command was run and came
    back with an exit status. *)
Theorem snippet_only_after_export
    (cfg : option (string -> string -> string)) (w : World) (x : pathlike) :
  let t := trace (Figures.maybe_recompile_figure cfg w x) in
  (length (snippets t) <= 1)%nat
  /\ (length (converter_invocations t) <= 2)%nat
  /\ (snippets t <> [] ->
      exists v n rc,
        suffix (Path x) = ".svg"
        /\ check_output w ["inkscape"; "--version"] = Ok v
        /\ Figures.version_number (int_max_str_digits w) v = Ok n
        /\ run w (Figures.command n (Path x) (Figures.pdf_path (Path x))) = Ok rc
        /\ In (Run (Figures.command n (Path x) (Figures.pdf_path (Path x)))) t).
Proof.
  intros t. subst t.
  destruct (String.eqb_spec (suffix (Path x)) ".svg") as [Hsvg|Hne].
  2:{ rewrite (maybe_recompile_figure_not_svg cfg w x Hne). simpl.
      repeat split; try lia. congruence. }
  destruct (check_output w ["inkscape"; "--version"]) as [v|e] eqn:Hv.
  2:{ unfold Figures.maybe_recompile_figure. rewrite Hsvg. simpl negb. cbv iota.
      eff_simpl. rewrite Hv. simpl. repeat split; try lia. congruence. }
  destruct (Figures.version_number (int_max_str_digits w) v) as [n|e] eqn:Hn.
  2:{ rewrite (maybe_recompile_figure_unreadable cfg w x v e Hsvg Hv Hn). simpl.
      repeat split; try lia. congruence. }
  destruct (run w (Figures.command n (Path x) (Figures.pdf_path (Path x))))
    as [rc|e] eqn:Hrc.
  - rewrite (maybe_recompile_figure_svg cfg w x v n rc Hsvg Hv Hn Hrc).
    unfold trace.
    destruct (pyperclip_copy w _); simpl fst; destruct (rc =? 0)%Z; simpl;
      (split; [lia |]); (split; [lia |]); intros _;
      exists v, n, rc; repeat split; auto 10.
  - unfold Figures.maybe_recompile_figure. rewrite Hsvg. simpl negb. cbv iota.
    eff_simpl. rewrite Hv. simpl. rewrite Hn. simpl. rewrite Hrc. simpl.
    repeat split; try lia. congruence.
Qed.

Lemma snippet_only_after_export_witness :
  snippets (trace (Figures.maybe_recompile_figure None
                     (sample_world "Inkscape 1.2.0" 1) (Str "/tmp/a/fig1.svg")))
  <> []
  /\ exists v n rc,
       Figures.version_number 4300 v = Ok n
       /\ run (sample_world "Inkscape 1.2.0" 1)
            (Figures.command n (parse "/tmp/a/fig1.svg")
               (Figures.pdf_path (parse "/tmp/a/fig1.svg"))) = Ok rc.
Proof.
  assert (Hne : snippets (trace (Figures.maybe_recompile_figure None
                     (sample_world "Inkscape 1.2.0" 1) (Str "/tmp/a/fig1.svg")))
                <> []) by (vm_compute; discriminate).
  destruct (snippet_only_after_export None (sample_world "Inkscape 1.2.0" 1)
              (Str "/tmp/a/fig1.svg")) as (_ & _ & H).
  destruct (H Hne) as (v & n & rc & _ & _ & Hn & Hrc & _).
  exact (conj Hne (ex_intro _ v (ex_intro _ n (ex_intro _ rc (conj Hn Hrc))))).
Defined.

End MorePipeline.

Section MoreDaemon.
Import Pathlib.

Variable user_dir : PurePath.
Variable cfg : option (string -> string -> string).

Lemma joinpath_plain_name (p : PurePath) (f : string) :
  is_component f = true ->
  Py.forall_chars (fun c => negb (Ascii.eqb c "/")) f = true ->
  joinpath p f = {| root := root p; parts := parts p ++ [f] |}
  /\ name (joinpath p f) = f.
Proof.
  intros Hc Hs. unfold joinpath. rewrite (parse_plain_name f Hc Hs). simpl.
  split; [reflexivity |]. unfold name. simpl. apply last_last.
Qed.

(** The extension and the stem of a path are those of its last component. *)
Lemma suffix_stem_by_name (p q : PurePath) :
  name p = name q -> suffix p = suffix q /\ stem p = stem q.
Proof. unfold suffix, stem. intros ->. split; reflexivity. Qed.

Lemma inotify_on_file_event (w : World) (roots : list string) (i : Inotify)
    (event : Event) :
  event_path event <> str (Figures.roots_file user_dir) ->
  Figures.inotify_on_event user_dir cfg w roots i event
  = bind (Figures.maybe_recompile_figure cfg w
            (PathObj (joinpath (parse (event_path event)) (event_filename event))))
         (fun _ => ret (Continue, i)).
Proof.
  intros Hne%String.eqb_neq. unfold Figures.inotify_on_event. now rewrite Hne.
Qed.

(** X5: in the inotify backend the filter looks at the file name only: an
    event for a file whose name does not carry the extension [.svg], in
    whatever directory, starts no converter and hands over no snippet, and the
    daemon stays in its loop with the watches it had. *)
Theorem inotify_event_filtered_by_file_name
    (w : World) (roots : list string) (i : Inotify) (event : Event) :
  event_path event <> str (Figures.roots_file user_dir) ->
  is_component (event_filename event) = true ->
  Py.forall_chars (fun c => negb (Ascii.eqb c "/")) (event_filename event) = true ->
  suffix {| root := ""; parts := [event_filename event] |} <> ".svg" ->
  let r := Figures.inotify_on_event user_dir cfg w roots i event in
  outcome r = Ok (Continue, i)
  /\ converter_invocations (trace r) = []
  /\ snippets (trace r) = []
  /\ watch_requests (trace r) = [].
Proof.
  intros Hne Hc Hs Hsuf r. subst r.
  rewrite (inotify_on_file_event w roots i event Hne).
  destruct (joinpath_plain_name (parse (event_path event)) _ Hc Hs) as [_ Hname].
  rewrite maybe_recompile_figure_not_svg; [repeat split |].
  simpl Path.
  rewrite (proj1 (suffix_stem_by_name _ {| root := ""; parts := [event_filename event] |}
                    Hname)).
  exact Hsuf.
Qed.

(** X6: nothing in the daemon catches an exception of the pipeline: when
    the handling of a file event raises, the inotify daemon ends with that
    exception and the events that follow are not looked at. *)
Theorem pipeline_exception_ends_inotify_daemon
    (roots : list string) (i : Inotify) (t : Tick Event)
    (ticks : list (Tick Event)) (e : exn) :
  event_path (tick_event t) <> str (Figures.roots_file user_dir) ->
  outcome (Figures.maybe_recompile_figure cfg (tick_world t)
             (PathObj (joinpath (parse (event_path (tick_event t)))
                                (event_filename (tick_event t))))) = Raise e ->
  Figures.inotify_event_loop user_dir cfg roots i (t :: ticks)
  = (trace (Figures.maybe_recompile_figure cfg (tick_world t)
              (PathObj (joinpath (parse (event_path (tick_event t)))
                                 (event_filename (tick_event t))))),
     Raise e).
Proof.
  intros Hne Hraise. simpl. unfold mbind at 1. unfold Eff_bind.
  rewrite (inotify_on_file_event (tick_world t) roots i (tick_event t) Hne).
  destruct (Figures.maybe_recompile_figure _ _ _) as [tr r]. simpl in *.
  now subst r.
Qed.

End MoreDaemon.

Lemma inotify_event_filtered_by_file_name_witness :
  outcome (Figures.inotify_on_event sample_user_dir None
             (sample_world "Inkscape 1.2.0" 0) ["/tmp/a"] {| watches := ∅ |}
             {| type_names := ["IN_CLOSE_WRITE"];
                event_path := "/tmp/a.svg";
                event_filename := "fig1.pdf_tex" |})
  = Ok (Continue, {| watches := ∅ |}).
Proof.
  refine (proj1 (inotify_event_filtered_by_file_name sample_user_dir None
                   (sample_world "Inkscape 1.2.0" 0) ["/tmp/a"] {| watches := ∅ |}
                   {| type_names := ["IN_CLOSE_WRITE"];
                      event_path := "/tmp/a.svg";
                      event_filename := "fig1.pdf_tex" |} _ eq_refl eq_refl _));
    vm_compute; discriminate.
Defined.

Lemma pipeline_exception_ends_inotify_daemon_witness :
  outcome (Figures.inotify_event_loop sample_user_dir None ["/tmp/a"]
             {| watches := ∅ |}
             [{| tick_world := sample_world "no version" 0;
                 tick_roots_file := Some "/tmp/a";
                 tick_event := {| type_names := ["IN_CLOSE_WRITE"];
                                  event_path := "/tmp/a";
                                  event_filename := "fig1.svg" |} |};
              {| tick_world := sample_world "Inkscape 1.2.0" 0;
                 tick_roots_file := Some "/tmp/a";
                 tick_event := {| type_names := ["IN_CLOSE_WRITE"];
                                  event_path := "/tmp/a";
                                  event_filename := "fig2.svg" |} |}])
  = Raise IndexError.
Proof.
  rewrite (pipeline_exception_ends_inotify_daemon sample_user_dir None
             ["/tmp/a"] {| watches := ∅ |} _ _ IndexError).
  - reflexivity.
  - vm_compute. discriminate.
  - vm_compute. reflexivity.
Defined.

Section MoreDaemonLoops.
Import Pathlib.

Variable user_dir : PurePath.
Variable cfg : option (string -> string -> string).

(** X7: the removal of the watches at a reload is best effort: the loop
    never raises, it asks once for every root, in order, and leaves one debug
    record per root saying whether the removal went through. *)
Theorem unregistration_is_best_effort
    (w : World) (roots : list string) (i : Inotify) :
  exists i',
    outcome (Figures.unregister_roots w roots i) = Ok i'
    /\ remove_requests (trace (Figures.unregister_roots w roots i)) = roots
    /\ logged DEBUG (trace (Figures.unregister_roots w roots i))
       = map (fun r => removal_record (is_ok (inotify_rm_watch w r)) r) roots
    /\ (forall p, p ∈ dom (watches i') -> p ∈ dom (watches i)).
Proof.
  revert i. induction roots as [|root roots IH]; intros i.
  - exists i. simpl. auto.
  - simpl. eff_simpl. unfold remove_watch. eff_simpl.
    destruct (inotify_rm_watch w root) as [u|e]; simpl.
    + destruct (IH {| watches := delete root (watches i) |})
        as (i' & Hout & Hreq & Hlog & Hdom).
      destruct (Figures.unregister_roots w roots _) as [t r]. simpl in *.
      subst r. exists i'. rewrite Hreq, Hlog. repeat split; auto.
      intros p Hp. specialize (Hdom p Hp). rewrite dom_delete in Hdom.
      apply elem_of_difference in Hdom. tauto.
    + destruct (IH i) as (i' & Hout & Hreq & Hlog & Hdom).
      destruct (Figures.unregister_roots w roots i) as [t r]. simpl in *.
      subst r. exists i'. rewrite Hreq, Hlog. repeat split; auto.
Qed.

Lemma str_roots_file_not_empty : str (Figures.roots_file user_dir) <> "".
Proof.
  unfold Figures.roots_file, joinpath, str. simpl.
  destruct (join_snoc "/" "roots" (parts user_dir)) as [pre Hpre].
  destruct (String.eqb (root user_dir) "") eqn:Hroot.
  - destruct (parts user_dir ++ ["roots"]) eqn:Hparts.
    + discriminate.
    + rewrite Hpre. destruct pre; discriminate.
  - apply String.eqb_neq in Hroot. destruct (root user_dir); [congruence | discriminate].
Qed.

Lemma fswatch_on_empty_line (w : World) :
  Figures.fswatch_on_line user_dir cfg w ""
  = ([Log DEBUG (Fmt "File has changed, but is nog an svg " [])], Ok Continue).
Proof.
  unfold Figures.fswatch_on_line. change (Py.strip "") with "".
  assert (H : String.eqb "" (str (Figures.roots_file user_dir)) = false).
  { apply String.eqb_neq. intros Hc. now apply str_roots_file_not_empty. }
  rewrite H. reflexivity.
Qed.

(** X8: when the output of the fswatch child ends, every read returns the
    empty string, which is taken for a changed file without extension and
    discarded: the loop goes on reading, it neither stops nor reloads, and it
    leaves one debug record per read. *)
Theorem fswatch_end_of_stream_is_ignored
    (argv : list string) (ticks : list (Tick string)) :
  Forall (fun t => tick_event t = "") ticks ->
  outcome (Figures.fswatch_line_loop user_dir cfg argv ticks) = Ok argv
  /\ length (logged DEBUG (trace (Figures.fswatch_line_loop user_dir cfg argv ticks)))
     = length ticks
  /\ length (trace (Figures.fswatch_line_loop user_dir cfg argv ticks))
     = length ticks.
Proof.
  induction 1 as [|t ticks Ht _ IH]; [repeat split |].
  simpl. unfold mbind at 1 2 3. unfold Eff_bind.
  rewrite Ht, fswatch_on_empty_line. unfold bind.
  destruct (Figures.fswatch_line_loop user_dir cfg argv ticks) as [tr r].
  simpl in *. destruct IH as (-> & -> & ->). auto.
Qed.

(** X9: file events never touch the watch state: after any run of events
    none of which is on the registry file, a daemon that is still running
    has the roots and the watches it started with, and it asked for no
    watch. *)
Theorem file_events_keep_watch_state (ticks : list (Tick Event)) :
  Forall (fun t => event_path (tick_event t) <> str (Figures.roots_file user_dir))
         ticks ->
  forall (roots : list string) (i : Inotify) (s : list string * Inotify),
    outcome (Figures.inotify_event_loop user_dir cfg roots i ticks) = Ok s ->
    s = (roots, i)
    /\ watch_requests (trace (Figures.inotify_event_loop user_dir cfg roots i ticks))
       = []
    /\ remove_requests (trace (Figures.inotify_event_loop user_dir cfg roots i ticks))
       = [].
Proof.
  induction 1 as [|t ticks Ht _ IH]; intros roots i s.
  - simpl. intros [= <-]. auto.
  - simpl. unfold mbind at 1. unfold Eff_bind.
    rewrite (inotify_on_file_event user_dir cfg (tick_world t) roots i
               (tick_event t) Ht).
    assert (Hw : forall x w,
               watch_requests (trace (Figures.maybe_recompile_figure cfg w x)) = []
               /\ remove_requests (trace (Figures.maybe_recompile_figure cfg w x)) = []).
    { intros x w. unfold Figures.maybe_recompile_figure.
      destruct (negb _); [split; reflexivity |]. eff_simpl.
      destruct (check_output w _); simpl; [| split; reflexivity].
      destruct (Figures.version_number _ _); simpl; [| split; reflexivity].
      destruct (run w _) as [rc|]; simpl; [| split; reflexivity].
      destruct (negb (rc =? 0)%Z); simpl; destruct (pyperclip_copy w _);
        split; reflexivity. }
    specialize (Hw (PathObj (joinpath (parse (event_path (tick_event t)))
                                      (event_filename (tick_event t))))
                   (tick_world t)).
    destruct (Figures.maybe_recompile_figure _ _ _) as [tr [u|e]];
      simpl in *; [| discriminate].
    specialize (IH roots i s).
    destruct (Figures.inotify_event_loop user_dir cfg roots i ticks) as [tr' r'].
    simpl in *. intros Hs. destruct (IH Hs) as (-> & Hw1 & Hw2).
    destruct Hw as [Ha Hb].
    split; [reflexivity |].
    assert (Happ : forall t1 t2, watch_requests (t1 ++ t2)
                                 = watch_requests t1 ++ watch_requests t2).
    { induction t1 as [|x t1 IHt]; intros t2; simpl; [reflexivity |].
      destruct x; simpl; now rewrite ?IHt. }
    assert (Happ' : forall t1 t2, remove_requests (t1 ++ t2)
                                  = remove_requests t1 ++ remove_requests t2).
    { induction t1 as [|x t1 IHt]; intros t2; simpl; [reflexivity |].
      destruct x; simpl; now rewrite ?IHt. }
    rewrite app_nil_r, Happ, Happ', Ha, Hb, Hw1, Hw2. auto.
Qed.

End MoreDaemonLoops.

Lemma fswatch_end_of_stream_is_ignored_witness :
  outcome (Figures.fswatch_line_loop sample_user_dir None ["fswatch"; "/tmp/a"]
             [{| tick_world := sample_world "Inkscape 1.2.0" 0;
                 tick_roots_file := Some "/tmp/a"; tick_event := "" |};
              {| tick_world := sample_world "Inkscape 1.2.0" 0;
                 tick_roots_file := Some "/tmp/a"; tick_event := "" |}])
  = Ok ["fswatch"; "/tmp/a"].
Proof.
  refine (proj1 (fswatch_end_of_stream_is_ignored sample_user_dir None _ _ _)).
  repeat constructor.
Defined.

Lemma file_events_keep_watch_state_witness :
  outcome (Figures.inotify_event_loop sample_user_dir None ["/tmp/a"]
             {| watches := ∅ |}
             [{| tick_world := sample_world "Inkscape 1.2.0" 0;
                 tick_roots_file := Some ("/tmp/a" +:+ Py.nl +:+ "/tmp/b");
                 tick_event := {| type_names := ["IN_CLOSE_WRITE"];
                                  event_path := "/tmp/a";
                                  event_filename := "fig1.svg" |} |}])
  = Ok (["/tmp/a"], {| watches := ∅ |})
  /\ (["/tmp/a"], {| watches := ∅ |}) = (["/tmp/a"], {| watches := ∅ |}).
Proof.
  assert (Hout : outcome (Figures.inotify_event_loop sample_user_dir None ["/tmp/a"]
             {| watches := ∅ |}
             [{| tick_world := sample_world "Inkscape 1.2.0" 0;
                 tick_roots_file := Some ("/tmp/a" +:+ Py.nl +:+ "/tmp/b");
                 tick_event := {| type_names := ["IN_CLOSE_WRITE"];
                                  event_path := "/tmp/a";
                                  event_filename := "fig1.svg" |} |}])
           = Ok (["/tmp/a"], {| watches := ∅ |})) by (vm_compute; reflexivity).
  split; [exact Hout |].
  refine (proj1 (file_events_keep_watch_state sample_user_dir None _ _ _ _ _ Hout)).
  repeat constructor. vm_compute. discriminate.
Defined.

Section MoreRegistry.
Import Pathlib.

(** X10: the registry format round-trips: a list of entries that each fit
    on one line and can be encoded, written as [add_root] writes it (joined
    with line feeds), is written without error and read back by [get_roots]
    as the same list, in the same order. *)
Theorem registry_write_read_round_trip (entries : list string) :
  Forall (fun r => Figures.one_line r = true) entries ->
  Forall (fun r => Py.utf8_valid r = true) entries ->
  write_text (Py.join Py.nl entries)
  = ([WriteText (Py.join Py.nl entries)], Ok (Some (Py.join Py.nl entries)))
  /\ Figures.get_roots (Some (Py.join Py.nl entries)) = Ok entries.
Proof.
  intros Hlines Hvalid. split; [| now apply get_roots_join].
  unfold write_text. rewrite utf8_valid_join.
  replace (forallb Py.utf8_valid entries) with true; [reflexivity |].
  symmetry. apply forallb_forall. now apply List.Forall_forall.
Qed.

Lemma universal_newlines_app (a b : string) :
  Py.forall_chars Py.not_cr a = true ->
  Py.universal_newlines (a +:+ b) = a +:+ Py.universal_newlines b.
Proof.
  induction a as [|c a IH]; [reflexivity |].
  cbn [Py.forall_chars]. intros [Hc Ha]%andb_prop.
  unfold Py.not_cr in Hc. apply negb_true_iff in Hc.
  change (String c a +:+ b) with (String c (a +:+ b)).
  cbn [Py.universal_newlines]. rewrite Hc, (IH Ha). reflexivity.
Qed.

Lemma join_snoc_lines (l : list string) (x : string) :
  l <> [] -> Py.join Py.nl (l ++ [x]) = Py.join Py.nl l +:+ Py.nl +:+ x.
Proof.
  induction l as [|y l IH]; [congruence |]. intros _.
  destruct l as [|z l]; [reflexivity |].
  specialize (IH ltac:(discriminate)).
  change (Py.join Py.nl ((y :: z :: l) ++ [x]))
    with (y +:+ Py.nl +:+ Py.join Py.nl ((z :: l) ++ [x])).
  rewrite IH.
  change (Py.join Py.nl (y :: z :: l))
    with (y +:+ Py.nl +:+ Py.join Py.nl (z :: l)).
  now rewrite !append_assoc.
Qed.

Lemma split_lines_then (l : list string) (s : string) :
  l <> [] ->
  Forall (fun r => Py.forall_chars Py.not_lf r = true) l ->
  Py.split Py.LF (Py.join Py.nl l +:+ Py.nl +:+ s) = l ++ Py.split Py.LF s.
Proof.
  intros Hne Hl. induction Hl as [|x l Hx Hl IH]; [congruence |].
  destruct l as [|y l].
  - change (Py.join Py.nl [x]) with x. unfold Py.nl. simpl String.append.
    now rewrite (split_app_sep Py.LF x s Hx).
  - rewrite join_cons2, !append_assoc. unfold Py.nl at 1. simpl String.append.
    rewrite (split_app_sep Py.LF x _ Hx). simpl. f_equal.
    apply IH. discriminate.
Qed.

(** X11: [add_root] with a path that can be encoded never drops or
    reorders what the registry holds: the entries read before the call are
    read again after it, in the same order, followed by whatever the new
    path contributes (itself when it fits on one line, its non-empty lines
    otherwise), and a path already present leaves the file as it is. *)
Theorem add_root_keeps_entries (x : pathlike) (f : RootsFile) (roots : list string) :
  Figures.get_roots f = Ok roots ->
  Py.utf8_valid (to_str x) = true ->
  exists f' added,
    outcome (Figures.add_root x f) = Ok f'
    /\ registry_after (trace (Figures.add_root x f)) f = f'
    /\ Figures.get_roots f' = Ok (roots ++ added)
    /\ (In (to_str x) roots -> f' = f /\ added = [])
    /\ (~ In (to_str x) roots -> Figures.get_roots (Some (to_str x)) = Ok added).
Proof.
  intros Hroots Hvalid.
  destruct (Figures.contains (to_str x) roots) eqn:Hin.
  - exists f, []. rewrite (add_root_present x f roots Hroots Hin), app_nil_r.
    repeat split; auto. intros Hnot. apply contains_In in Hin. contradiction.
  - exists (Some (Py.join Py.nl (roots ++ [to_str x]))),
           (List.filter (fun root => negb (String.eqb root ""))
              (Py.split Py.LF (Py.universal_newlines (to_str x)))).
    rewrite (add_root_absent x f roots Hroots Hin Hvalid).
    split; [reflexivity |]. split; [reflexivity |].
    assert (Hnot : ~ In (to_str x) roots) by (intros Hc%contains_In; congruence).
    split; [| split; [intros; contradiction
                     | intros _; exact (get_roots_some _ Hvalid)]].
    rewrite get_roots_some
      by now rewrite (utf8_valid_new_registry f roots _ Hroots).
    destruct roots as [|r roots]; [reflexivity |].
    assert (Hlines : Forall (fun r => Figures.one_line r = true) (r :: roots)).
    { destruct f as [data|]; [| discriminate]. eapply get_roots_one_line, Hroots. }
    f_equal.
    rewrite join_snoc_lines by discriminate.
    rewrite universal_newlines_app.
    2:{ apply join_cr_free. eapply Forall_impl; [exact Hlines |].
        intros y Hy%one_line_spec. tauto. }
    change (Py.universal_newlines (Py.nl +:+ to_str x))
      with (Py.nl +:+ Py.universal_newlines (to_str x)).
    rewrite split_lines_then; [| discriminate |].
    + rewrite List.filter_app. f_equal. apply filter_nonempty_id.
      eapply Forall_impl; [exact Hlines |]. intros y Hy%one_line_spec. tauto.
    + eapply Forall_impl; [exact Hlines |]. intros y Hy%one_line_spec. tauto.
Qed.

(** X24: a path that cannot be encoded costs the registry its content:
    [add_root] empties the file when it opens it for writing and raises
    [UnicodeEncodeError] before anything is written, so that the registry
    read afterwards is empty, whatever it held. *)
Theorem unencodable_root_empties_registry
    (x : pathlike) (f : RootsFile) (roots : list string) :
  Figures.get_roots f = Ok roots ->
  Py.utf8_valid (to_str x) = false ->
  outcome (Figures.add_root x f) = Raise UnicodeEncodeError
  /\ registry_after (trace (Figures.add_root x f)) f = Some ""
  /\ Figures.get_roots (registry_after (trace (Figures.add_root x f)) f) = Ok [].
Proof.
  intros Hroots Hvalid.
  destruct (add_root_unencodable x f roots Hroots Hvalid) as [_ ->].
  repeat split.
Qed.

End MoreRegistry.

Lemma registry_write_read_round_trip_witness :
  Figures.get_roots (Some (Py.join Py.nl ["/tmp/a"; "/home/u/notes/figures"]))
  = Ok ["/tmp/a"; "/home/u/notes/figures"].
Proof.
  refine (proj2 (registry_write_read_round_trip
                   ["/tmp/a"; "/home/u/notes/figures"] _ _));
    repeat constructor.
Defined.

Lemma add_root_keeps_entries_witness :
  exists f' added,
    outcome (Figures.add_root (Pathlib.Str ("/tmp/c" +:+ Py.nl +:+ "d"))
               (Some ("/tmp/a" +:+ Py.nl +:+ Py.nl +:+ "/tmp/b" +:+ Py.nl)))
    = Ok f'
    /\ Figures.get_roots f' = Ok (["/tmp/a"; "/tmp/b"] ++ added).
Proof.
  destruct (add_root_keeps_entries (Pathlib.Str ("/tmp/c" +:+ Py.nl +:+ "d"))
              (Some ("/tmp/a" +:+ Py.nl +:+ Py.nl +:+ "/tmp/b" +:+ Py.nl))
              ["/tmp/a"; "/tmp/b"] eq_refl eq_refl)
    as (f' & added & H1 & _ & H2 & _).
  exact (ex_intro _ f' (ex_intro _ added (conj H1 H2))).
Defined.

(** A directory whose name holds the byte [FF], which no UTF-8 text
    holds. *)
Lemma unencodable_root_empties_registry_witness :
  outcome (Figures.add_root (Pathlib.Str ("/tmp/" +:+ String "255" ""))
             (Some ("/tmp/a" +:+ Py.nl +:+ "/tmp/b")))
  = Raise UnicodeEncodeError
  /\ Figures.get_roots
       (registry_after
          (trace (Figures.add_root (Pathlib.Str ("/tmp/" +:+ String "255" ""))
                    (Some ("/tmp/a" +:+ Py.nl +:+ "/tmp/b"))))
          (Some ("/tmp/a" +:+ Py.nl +:+ "/tmp/b")))
     = Ok [].
Proof.
  destruct (unencodable_root_empties_registry
              (Pathlib.Str ("/tmp/" +:+ String "255" ""))
              (Some ("/tmp/a" +:+ Py.nl +:+ "/tmp/b")) ["/tmp/a"; "/tmp/b"]
              eq_refl eq_refl) as (H1 & _ & H3).
  exact (conj H1 H3).
Defined.

(** * The snippet *)

Section Snippet.

Ltac by_cases_on c :=
  destruct c as [[|] [|] [|] [|] [|] [|] [|] [|]]; vm_compute; reflexivity.

Lemma map_chars_compose (f g : ascii -> ascii) (s : string) :
  Py.map_chars f (Py.map_chars g s) = Py.map_chars (fun c => f (g c)) s.
Proof. induction s as [|c s IH]; simpl; [reflexivity | now rewrite IH]. Qed.

Lemma map_chars_ext (f g : ascii -> ascii) (s : string) :
  (forall c, f c = g c) -> Py.map_chars f s = Py.map_chars g s.
Proof.
  intros H. induction s as [|c s IH]; simpl; [reflexivity | now rewrite H, IH].
Qed.

(** [title] looks at the letters, not at their case. *)
Lemma title_from_lower (b : bool) (s : string) :
  Py.title_from b (Py.lower s) = Py.title_from b s.
Proof.
  revert b. induction s as [|c s IH]; intros b; simpl; [reflexivity |].
  assert (H1 : Py.is_cased (Py.to_lower c) = Py.is_cased c) by by_cases_on c.
  assert (H2 : Py.to_lower (Py.to_lower c) = Py.to_lower c) by by_cases_on c.
  assert (H3 : Py.to_upper (Py.to_lower c) = Py.to_upper c) by by_cases_on c.
  fold (Py.lower s). rewrite H1, IH. destruct b; now rewrite ?H2, ?H3.
Qed.

Lemma lower_title_from (b : bool) (s : string) :
  Py.lower (Py.title_from b s) = Py.lower s.
Proof.
  unfold Py.lower.
  revert b. induction s as [|c s IH]; intros b; simpl; [reflexivity |].
  assert (H2 : Py.to_lower (Py.to_lower c) = Py.to_lower c) by by_cases_on c.
  assert (H3 : Py.to_lower (Py.to_upper c) = Py.to_lower c) by by_cases_on c.
  rewrite IH. destruct b; now rewrite ?H2, ?H3.
Qed.

Lemma title_from_idempotent (b : bool) (s : string) :
  Py.title_from b (Py.title_from b s) = Py.title_from b s.
Proof.
  revert b. induction s as [|c s IH]; intros b; simpl; [reflexivity |].
  assert (H1 : Py.is_cased (Py.to_lower c) = Py.is_cased c) by by_cases_on c.
  assert (H2 : Py.is_cased (Py.to_upper c) = Py.is_cased c) by by_cases_on c.
  assert (H3 : Py.to_lower (Py.to_lower c) = Py.to_lower c) by by_cases_on c.
  assert (H4 : Py.to_upper (Py.to_upper c) = Py.to_upper c) by by_cases_on c.
  destruct b; rewrite ?H1, ?H2, ?H3, ?H4, IH; reflexivity.
Qed.

(** Replacing one uncased character by another commutes with [title]. *)
Lemma title_from_replace (old new : ascii) (b : bool) (s : string) :
  Py.is_cased old = false -> Py.is_cased new = false ->
  Py.title_from b (Py.replace old new s) = Py.replace old new (Py.title_from b s).
Proof.
  intros Hold Hnew. unfold Py.replace.
  revert b. induction s as [|c s IH]; intros b; simpl; [reflexivity |].
  assert (Hl : forall d, Py.is_cased d = false ->
                         Py.to_lower d = d /\ Py.to_upper d = d).
  { intros d. unfold Py.is_cased, Py.to_lower, Py.to_upper.
    intros [-> ->]%orb_false_elim. auto. }
  assert (Hc : forall d, Py.is_cased d = true ->
                         Py.is_cased (Py.to_lower d) = true
                         /\ Py.is_cased (Py.to_upper d) = true).
  { intros d Hd. split.
    - assert (E : Py.is_cased (Py.to_lower d) = Py.is_cased d) by by_cases_on d.
      now rewrite E.
    - assert (E : Py.is_cased (Py.to_upper d) = Py.is_cased d) by by_cases_on d.
      now rewrite E. }
  destruct (Ascii.eqb_spec c old) as [->|Hne].
  - rewrite Hnew, Hold, IH.
    destruct (Hl old Hold) as [-> ->]. destruct (Hl new Hnew) as [-> ->].
    destruct b; now rewrite Ascii.eqb_refl.
  - rewrite IH. f_equal.
    destruct (Py.is_cased c) eqn:Hcased.
    + destruct (Hc c Hcased) as [H1 H2].
      assert (Py.to_lower c <> old) by (intros E; rewrite E in H1; congruence).
      assert (Py.to_upper c <> old) by (intros E; rewrite E in H2; congruence).
      destruct b;
        [destruct (Ascii.eqb_spec (Py.to_lower c) old)
        | destruct (Ascii.eqb_spec (Py.to_upper c) old)]; congruence.
    + destruct (Hl c Hcased) as [-> ->].
      destruct b; destruct (Ascii.eqb_spec c old); congruence.
Qed.

End Snippet.

Section SnippetTheorems.

Ltac by_cases_on c :=
  destruct c as [[|] [|] [|] [|] [|] [|] [|] [|]]; vm_compute; reflexivity.

(** The caption can be computed from the label. *)
Lemma caption_from_label (t : string) :
  Py.title (Py.replace "_" " " (Py.replace "-" " " t))
  = Py.title (Py.replace "_" " "
                (Py.lower (Py.replace " " "_" (Py.replace "-" "_" t)))).
Proof.
  unfold Py.title.
  rewrite <- (title_from_lower false (Py.replace "_" " " (Py.replace "-" " " t))).
  rewrite <- (title_from_lower false (Py.replace "_" " " (Py.lower _))).
  f_equal. unfold Py.lower, Py.replace. rewrite !map_chars_compose.
  apply map_chars_ext. intros c. by_cases_on c.
Qed.

Lemma snippet_by_label (name t t' : string) :
  Py.lower (Py.replace " " "_" (Py.replace "-" "_" t))
  = Py.lower (Py.replace " " "_" (Py.replace "-" "_" t')) ->
  Figures.latex_template name t = Figures.latex_template name t'
  /\ Main.latexTemplate name t = Main.latexTemplate name t'.
Proof.
  intros H. unfold Figures.latex_template, Main.latexTemplate. cbv zeta.
  rewrite (caption_from_label t), (caption_from_label t'), H. split; reflexivity.
Qed.

Lemma label_of_beautify (t : string) :
  Py.lower (Py.replace " " "_" (Py.replace "-" "_" (Figures.beautify t)))
  = Py.lower (Py.replace " " "_" (Py.replace "-" "_" t)).
Proof.
  unfold Figures.beautify, Py.title.
  rewrite <- !title_from_replace by reflexivity.
  rewrite lower_title_from.
  unfold Py.lower, Py.replace. rewrite !map_chars_compose.
  apply map_chars_ext. intros c. by_cases_on c.
Qed.

(** X12: for ASCII titles, the snippet depends on the title only through
    its label form (lower case, blanks and hyphens as underscores): two
    ASCII titles with the same label give the same snippet, caption
    included, in both entry points. *)
Theorem snippet_depends_on_label_only (name t t' : string) :
  Py.isascii t = true -> Py.isascii t' = true ->
  Py.lower (Py.replace " " "_" (Py.replace "-" "_" t))
  = Py.lower (Py.replace " " "_" (Py.replace "-" "_" t')) ->
  Figures.latex_template name t = Figures.latex_template name t'
  /\ Main.latexTemplate name t = Main.latexTemplate name t'.
Proof. intros _ _. apply snippet_by_label. Qed.

(** X13: on ASCII text [beautify] is idempotent, and applying it to the
    title before [latex_template], as the pipeline and [edit] do, changes
    nothing in the snippet: the template normalises the title itself. *)
Theorem beautify_is_redundant_in_snippet (name t : string) :
  Py.isascii t = true ->
  Figures.beautify (Figures.beautify t) = Figures.beautify t
  /\ Main.beautify (Main.beautify t) = Main.beautify t
  /\ Figures.latex_template name (Figures.beautify t) = Figures.latex_template name t
  /\ Main.latexTemplate name (Main.beautify t) = Main.latexTemplate name t.
Proof.
  intros _.
  assert (Hidem : Figures.beautify (Figures.beautify t) = Figures.beautify t).
  { unfold Figures.beautify, Py.title.
    rewrite <- !title_from_replace by reflexivity.
    rewrite title_from_idempotent. f_equal.
    unfold Py.replace. rewrite !map_chars_compose.
    apply map_chars_ext. intros c. by_cases_on c. }
  destruct (snippet_by_label name (Figures.beautify t) t (label_of_beautify t))
    as [H1 H2].
  repeat split; assumption.
Qed.

End SnippetTheorems.

Lemma snippet_depends_on_label_only_witness :
  Figures.latex_template "my_fig" "My fig-2" = Figures.latex_template "my_fig" "my_Fig 2".
Proof.
  exact (proj1 (snippet_depends_on_label_only "my_fig" "My fig-2" "my_Fig 2"
                  eq_refl eq_refl eq_refl)).
Defined.

Lemma beautify_is_redundant_in_snippet_witness :
  Figures.beautify (Figures.beautify "phase-plot_2b") = Figures.beautify "phase-plot_2b"
  /\ Figures.latex_template "phase-plot_2b" (Figures.beautify "phase-plot_2b")
     = Figures.latex_template "phase-plot_2b" "phase-plot_2b".
Proof.
  destruct (beautify_is_redundant_in_snippet "phase-plot_2b" "phase-plot_2b" eq_refl)
    as (H1 & _ & H3 & _).
  exact (conj H1 H3).
Defined.

(** * The commands *)

Section Indent.

Lemma split_lines_lf_free (s : string) :
  Forall (fun r => Py.forall_chars Py.not_lf r = true) (Py.split Py.LF s).
Proof.
  pose proof (split_forall (fun _ => true) Py.LF s) as H.
  eapply Forall_impl; [apply H; clear; induction s; simpl; auto |].
  intros r. cbv beta. apply forall_chars_impl. intros c Hc. exact Hc.
Qed.

Lemma repeat_char_lf_free (n : Z) :
  Py.forall_chars Py.not_lf (Py.repeat_char " " n) = true.
Proof.
  unfold Py.repeat_char. induction (Z.to_nat n) as [|k IH]; simpl; auto.
Qed.

Lemma repeat_char_add (a b : Z) :
  (0 <= a)%Z -> (0 <= b)%Z ->
  Py.repeat_char " " b +:+ Py.repeat_char " " a = Py.repeat_char " " (a + b).
Proof.
  intros Ha Hb. unfold Py.repeat_char.
  rewrite Z2Nat.inj_add by lia. rewrite Nat.add_comm, repeat_app.
  induction (Z.to_nat b) as [|k IH]; simpl; [reflexivity | now rewrite IH].
Qed.

Lemma indent_lines (text : string) (n : Z) :
  Py.split Py.LF (Figures.indent text n)
  = map (fun line => Py.repeat_char " " n +:+ line) (Py.split Py.LF text).
Proof.
  unfold Figures.indent. apply split_join.
  - pose proof (split_not_nil Py.LF text). destruct (Py.split Py.LF text);
      [congruence | discriminate].
  - apply Forall_map. eapply Forall_impl; [apply split_lines_lf_free |].
    intros r Hr. cbv beta. now rewrite forall_chars_app, repeat_char_lf_free, Hr.
Qed.

(** X14: [indent] works line by line: it keeps the number of lines, an
    indentation of zero or less gives the text back unchanged, and indenting
    twice is indenting once by the sum. *)
Theorem indent_line_by_line (text : string) :
  (forall n, length (Py.split Py.LF (Figures.indent text n))
             = length (Py.split Py.LF text))
  /\ (forall n, (n <= 0)%Z -> Figures.indent text n = text)
  /\ (forall a b, (0 <= a)%Z -> (0 <= b)%Z ->
        Figures.indent (Figures.indent text a) b = Figures.indent text (a + b)).
Proof.
  split; [| split].
  - intros n. now rewrite indent_lines, length_map.
  - intros n Hn. unfold Figures.indent, Py.repeat_char.
    replace (Z.to_nat n) with 0%nat by lia. simpl.
    rewrite map_id. apply join_split.
  - intros a b Ha Hb. unfold Figures.indent at 1. rewrite indent_lines.
    unfold Figures.indent. f_equal. rewrite map_map. apply map_ext.
    intros line. now rewrite <- append_assoc, repeat_char_add.
Qed.

End Indent.

Lemma indent_line_by_line_witness :
  Figures.indent ("a" +:+ Py.nl +:+ "b") 0 = "a" +:+ Py.nl +:+ "b"
  /\ Figures.indent (Figures.indent ("a" +:+ Py.nl +:+ "b") 2) 3
     = Figures.indent ("a" +:+ Py.nl +:+ "b") 5.
Proof.
  destruct (indent_line_by_line ("a" +:+ Py.nl +:+ "b")) as (_ & H0 & Hadd).
  split; [apply H0; lia | apply Hadd; lia].
Defined.

Ltac cli_simpl :=
  unfold mbind, mret, Cli_bind, Cli_ret, cli_bind, cli_ret, cli_perform,
    cli_lift, from_eff; simpl.

Section Create.
Import Pathlib.

Variable user_dir : PurePath.
Variable cfg : option (string -> string -> string).

(** A stripped text has no leading blank left. *)
Lemma lstrip_strip (t : string) : Py.lstrip (Py.strip t) = Py.strip t.
Proof.
  unfold Py.lstrip, Py.strip.
  assert (H : forall u, Py.lstrip_by Py.is_space (Py.lstrip_by Py.is_space u)
                        = Py.lstrip_by Py.is_space u).
  { induction u as [|c u IH]; simpl; [reflexivity |].
    destruct (Py.is_space c) eqn:Hc; [exact IH |]. simpl. now rewrite Hc. }
  generalize (H t). generalize (Py.lstrip_by Py.is_space t) as u.
  intros [|c u] Hu; [reflexivity |].
  simpl in Hu. destruct (Py.is_space c) eqn:Hc.
  - exfalso. clear -Hu. apply (f_equal String.length) in Hu. simpl in Hu.
    assert (Hle : forall v, (String.length (Py.lstrip_by Py.is_space v)
                             <= String.length v)%nat).
    { induction v as [|d v IH]; simpl; [lia |].
      destruct (Py.is_space d); simpl; lia. }
    specialize (Hle u). lia.
  - simpl. destruct (Py.rstrip_by Py.is_space u);
      rewrite ?Hc; simpl; rewrite ?Hc; reflexivity.
Qed.

Lemma create_leading_spaces (title : string) :
  (Py.len (Py.strip title) - Py.len (Py.lstrip (Py.strip title)))%Z = 0%Z.
Proof. rewrite lstrip_strip. lia. Qed.

Lemma indent_zero (text : string) : Figures.indent text 0 = text.
Proof.
  unfold Figures.indent. change (Py.repeat_char " " 0) with "". simpl.
  rewrite map_id. apply join_split.
Qed.

(** X15: [create] for a figure that does not exist yet, with an ASCII title
    and a figures directory whose path can be encoded, copies the template
    to the new file, registers the figures directory with [add_root], opens
    the new file in the editor and prints the snippet for the stripped title.
    The snippet is never indented, whatever blanks the title came with: the
    indentation is measured after the title was stripped. *)
Theorem create_new_figure
    (w : World) (h : Host) (f : RootsFile) (title root : string)
    (roots : list string) :
  let figures := absolute (getcwd h) (parse root) in
  let figure_path :=
    joinpath figures
      (Py.lower (Py.replace " " "-" (Py.strip title)) +:+ ".svg") in
  Py.isascii title = true ->
  Py.utf8_valid (str figures) = true ->
  path_exists h (str figures) = true \/ is_ok (mkdir h (str figures)) = true ->
  path_exists h (str figure_path) = false ->
  is_ok (shutil_copy h (str (Figures.template user_dir)) (str figure_path)) = true ->
  Figures.get_roots f = Ok roots ->
  is_ok (popen w ["inkscape"; str figure_path]) = true ->
  exists f',
    cli_outcome (Figures.create user_dir cfg w h f title root) = Ok f'
    /\ outcome (Figures.add_root (PathObj figures) f) = Ok f'
    /\ registry_after (trace (Figures.add_root (PathObj figures) f)) f = f'
    /\ printed (cli_trace (Figures.create user_dir cfg w h f title root))
       = [Figures.current_latex_template cfg (stem figure_path) (Py.strip title)]
    /\ started (shared (cli_trace (Figures.create user_dir cfg w h f title root)))
       = [["inkscape"; str figure_path]]
    /\ In (CopyFile (str (Figures.template user_dir)) (str figure_path))
          (cli_trace (Figures.create user_dir cfg w h f title root)).
Proof.
  intros figures figure_path _ Hvalid Hdir Hnew Hcopy Hroots Hpopen.
  unfold Figures.create. fold figures. fold figure_path.
  rewrite create_leading_spaces, indent_zero, Hnew.
  destruct (shutil_copy h _ _) as [u1|] eqn:Hc; [| discriminate].
  destruct (popen w _) as [u2|] eqn:Hp; [| discriminate].
  assert (Hadd : exists t f', Figures.add_root (PathObj figures) f = (t, Ok f')
                              /\ started t = []
                              /\ registry_after t f = f').
  { destruct (Figures.contains (to_str (PathObj figures)) roots) eqn:Hin.
    - rewrite (add_root_present _ f roots Hroots Hin). eauto.
    - rewrite (add_root_absent _ f roots Hroots Hin Hvalid). eauto. }
  destruct Hadd as (ta & f' & Hadd & Hstarted & Hafter).
  exists f'. unfold Figures.inkscape. cli_simpl. unfold perform.
  rewrite Hadd, ?Hc, ?Hp. simpl.
  assert (Hsh : forall t, shared (map Shared t) = t).
  { induction t as [|e t IH]; simpl; [reflexivity | now rewrite IH]. }
  assert (Hpr : forall t r, printed (map Shared t ++ r) = printed r).
  { induction t as [|e t IH]; intros r; simpl; [reflexivity | apply IH]. }
  assert (Hsa : forall t r, shared (map Shared t ++ r) = t ++ shared r).
  { induction t as [|e t IH]; intros r; simpl; [reflexivity | now rewrite IH]. }
  assert (Hst : forall t r, started (t ++ r) = started t ++ started r).
  { induction t as [|e t IH]; intros r; simpl; [reflexivity |].
    destruct e; simpl; now rewrite ?IH. }
  destruct Hdir as [Hex | Hmk].
  - rewrite Hex. simpl. rewrite Hpr, Hsa, Hst, Hstarted. simpl.
    repeat split; auto.
  - destruct (path_exists h (str figures)); simpl.
    + rewrite Hpr, Hsa, Hst, Hstarted. simpl. repeat split; auto.
    + destruct (mkdir h (str figures)); [| discriminate]. simpl.
      rewrite Hpr, Hsa, Hst, Hstarted. simpl. repeat split; auto.
Qed.

(** X16: [create] for a figure that exists already does nothing but print
    the stripped title followed by [" 2"]: the file is not overwritten, the
    registry is not touched and no editor is started. *)
Theorem create_existing_figure
    (w : World) (h : Host) (f : RootsFile) (title root : string) :
  let figures := absolute (getcwd h) (parse root) in
  let figure_path :=
    joinpath figures
      (Py.lower (Py.replace " " "-" (Py.strip title)) +:+ ".svg") in
  path_exists h (str figures) = true \/ is_ok (mkdir h (str figures)) = true ->
  path_exists h (str figure_path) = true ->
  cli_outcome (Figures.create user_dir cfg w h f title root) = Ok f
  /\ printed (cli_trace (Figures.create user_dir cfg w h f title root))
     = [Py.strip title +:+ " 2"]
  /\ shared (cli_trace (Figures.create user_dir cfg w h f title root)) = []
  /\ (forall s d, ~ In (CopyFile s d)
                       (cli_trace (Figures.create user_dir cfg w h f title root))).
Proof.
  intros figures figure_path Hdir Hold.
  unfold Figures.create. fold figures. fold figure_path. rewrite Hold.
  cli_simpl.
  destruct Hdir as [Hex | Hmk].
  - rewrite Hex. simpl. repeat split; auto. intros s d [Hc | []]. discriminate.
  - destruct (path_exists h (str figures)); simpl.
    + repeat split; auto. intros s d [Hc | []]. discriminate.
    + destruct (mkdir h (str figures)); [| discriminate]. simpl.
      repeat split; auto. intros s d [Hc | [Hc | []]]; discriminate.
Qed.

(** X25: [create] in a figures directory whose path cannot be encoded, for
    an ASCII title: the template is copied to the new file, then [add_root]
    fails on writing the registry, which it leaves empty; the command ends
    with [UnicodeEncodeError] before the editor is started or anything is
    printed. *)
Theorem create_in_unencodable_directory
    (w : World) (h : Host) (f : RootsFile) (title root : string)
    (roots : list string) :
  let figures := absolute (getcwd h) (parse root) in
  let figure_path :=
    joinpath figures
      (Py.lower (Py.replace " " "-" (Py.strip title)) +:+ ".svg") in
  Py.isascii title = true ->
  Py.utf8_valid (str figures) = false ->
  path_exists h (str figures) = true \/ is_ok (mkdir h (str figures)) = true ->
  path_exists h (str figure_path) = false ->
  is_ok (shutil_copy h (str (Figures.template user_dir)) (str figure_path)) = true ->
  Figures.get_roots f = Ok roots ->
  cli_outcome (Figures.create user_dir cfg w h f title root)
  = Raise UnicodeEncodeError
  /\ In (CopyFile (str (Figures.template user_dir)) (str figure_path))
        (cli_trace (Figures.create user_dir cfg w h f title root))
  /\ registry_after
       (shared (cli_trace (Figures.create user_dir cfg w h f title root))) f
     = Some ""
  /\ started (shared (cli_trace (Figures.create user_dir cfg w h f title root)))
     = []
  /\ printed (cli_trace (Figures.create user_dir cfg w h f title root)) = [].
Proof.
  intros figures figure_path _ Hvalid Hdir Hnew Hcopy Hroots.
  unfold Figures.create. fold figures. fold figure_path.
  rewrite Hnew.
  destruct (shutil_copy h _ _) as [u1|] eqn:Hc; [| discriminate].
  destruct (add_root_unencodable (PathObj figures) f roots Hroots Hvalid)
    as [_ Hadd].
  cli_simpl. rewrite Hadd, ?Hc. simpl.
  destruct Hdir as [Hex | Hmk].
  - rewrite Hex. simpl. repeat split; auto.
  - destruct (path_exists h (str figures)); simpl.
    + repeat split; auto.
    + destruct (mkdir h (str figures)); [| discriminate]. simpl.
      repeat split; auto.
Qed.

End Create.

Lemma create_new_figure_witness :
  exists f',
    cli_outcome (Figures.create sample_user_dir None (sample_world "Inkscape 1.2.0" 0)
                   (sample_host ["/home/u/notes/figures"] [] 0 "")
                   (Some "/tmp/a") "  My Figure 2 " "figures") = Ok f'
    /\ printed (cli_trace
                  (Figures.create sample_user_dir None (sample_world "Inkscape 1.2.0" 0)
                     (sample_host ["/home/u/notes/figures"] [] 0 "")
                     (Some "/tmp/a") "  My Figure 2 " "figures"))
       = [Figures.latex_template "my-figure-2" "My Figure 2"].
Proof.
  destruct (create_new_figure sample_user_dir None (sample_world "Inkscape 1.2.0" 0)
              (sample_host ["/home/u/notes/figures"] [] 0 "")
              (Some "/tmp/a") "  My Figure 2 " "figures" ["/tmp/a"]
              eq_refl eq_refl (or_introl eq_refl) eq_refl eq_refl eq_refl eq_refl)
    as (f' & Hout & _ & _ & Hprinted & _).
  exact (ex_intro _ f' (conj Hout Hprinted)).
Defined.

Lemma create_in_unencodable_directory_witness :
  cli_outcome (Figures.create sample_user_dir None (sample_world "Inkscape 1.2.0" 0)
                 (sample_host ["/home/u/notes/fig" +:+ String "255" ""] [] 0 "")
                 (Some "/tmp/a") "My Figure" ("fig" +:+ String "255" ""))
  = Raise UnicodeEncodeError
  /\ started (shared (cli_trace
                        (Figures.create sample_user_dir None
                           (sample_world "Inkscape 1.2.0" 0)
                           (sample_host ["/home/u/notes/fig" +:+ String "255" ""] [] 0 "")
                           (Some "/tmp/a") "My Figure" ("fig" +:+ String "255" ""))))
     = [].
Proof.
  destruct (create_in_unencodable_directory sample_user_dir None
              (sample_world "Inkscape 1.2.0" 0)
              (sample_host ["/home/u/notes/fig" +:+ String "255" ""] [] 0 "")
              (Some "/tmp/a") "My Figure" ("fig" +:+ String "255" "") ["/tmp/a"]
              eq_refl eq_refl (or_introl eq_refl) eq_refl eq_refl eq_refl)
    as (Hout & _ & _ & Hstarted & _).
  exact (conj Hout Hstarted).
Defined.

Lemma create_existing_figure_witness :
  cli_outcome (Figures.create sample_user_dir None (sample_world "Inkscape 1.2.0" 0)
                 (sample_host ["/home/u/notes/figures";
                               "/home/u/notes/figures/my-figure-2.svg"] [] 0 "")
                 (Some "/tmp/a") "  My Figure 2 " "figures") = Ok (Some "/tmp/a")
  /\ printed (cli_trace
                (Figures.create sample_user_dir None (sample_world "Inkscape 1.2.0" 0)
                   (sample_host ["/home/u/notes/figures";
                                 "/home/u/notes/figures/my-figure-2.svg"] [] 0 "")
                   (Some "/tmp/a") "  My Figure 2 " "figures"))
     = ["My Figure 2 2"].
Proof.
  destruct (create_existing_figure sample_user_dir None (sample_world "Inkscape 1.2.0" 0)
              (sample_host ["/home/u/notes/figures";
                            "/home/u/notes/figures/my-figure-2.svg"] [] 0 "")
              (Some "/tmp/a") "  My Figure 2 " "figures"
              (or_introl eq_refl) eq_refl) as (Hout & Hprinted & _).
  exact (conj Hout Hprinted).
Defined.

Section CreatedFigure.
Import Pathlib.

Ltac by_cases_on c :=
  destruct c as [[|] [|] [|] [|] [|] [|] [|] [|]]; vm_compute; auto.






End CreatedFigure.


Section Select.
Import Pathlib.

Lemma rstrip_by_idempotent (p : ascii -> bool) (u : string) :
  Py.rstrip_by p (Py.rstrip_by p u) = Py.rstrip_by p u.
Proof.
  induction u as [|c u IH]; [reflexivity |].
  cbn [Py.rstrip_by]. destruct (Py.rstrip_by p u) as [|d r] eqn:E.
  - destruct (p c) eqn:Hc; [reflexivity |]. cbn [Py.rstrip_by]. now rewrite Hc.
  - cbn [Py.rstrip_by] in *. now rewrite IH.
Qed.

Lemma strip_idempotent (s : string) : Py.strip (Py.strip s) = Py.strip s.
Proof.
  pose proof (lstrip_strip s) as H. unfold Py.lstrip in H.
  unfold Py.strip at 1. rewrite H. unfold Py.strip. apply rstrip_by_idempotent.
Qed.

Lemma index_found (x : string) (l : list string) (i : Z) :
  Py.index x l = Ok i ->
  (0 <= i < Z.of_nat (length l))%Z
  /\ nth_error l (Z.to_nat i) = Some x
  /\ (forall j, (j < Z.to_nat i)%nat -> nth_error l j <> Some x).
Proof.
  revert i. induction l as [|y l IH]; intros i; [discriminate |].
  cbn [Py.index]. destruct (String.eqb_spec y x) as [->|Hne].
  - intros [= <-]. simpl. repeat split; lia.
  - destruct (Py.index x l) as [k|] eqn:Hk; [| discriminate].
    intros [= <-]. destruct (IH k eq_refl) as (Hrange & Hnth & Hfirst).
    replace (Z.to_nat (k + 1)) with (S (Z.to_nat k)) by lia.
    simpl length. repeat split; try lia; [exact Hnth |].
    intros [|j] Hj; simpl; [congruence | apply Hfirst; lia].
Qed.

Lemma index_not_found (x : string) (l : list string) (e : exn) :
  Py.index x l = Raise e -> e = ValueError /\ ~ In x l.
Proof.
  induction l as [|y l IH]; cbn [Py.index].
  - intros [= <-]. auto.
  - destruct (String.eqb_spec y x) as [->|Hne]; [discriminate |].
    destruct (Py.index x l) as [k|e'] eqn:Hk; [discriminate |].
    intros [= <-]. destruct (IH eq_refl) as [-> Hnot].
    split; [reflexivity |]. intros [Hc | Hc]; congruence.
Qed.

Lemma select_eq (h : Host) (prompt : string) (options rofi_args : list string)
    (fuzzy : bool) (returncode : Z) (stdout : string) :
  rofi h (((if fuzzy then ["rofi"; "-markup"; "-matching"; "fuzzy"]
            else ["rofi"; "-markup"])
           ++ ["-dmenu"; "-p"; prompt; "-format"; "s"; "-i"]) ++ rofi_args)
         (Py.join Py.nl (map (Py.replace Py.LF " ") options))
  = Ok (returncode, stdout) ->
  Main.select h prompt options rofi_args fuzzy
  = ([Rofi (((if fuzzy then ["rofi"; "-markup"; "-matching"; "fuzzy"]
              else ["rofi"; "-markup"])
             ++ ["-dmenu"; "-p"; prompt; "-format"; "s"; "-i"]) ++ rofi_args)
           (Py.join Py.nl (map (Py.replace Py.LF " ") options))],
     Ok ((if (9 <? returncode)%Z then returncode - 9 else -1)%Z,
         match Py.index (Py.strip stdout) (map Py.strip options) with
         | Ok i => i
         | Raise _ => (-1)%Z
         end,
         Py.strip stdout)).
Proof.
  intros Hrofi. unfold Main.select. cli_simpl.
  destruct fuzzy; simpl in Hrofi |- *; rewrite Hrofi; simpl;
    rewrite strip_idempotent; destruct (9 <? returncode)%Z; reflexivity.
Qed.

(** X18: what [select] returns for a picker that exits with [returncode]
    after printing [stdout]: the selection is the stripped output; the index
    is the position of the first option that equals it once stripped, and -1
    when there is none; the code is [returncode - 9] above 9 and -1
    otherwise, so an exit status 0 is reported as -1 and the code is never
    0. *)
Theorem select_result (h : Host) (prompt : string) (options rofi_args : list string)
    (fuzzy : bool) (returncode : Z) (stdout : string) :
  rofi h (((if fuzzy then ["rofi"; "-markup"; "-matching"; "fuzzy"]
            else ["rofi"; "-markup"])
           ++ ["-dmenu"; "-p"; prompt; "-format"; "s"; "-i"]) ++ rofi_args)
         (Py.join Py.nl (map (Py.replace Py.LF " ") options))
  = Ok (returncode, stdout) ->
  exists code index,
    cli_outcome (Main.select h prompt options rofi_args fuzzy)
    = Ok (code, index, Py.strip stdout)
    /\ code = (if (9 <? returncode)%Z then returncode - 9 else -1)%Z
    /\ code <> 0%Z
    /\ ((index = (-1)%Z /\ ~ In (Py.strip stdout) (map Py.strip options))
        \/ ((0 <= index < Z.of_nat (length options))%Z
            /\ nth_error (map Py.strip options) (Z.to_nat index)
               = Some (Py.strip stdout)
            /\ forall j, (j < Z.to_nat index)%nat ->
                         nth_error (map Py.strip options) j
                         <> Some (Py.strip stdout))).
Proof.
  intros Hrofi. rewrite (select_eq h prompt options rofi_args fuzzy _ _ Hrofi).
  eexists. eexists. split; [reflexivity |]. split; [reflexivity |]. split.
  - destruct (Z.ltb_spec 9 returncode); lia.
  - destruct (Py.index (Py.strip stdout) (map Py.strip options)) as [i|e] eqn:Hi.
    + right. destruct (index_found _ _ _ Hi) as (Hrange & Hnth & Hfirst).
      rewrite length_map in Hrange. auto.
    + left. destruct (index_not_found _ _ _ Hi) as [_ Hnot]. auto.
Qed.

Lemma replace_lf_free (s : string) :
  Py.forall_chars Py.not_lf (Py.replace Py.LF " " s) = true.
Proof.
  unfold Py.replace. induction s as [|c s IH]; simpl; [reflexivity |].
  rewrite IH, andb_true_r. unfold Py.not_lf.
  destruct (Ascii.eqb_spec c Py.LF) as [->|Hne]; [reflexivity |].
  apply negb_true_iff, Ascii.eqb_neq, Hne.
Qed.

(** X19: the picker is given exactly one line per option, in order: a line
    break inside an option is turned into a blank before the options are
    joined, so that line [i] of the input is option [i]. *)
Theorem select_input_has_one_line_per_option
    (h : Host) (prompt : string) (options rofi_args : list string) (fuzzy : bool) :
  options <> [] ->
  exists args input rest,
    cli_trace (Main.select h prompt options rofi_args fuzzy)
    = Rofi args input :: rest
    /\ Py.split Py.LF input = map (Py.replace Py.LF " ") options
    /\ length (Py.split Py.LF input) = length options.
Proof.
  intros Hne.
  assert (Hsplit : Py.split Py.LF (Py.join Py.nl (map (Py.replace Py.LF " ") options))
                   = map (Py.replace Py.LF " ") options).
  { apply split_join.
    - destruct options; [congruence | discriminate].
    - apply Forall_map, Forall_forall. intros x _. apply replace_lf_free. }
  unfold Main.select. cli_simpl.
  destruct (rofi h _ _) as [[rc out]|e]; simpl.
  - destruct (9 <? rc)%Z; simpl; eexists; eexists; eexists;
      (split; [reflexivity |]); rewrite Hsplit, length_map; auto.
  - eexists; eexists; eexists;
      (split; [reflexivity |]); rewrite Hsplit, length_map; auto.
Qed.

End Select.

Lemma select_result_witness :
  exists code index,
    cli_outcome (Main.select (sample_host [] [] 0 (" B c" +:+ Py.nl)) "Select figure"
                   ["A"; " b c"; "B c"] [] true)
    = Ok (code, index, "B c")
    /\ code = (-1)%Z.
Proof.
  destruct (select_result (sample_host [] [] 0 (" B c" +:+ Py.nl)) "Select figure"
              ["A"; " b c"; "B c"] [] true 0 (" B c" +:+ Py.nl) eq_refl)
    as (code & index & Hout & Hcode & _).
  exact (ex_intro _ code (ex_intro _ index (conj Hout Hcode))).
Defined.

Lemma select_input_has_one_line_per_option_witness :
  exists args input rest,
    cli_trace (Main.select (sample_host [] [] 0 "") "Select figure"
                 ["A"; "b" +:+ Py.nl +:+ "c"] [] true)
    = Rofi args input :: rest
    /\ length (Py.split Py.LF input) = 2%nat.
Proof.
  destruct (select_input_has_one_line_per_option (sample_host [] [] 0 "")
              "Select figure" ["A"; "b" +:+ Py.nl +:+ "c"] [] true
              ltac:(discriminate))
    as (args & input & rest & Htrace & _ & Hlen).
  exact (ex_intro _ args (ex_intro _ input (ex_intro _ rest (conj Htrace Hlen)))).
Defined.

Section SortedReverse.

Context {A : Type}.

(** [b] may come after [a] in a list sorted by decreasing key. *)
Let not_before (a b : QArith_base.Q * A) : Prop :=
  QArith_base.Qle (fst b) (fst a).

Lemma insert_reverse_perm (x : QArith_base.Q * A) (l : list (QArith_base.Q * A)) :
  Permutation (Py.insert_reverse x l) (x :: l).
Proof.
  induction l as [|y l IH]; simpl; [reflexivity |].
  destruct (QArith_base.Qle_bool (fst y) (fst x)); [reflexivity |].
  rewrite IH. apply perm_swap.
Qed.

Lemma sort_reverse_perm (l : list (QArith_base.Q * A)) :
  Permutation (fold_right Py.insert_reverse [] l) l.
Proof.
  induction l as [|x l IH]; simpl; [reflexivity |].
  now rewrite insert_reverse_perm, IH.
Qed.

Lemma insert_reverse_sorted (x : QArith_base.Q * A) (l : list (QArith_base.Q * A)) :
  Sorted.StronglySorted not_before l ->
  Sorted.StronglySorted not_before (Py.insert_reverse x l).
Proof.
  induction 1 as [|y l Hl IH Hy]; simpl.
  - constructor; constructor.
  - destruct (QArith_base.Qle_bool (fst y) (fst x)) eqn:Hle.
    + apply QArith_base.Qle_bool_iff in Hle.
      constructor; [constructor; assumption |].
      constructor; [exact Hle |].
      eapply List.Forall_impl; [| exact Hy]. intros z Hz. unfold not_before in *.
      eapply QArith_base.Qle_trans; eassumption.
    + constructor; [exact IH |].
      assert (Hlt : QArith_base.Qle (fst x) (fst y)).
      { destruct (QArith_base.Qlt_le_dec (fst x) (fst y)) as [Hlt | Hge].
        - now apply QArith_base.Qlt_le_weak.
        - apply QArith_base.Qle_bool_iff in Hge. congruence. }
      apply List.Forall_forall. intros z Hz.
      apply (Permutation_in _ (insert_reverse_perm x l)) in Hz.
      destruct Hz as [<- | Hz]; [exact Hlt |].
      rewrite List.Forall_forall in Hy. now apply Hy.
Qed.

Lemma sort_reverse_sorted (l : list (QArith_base.Q * A)) :
  Sorted.StronglySorted not_before (fold_right Py.insert_reverse [] l).
Proof.
  induction l as [|x l IH]; simpl; [constructor |].
  now apply insert_reverse_sorted.
Qed.

(** Elements with the same key keep their order. *)
Lemma insert_reverse_stable (k : QArith_base.Q) (x : QArith_base.Q * A)
    (l : list (QArith_base.Q * A)) :
  Sorted.StronglySorted not_before l ->
  List.filter (fun p => QArith_base.Qeq_bool (fst p) k) (Py.insert_reverse x l)
  = List.filter (fun p => QArith_base.Qeq_bool (fst p) k) (x :: l).
Proof.
  induction 1 as [|y l Hl IH Hy]; [reflexivity |].
  cbn [Py.insert_reverse].
  destruct (QArith_base.Qle_bool (fst y) (fst x)) eqn:Hle; [reflexivity |].
  cbn [List.filter] in *. rewrite IH.
  destruct (QArith_base.Qeq_bool (fst x) k) eqn:Hx; [| reflexivity].
  destruct (QArith_base.Qeq_bool (fst y) k) eqn:Hyk; [| reflexivity].
  exfalso. apply QArith_base.Qeq_bool_iff in Hx, Hyk.
  assert (Hc : QArith_base.Qle (fst y) (fst x)).
  { rewrite Hx, Hyk. apply QArith_base.Qle_refl. }
  apply QArith_base.Qle_bool_iff in Hc. congruence.
Qed.

Lemma sort_reverse_stable (k : QArith_base.Q) (l : list (QArith_base.Q * A)) :
  List.filter (fun p => QArith_base.Qeq_bool (fst p) k)
              (fold_right Py.insert_reverse [] l)
  = List.filter (fun p => QArith_base.Qeq_bool (fst p) k) l.
Proof.
  induction l as [|x l IH]; [reflexivity |].
  cbn [fold_right]. rewrite insert_reverse_stable by apply sort_reverse_sorted.
  cbn [List.filter]. now rewrite IH.
Qed.

End SortedReverse.

Section Edit.
Import Pathlib.

Lemma getitem_at {A} (l : list A) (i : Z) (x : A) :
  (0 <= i)%Z -> nth_error l (Z.to_nat i) = Some x -> Py.getitem l i = Ok x.
Proof.
  intros Hi Hnth. unfold Py.getitem.
  assert (Hlt : (Z.to_nat i < length l)%nat) by (apply nth_error_Some; congruence).
  destruct (Z.ltb_spec i 0); [lia |].
  destruct (Z.leb_spec 0 i); [| lia].
  destruct (Z.ltb_spec i (Z.of_nat (length l))); [| lia].
  simpl. now rewrite Hnth.
Qed.

Lemma last_cons_default {A} (l : list A) (z x y : A) :
  List.last (z :: l) x = List.last (z :: l) y.
Proof.
  revert z. induction l as [|u l IH]; intros z; [reflexivity |].
  change (List.last (u :: l) x = List.last (u :: l) y). apply IH.
Qed.

Lemma nth_error_length_last {A} (l : list A) (x : A) :
  nth_error (x :: l) (length l) = Some (List.last l x).
Proof.
  revert x. induction l as [|y l IH]; intros x; [reflexivity |].
  change (nth_error (y :: l) (length l) = Some (List.last (y :: l) x)).
  rewrite IH. f_equal. destruct l as [|u l]; [reflexivity |].
  change (List.last (u :: l) y = List.last (u :: l) x).
  apply last_cons_default.
Qed.

Lemma getitem_minus_one {A} (l : list A) :
  Py.getitem l (-1)
  = match l with
    | [] => Raise IndexError
    | x :: l' => Ok (List.last l' x)
    end.
Proof.
  unfold Py.getitem. destruct l as [|x l']; [reflexivity |].
  change ((-1 <? 0)%Z) with true. cbv iota.
  destruct (Z.leb_spec 0 (-1 + Z.of_nat (length (x :: l'))));
    [| simpl length in *; lia].
  destruct (Z.ltb_spec (-1 + Z.of_nat (length (x :: l')))
                       (Z.of_nat (length (x :: l')))); [| lia].
  simpl andb. cbv iota.
  replace (Z.to_nat (-1 + Z.of_nat (length (x :: l')))) with (length l')
    by (simpl length; lia).
  now rewrite nth_error_length_last.
Qed.

Lemma cli_bind_ret_l {A B} (x : A) (k : A -> Cli B) :
  cli_bind ([], Ok x) k = k x.
Proof. unfold cli_bind. now destruct (k x). Qed.

Lemma shared_app (t1 t2 : list cli_effect) :
  shared (t1 ++ t2) = shared t1 ++ shared t2.
Proof.
  induction t1 as [|e t1 IH]; simpl; [reflexivity |].
  destruct e; simpl; now rewrite ?IH.
Qed.

Lemma shared_map (t : list effect) : shared (map Shared t) = t.
Proof. induction t as [|e t IH]; simpl; [reflexivity | now rewrite IH]. Qed.

Lemma started_app (t1 t2 : list effect) :
  started (t1 ++ t2) = started t1 ++ started t2.
Proof.
  induction t1 as [|e t1 IH]; simpl; [reflexivity |].
  destruct e; simpl; now rewrite ?IH.
Qed.

Lemma addRoot_trace (x : pathlike) (f : RootsFile) (roots : list string) :
  Main.getRoots f = Ok roots ->
  Py.utf8_valid (to_str x) = true ->
  exists t f', Main.addRoot x f = (t, Ok f')
               /\ started t = [] /\ snippets t = []
               /\ registry_after t f = f'.
Proof.
  intros Hroots Hvalid. change (Main.addRoot x f) with (Figures.add_root x f).
  change (Main.getRoots f) with (Figures.get_roots f) in Hroots.
  destruct (Figures.contains (to_str x) roots) eqn:Hin.
  - rewrite (add_root_present _ f roots Hroots Hin). eauto 10.
  - rewrite (add_root_absent _ f roots Hroots Hin Hvalid). eauto 10.
Qed.

(** With a directory whose path cannot be encoded, [addRoot] raises. *)
Lemma addRoot_unencodable (x : pathlike) (f : RootsFile) (roots : list string) :
  Main.getRoots f = Ok roots ->
  Py.utf8_valid (to_str x) = false ->
  Main.addRoot x f = ([WriteText ""], Raise UnicodeEncodeError).
Proof.
  intros Hroots Hvalid. change (Main.addRoot x f) with (Figures.add_root x f).
  change (Main.getRoots f) with (Figures.get_roots f) in Hroots.
  now destruct (add_root_unencodable x f roots Hroots Hvalid).
Qed.

Variable w : World.
Variable h : Host.
Variable f : RootsFile.
Variable root : string.

(** The figures directory, the files in the order in which they are
    offered, and their names in the picker. *)
Let figures : PurePath := absolute (getcwd h) (parse root).
Let files : list PurePath := glob h (str figures) "*.svg".
Let offered (mtimes : list QArith_base.Q) : list PurePath :=
  Py.sorted_reverse (combine mtimes files).
Let names (mtimes : list QArith_base.Q) : list string :=
  map (fun file => Main.beautify (stem file)) (offered mtimes).
Let picker_args : list string :=
  ["rofi"; "-markup"; "-matching"; "fuzzy"; "-dmenu"; "-p"; "Select figure";
   "-format"; "s"; "-i"].
Let picker_input (mtimes : list QArith_base.Q) : string :=
  Py.join Py.nl (map (Py.replace Py.LF " ") (names mtimes)).

(** What is left of [edit] once the picker has answered with a selection
    that is not empty. *)
Lemma edit_after_selection (mtimes : list QArith_base.Q) (returncode : Z)
    (stdout : string) :
  Py.map_result (fun file => st_mtime h (str file)) files = Ok mtimes ->
  rofi h picker_args (picker_input mtimes) = Ok (returncode, stdout) ->
  Main.edit w h f root
  = cli_bind ([Rofi picker_args (picker_input mtimes)], Ok tt)
      (fun _ =>
         if negb (String.eqb (Py.strip stdout) "") then
           cli_bind
             (cli_lift
                (Py.getitem (offered mtimes)
                   match Py.index (Py.strip stdout) (map Py.strip (names mtimes)) with
                   | Ok i => i
                   | Raise _ => (-1)%Z
                   end))
             (fun path =>
                cli_bind (from_eff (Main.addRoot (PathObj figures) f))
                  (fun f' =>
                     cli_bind (from_eff (Main.inkscape w path))
                       (fun _ =>
                          cli_bind
                            (from_eff
                               (perform
                                  (ClipboardCopy
                                     (Main.latexTemplate (stem path)
                                        (Main.beautify (stem path))))
                                  (pyperclip_copy w
                                     (Main.latexTemplate (stem path)
                                        (Main.beautify (stem path))))))
                            (fun _ =>
                               cli_bind
                                 (from_eff (log DEBUG (Fmt "Copying LaTeX template:" [])))
                                 (fun _ =>
                                    cli_bind
                                      (from_eff
                                         (log DEBUG
                                            (Indent
                                               (Main.latexTemplate (stem path)
                                                  (Main.beautify (stem path)))
                                               "    ")))
                                      (fun _ => cli_ret f'))))))
         else cli_ret f).
Proof.
  intros Hm Hrofi. unfold Main.edit. fold figures. fold files.
  rewrite Hm. unfold mbind at 1. unfold Cli_bind, cli_lift.
  rewrite cli_bind_ret_l. cbv zeta.
  change (Py.sorted_reverse (combine mtimes files)) with (offered mtimes).
  change (map (fun file => Main.beautify (stem file)) (offered mtimes))
    with (names mtimes).
  rewrite (select_eq h "Select figure" (names mtimes) [] true returncode stdout Hrofi).
  reflexivity.
Qed.

Lemma select_raises (prompt : string) (options rofi_args : list string)
    (fuzzy : bool) (e : exn) :
  rofi h (((if fuzzy then ["rofi"; "-markup"; "-matching"; "fuzzy"]
            else ["rofi"; "-markup"])
           ++ ["-dmenu"; "-p"; prompt; "-format"; "s"; "-i"]) ++ rofi_args)
         (Py.join Py.nl (map (Py.replace Py.LF " ") options))
  = Raise e ->
  Main.select h prompt options rofi_args fuzzy
  = ([Rofi (((if fuzzy then ["rofi"; "-markup"; "-matching"; "fuzzy"]
              else ["rofi"; "-markup"])
             ++ ["-dmenu"; "-p"; prompt; "-format"; "s"; "-i"]) ++ rofi_args)
           (Py.join Py.nl (map (Py.replace Py.LF " ") options))],
     Raise e).
Proof.
  intros Hrofi. unfold Main.select. cli_simpl.
  destruct fuzzy; simpl in Hrofi |- *; rewrite Hrofi; reflexivity.
Qed.

Lemma edit_picker_raises (mtimes : list QArith_base.Q) (e : exn) :
  Py.map_result (fun file => st_mtime h (str file)) files = Ok mtimes ->
  rofi h picker_args (picker_input mtimes) = Raise e ->
  Main.edit w h f root = ([Rofi picker_args (picker_input mtimes)], Raise e).
Proof.
  intros Hm Hrofi. unfold Main.edit. fold figures. fold files.
  rewrite Hm. unfold mbind at 1. unfold Cli_bind, cli_lift.
  rewrite cli_bind_ret_l. cbv zeta.
  change (Py.sorted_reverse (combine mtimes files)) with (offered mtimes).
  change (map (fun file => Main.beautify (stem file)) (offered mtimes))
    with (names mtimes).
  rewrite (select_raises "Select figure" (names mtimes) [] true e Hrofi).
  reflexivity.
Qed.

Lemma map_result_each {A B} (g : A -> result B) (l : list A) (ys : list B) :
  Py.map_result g l = Ok ys ->
  forall p, In p (combine ys l) -> g (snd p) = Ok (fst p).
Proof.
  revert ys. induction l as [|x l IH]; intros ys.
  - intros _ p Hp. destruct ys; destruct Hp.
  - cbn [Py.map_result]. destruct (g x) as [y|] eqn:Hy; [| discriminate].
    destruct (Py.map_result g l) as [ys'|] eqn:Hys; [| discriminate].
    intros [= <-] p [<- | Hp]; [exact Hy |]. now apply (IH ys').
Qed.

Lemma map_snd_combine_same_length {A B} (ys : list B) (l : list A) :
  length ys = length l -> map snd (combine ys l) = l.
Proof.
  revert ys. induction l as [|x l IH]; intros [|y ys]; try discriminate;
    [reflexivity |].
  intros [= Hlen]. simpl. now rewrite IH.
Qed.

(** X20: [edit] offers every svg file of the directory exactly once, the
    most recently modified first, files with the same modification time in
    the order of the listing; the picker is its first effect, and it is
    given the names in that order. *)
Theorem edit_offers_most_recent_first (mtimes : list QArith_base.Q) :
  Py.map_result (fun file => st_mtime h (str file)) files = Ok mtimes ->
  exists pairs rest,
    cli_trace (Main.edit w h f root)
    = Rofi picker_args
        (Py.join Py.nl
           (map (Py.replace Py.LF " ")
              (map (fun file => Main.beautify (stem file)) (map snd pairs))))
      :: rest
    /\ Permutation (map snd pairs) files
    /\ (forall p, In p pairs -> st_mtime h (str (snd p)) = Ok (fst p))
    /\ Sorted.StronglySorted
         (fun a b => QArith_base.Qle (fst b) (fst a)) pairs
    /\ (forall k,
          List.filter (fun p => QArith_base.Qeq_bool (fst p) k) pairs
          = List.filter (fun p => QArith_base.Qeq_bool (fst p) k)
              (combine mtimes files)).
Proof.
  intros Hm.
  exists (fold_right Py.insert_reverse [] (combine mtimes files)).
  assert (Hperm := sort_reverse_perm (combine mtimes files)).
  assert (Hhead : exists rest,
             cli_trace (Main.edit w h f root)
             = Rofi picker_args (picker_input mtimes) :: rest).
  { destruct (rofi h picker_args (picker_input mtimes)) as [[rc out]|e] eqn:Hrofi.
    - rewrite (edit_after_selection mtimes rc out Hm Hrofi).
      unfold cli_bind at 1.
      match goal with
      | |- context [let (_, _) := ?m in _] => destruct m as [t r]
      end.
      exists t. reflexivity.
    - rewrite (edit_picker_raises mtimes e Hm Hrofi). exists []. reflexivity. }
  destruct Hhead as [rest Hhead]. exists rest.
  split; [exact Hhead |]. split.
  - rewrite Hperm. rewrite map_snd_combine_same_length; [reflexivity |].
    eapply map_result_length, Hm.
  - split.
    + intros p Hp. apply (Permutation_in _ Hperm) in Hp.
      exact (map_result_each _ _ _ Hm p Hp).
    + split; [apply sort_reverse_sorted | intros k; apply sort_reverse_stable].
Qed.

(** X21: when the picker is dismissed, that is when its output is empty
    once stripped, [edit] does nothing after the picker: no editor is
    started, nothing is copied and the registry is left as it was. *)
Theorem edit_without_selection (mtimes : list QArith_base.Q) (returncode : Z)
    (stdout : string) :
  Py.map_result (fun file => st_mtime h (str file)) files = Ok mtimes ->
  rofi h picker_args (picker_input mtimes) = Ok (returncode, stdout) ->
  Py.strip stdout = "" ->
  Main.edit w h f root = ([Rofi picker_args (picker_input mtimes)], Ok f).
Proof.
  intros Hm Hrofi Hnone.
  rewrite (edit_after_selection mtimes returncode stdout Hm Hrofi).
  rewrite Hnone. reflexivity.
Qed.

(** What [edit] does with the file at the index that [select] returned. *)
Lemma edit_selected (mtimes : list QArith_base.Q) (returncode : Z)
    (stdout : string) (path : PurePath) (roots : list string) :
  Py.map_result (fun file => st_mtime h (str file)) files = Ok mtimes ->
  rofi h picker_args (picker_input mtimes) = Ok (returncode, stdout) ->
  Py.strip stdout <> "" ->
  Py.getitem (offered mtimes)
    match Py.index (Py.strip stdout) (map Py.strip (names mtimes)) with
    | Ok i => i
    | Raise _ => (-1)%Z
    end = Ok path ->
  Main.getRoots f = Ok roots ->
  Py.utf8_valid (str figures) = true ->
  exists t f' rest,
    Main.addRoot (PathObj figures) f = (t, Ok f')
    /\ started t = [] /\ snippets t = []
    /\ registry_after t f = f'
    /\ Main.edit w h f root
       = (Rofi picker_args (picker_input mtimes) :: map Shared t
            ++ Shared (Popen ["inkscape"; str path]) :: map Shared rest,
          match popen w ["inkscape"; str path] with
          | Ok _ =>
              match pyperclip_copy w
                      (Main.latexTemplate (stem path) (Main.beautify (stem path)))
              with
              | Ok _ => Ok f'
              | Raise e => Raise e
              end
          | Raise e => Raise e
          end)
    /\ started rest = []
    /\ snippets rest
       = match popen w ["inkscape"; str path] with
         | Ok _ => [Main.latexTemplate (stem path) (Main.beautify (stem path))]
         | Raise _ => []
         end.
Proof.
  intros Hm Hrofi Hsome Hitem Hroots Hvalid.
  destruct (addRoot_trace (PathObj figures) f roots Hroots Hvalid)
    as (t & f' & Hadd & Hstarted & Hsnippets & Hafter).
  rewrite (edit_after_selection mtimes returncode stdout Hm Hrofi).
  rewrite Hitem, Hadd.
  destruct (String.eqb_spec (Py.strip stdout) "") as [Hc | _]; [contradiction |].
  unfold Main.inkscape, cli_bind, cli_lift, cli_ret, from_eff, log, perform.
  cbn [negb fst snd map app].
  exists t, f'.
  destruct (popen w ["inkscape"; str path]) as [[]|e].
  - destruct (pyperclip_copy w _) as [[]|e].
    + exists [ClipboardCopy (Main.latexTemplate (stem path) (Main.beautify (stem path)));
              Log DEBUG (Fmt "Copying LaTeX template:" []);
              Log DEBUG (Indent (Main.latexTemplate (stem path)
                                   (Main.beautify (stem path))) "    ")].
      repeat split; assumption.
    + exists [ClipboardCopy (Main.latexTemplate (stem path) (Main.beautify (stem path)))].
      repeat split; assumption.
  - exists []. repeat split; assumption.
Qed.

Lemma started_shared_edit (t rest : list effect) (args : list string)
    (input : string) (argv : list string) :
  started t = [] -> started rest = [] ->
  started (shared (Rofi args input :: map Shared t
                     ++ Shared (Popen argv) :: map Shared rest))
  = [argv].
Proof.
  intros Ht Hrest. cbn [shared]. rewrite shared_app. cbn [shared].
  rewrite !shared_map, started_app. cbn [started]. now rewrite Ht, Hrest.
Qed.

Lemma snippets_shared_edit (t rest : list effect) (args : list string)
    (input : string) (argv : list string) :
  snippets t = [] ->
  snippets (shared (Rofi args input :: map Shared t
                      ++ Shared (Popen argv) :: map Shared rest))
  = snippets rest.
Proof.
  intros Ht. cbn [shared]. rewrite shared_app. cbn [shared].
  rewrite !shared_map, snippets_concat. cbn [snippets]. now rewrite Ht.
Qed.

(** X22: for ASCII file names and an ASCII answer of the picker, and a
    figures directory whose path can be encoded: when the stripped output
    of the picker is the stripped name of an offered file, [edit] opens the
    first file with that name in the order offered, that is the most
    recently modified one of that name: the directory is registered as by
    [addRoot], one editor is started on that file, and the snippet of that
    file is copied to the clipboard. *)
Theorem edit_opens_picked_figure (mtimes : list QArith_base.Q) (returncode : Z)
    (stdout : string) (k : Z) (roots : list string) :
  Forall (fun file => Py.isascii (stem file) = true) files ->
  Py.isascii stdout = true ->
  Py.utf8_valid (str figures) = true ->
  Py.map_result (fun file => st_mtime h (str file)) files = Ok mtimes ->
  rofi h picker_args (picker_input mtimes) = Ok (returncode, stdout) ->
  Py.strip stdout <> "" ->
  Py.index (Py.strip stdout) (map Py.strip (names mtimes)) = Ok k ->
  Main.getRoots f = Ok roots ->
  (forall argv, is_ok (popen w argv) = true) ->
  (forall text, is_ok (pyperclip_copy w text) = true) ->
  exists path f',
    nth_error (offered mtimes) (Z.to_nat k) = Some path
    /\ Py.strip (Main.beautify (stem path)) = Py.strip stdout
    /\ (forall j file,
          (j < Z.to_nat k)%nat -> nth_error (offered mtimes) j = Some file ->
          Py.strip (Main.beautify (stem file)) <> Py.strip stdout)
    /\ outcome (Main.addRoot (PathObj figures) f) = Ok f'
    /\ registry_after (trace (Main.addRoot (PathObj figures) f)) f = f'
    /\ cli_outcome (Main.edit w h f root) = Ok f'
    /\ started (shared (cli_trace (Main.edit w h f root)))
       = [["inkscape"; str path]]
    /\ snippets (shared (cli_trace (Main.edit w h f root)))
       = [Main.latexTemplate (stem path) (Main.beautify (stem path))].
Proof.
  intros _ _ Hvalid Hm Hrofi Hsome Hidx Hroots Hpopen Hcopy.
  destruct (index_found _ _ _ Hidx) as (Hrange & Hnth & Hfirst).
  unfold names in Hnth, Hfirst. rewrite map_map in Hnth, Hfirst.
  rewrite nth_error_map in Hnth.
  destruct (nth_error (offered mtimes) (Z.to_nat k)) as [path|] eqn:Hpath;
    [| discriminate].
  injection Hnth as Hname.
  assert (Hitem : Py.getitem (offered mtimes)
                    match Py.index (Py.strip stdout) (map Py.strip (names mtimes)) with
                    | Ok i => i
                    | Raise _ => (-1)%Z
                    end = Ok path).
  { rewrite Hidx. apply getitem_at; [lia | exact Hpath]. }
  destruct (edit_selected mtimes returncode stdout path roots Hm Hrofi Hsome
              Hitem Hroots Hvalid)
    as (t & f' & rest & Hadd & Hstarted & Hsnippets & Hafter & Hedit & Hrest & Hsnip).
  specialize (Hpopen ["inkscape"; str path]).
  specialize (Hcopy (Main.latexTemplate (stem path) (Main.beautify (stem path)))).
  destruct (popen w ["inkscape"; str path]) as [[]|]; [| discriminate].
  destruct (pyperclip_copy w _) as [[]|]; [| discriminate].
  exists path, f'. rewrite Hedit, Hadd.
  unfold cli_outcome, cli_trace, outcome, trace.
  cbn [fst snd].
  rewrite started_shared_edit, snippets_shared_edit by assumption.
  repeat split; try assumption.
  intros j file Hj Hfile Hc. apply (Hfirst j Hj).
  rewrite nth_error_map, Hfile. cbn [option_map]. now rewrite Hc.
Qed.

(** X23: for ASCII file names and an ASCII answer of the picker, and a
    figures directory whose path can be encoded: when the picker returns a
    text that is not empty and is the name of no offered file, the index is
    -1: [edit] opens the last file offered, the least recently modified one,
    and with no file at all it raises [IndexError] before the registry or an
    editor is touched. *)
Theorem edit_unlisted_selection_opens_last (mtimes : list QArith_base.Q)
    (returncode : Z) (stdout : string) (roots : list string) :
  Forall (fun file => Py.isascii (stem file) = true) files ->
  Py.isascii stdout = true ->
  Py.utf8_valid (str figures) = true ->
  Py.map_result (fun file => st_mtime h (str file)) files = Ok mtimes ->
  rofi h picker_args (picker_input mtimes) = Ok (returncode, stdout) ->
  Py.strip stdout <> "" ->
  ~ In (Py.strip stdout) (map Py.strip (names mtimes)) ->
  Main.getRoots f = Ok roots ->
  match offered mtimes with
  | [] =>
      Main.edit w h f root
      = ([Rofi picker_args (picker_input mtimes)], Raise IndexError)
  | file :: others =>
      started (shared (cli_trace (Main.edit w h f root)))
      = [["inkscape"; str (List.last others file)]]
  end.
Proof.
  intros _ _ Hvalid Hm Hrofi Hsome Hnot Hroots.
  assert (Hidx : match Py.index (Py.strip stdout) (map Py.strip (names mtimes)) with
                 | Ok i => i
                 | Raise _ => (-1)%Z
                 end = (-1)%Z).
  { destruct (Py.index _ _) as [i|e] eqn:Hi; [| reflexivity].
    destruct (index_found _ _ _ Hi) as (_ & Hnth & _).
    exfalso. apply Hnot. eapply nth_error_In, Hnth. }
  assert (Hitem := getitem_minus_one (offered mtimes)).
  destruct (offered mtimes) as [|file others] eqn:Hoffered.
  - rewrite (edit_after_selection mtimes returncode stdout Hm Hrofi).
    rewrite Hidx, Hoffered, Hitem.
    destruct (String.eqb_spec (Py.strip stdout) "") as [Hc | _]; [contradiction |].
    reflexivity.
  - rewrite <- Hoffered, <- Hidx in Hitem.
    destruct (edit_selected mtimes returncode stdout _ roots Hm Hrofi Hsome
                Hitem Hroots Hvalid)
      as (t & f' & rest & _ & Hstarted & _ & _ & Hedit & Hrest & _).
    rewrite Hedit. unfold cli_trace. cbn [fst].
    now apply started_shared_edit.
Qed.

(** X26: [edit] in a figures directory whose path cannot be encoded, for
    ASCII file names and an ASCII answer of the picker that names an offered
    file: [addRoot] fails on writing the registry, which it leaves empty;
    the command ends with [UnicodeEncodeError] before the editor is started,
    and nothing is copied to the clipboard. *)
Theorem edit_in_unencodable_directory (mtimes : list QArith_base.Q)
    (returncode : Z) (stdout : string) (k : Z) (roots : list string) :
  Forall (fun file => Py.isascii (stem file) = true) files ->
  Py.isascii stdout = true ->
  Py.utf8_valid (str figures) = false ->
  Py.map_result (fun file => st_mtime h (str file)) files = Ok mtimes ->
  rofi h picker_args (picker_input mtimes) = Ok (returncode, stdout) ->
  Py.strip stdout <> "" ->
  Py.index (Py.strip stdout) (map Py.strip (names mtimes)) = Ok k ->
  Main.getRoots f = Ok roots ->
  cli_outcome (Main.edit w h f root) = Raise UnicodeEncodeError
  /\ registry_after (shared (cli_trace (Main.edit w h f root))) f = Some ""
  /\ started (shared (cli_trace (Main.edit w h f root))) = []
  /\ snippets (shared (cli_trace (Main.edit w h f root))) = [].
Proof.
  intros _ _ Hvalid Hm Hrofi Hsome Hidx Hroots.
  destruct (index_found _ _ _ Hidx) as (Hrange & Hnth & _).
  unfold names in Hnth. rewrite map_map, nth_error_map in Hnth.
  destruct (nth_error (offered mtimes) (Z.to_nat k)) as [path|] eqn:Hpath;
    [| discriminate].
  rewrite (edit_after_selection mtimes returncode stdout Hm Hrofi).
  rewrite Hidx, (getitem_at _ _ path (proj1 Hrange) Hpath).
  rewrite (addRoot_unencodable (PathObj figures) f roots Hroots Hvalid).
  destruct (String.eqb_spec (Py.strip stdout) "") as [Hc | _]; [contradiction |].
  repeat split.
Qed.

End Edit.

Lemma edit_offers_most_recent_first_witness :
  exists (pairs : list (QArith_base.Q * Pathlib.PurePath)) rest,
    cli_trace (Main.edit (sample_world "Inkscape 1.2.0" 0)
                 (sample_host [] sample_files 0 "") (Some "") "figures")
    = Rofi ["rofi"; "-markup"; "-matching"; "fuzzy"; "-dmenu"; "-p";
            "Select figure"; "-format"; "s"; "-i"]
        (Py.join Py.nl
           (map (Py.replace Py.LF " ")
              (map (fun file => Main.beautify (Pathlib.stem file)) (map snd pairs))))
      :: rest
    /\ Permutation (map snd pairs) (map fst sample_files).
Proof.
  destruct (edit_offers_most_recent_first (sample_world "Inkscape 1.2.0" 0)
              (sample_host [] sample_files 0 "") (Some "") "figures"
              (map snd sample_files) eq_refl)
    as (pairs & rest & Htrace & Hperm & _).
  exact (ex_intro _ pairs (ex_intro _ rest (conj Htrace Hperm))).
Defined.

Lemma edit_without_selection_witness :
  Main.edit (sample_world "Inkscape 1.2.0" 0)
    (sample_host [] sample_files 1 (" " +:+ Py.nl)) (Some "") "figures"
  = ([Rofi ["rofi"; "-markup"; "-matching"; "fuzzy"; "-dmenu"; "-p";
            "Select figure"; "-format"; "s"; "-i"]
        ("New Plot" +:+ Py.nl +:+ "Old Plot")],
     Ok (Some "")).
Proof.
  exact (edit_without_selection (sample_world "Inkscape 1.2.0" 0)
           (sample_host [] sample_files 1 (" " +:+ Py.nl)) (Some "") "figures"
           (map snd sample_files) 1 (" " +:+ Py.nl) eq_refl eq_refl eq_refl).
Defined.

Lemma edit_opens_picked_figure_witness :
  exists path f',
    Pathlib.str path = "/home/u/notes/figures/old-plot.svg"
    /\ cli_outcome (Main.edit (sample_world "Inkscape 1.2.0" 0)
                      (sample_host [] sample_files 0 ("Old Plot" +:+ Py.nl))
                      (Some "") "figures")
       = Ok f'
    /\ started (shared (cli_trace
                          (Main.edit (sample_world "Inkscape 1.2.0" 0)
                             (sample_host [] sample_files 0 ("Old Plot" +:+ Py.nl))
                             (Some "") "figures")))
       = [["inkscape"; Pathlib.str path]].
Proof.
  destruct (edit_opens_picked_figure (sample_world "Inkscape 1.2.0" 0)
              (sample_host [] sample_files 0 ("Old Plot" +:+ Py.nl))
              (Some "") "figures" (map snd sample_files) 0
              ("Old Plot" +:+ Py.nl) 1 []
              ltac:(repeat constructor) eq_refl eq_refl eq_refl eq_refl
              ltac:(discriminate) eq_refl eq_refl
              (fun _ => eq_refl) (fun _ => eq_refl))
    as (path & f' & Hpath & _ & _ & _ & _ & Hout & Hstarted & _).
  injection Hpath as <-.
  exact (ex_intro _ (Pathlib.parse "/home/u/notes/figures/old-plot.svg")
           (ex_intro _ f' (conj eq_refl (conj Hout Hstarted)))).
Defined.

Lemma edit_in_unencodable_directory_witness :
  cli_outcome (Main.edit (sample_world "Inkscape 1.2.0" 0)
                 (sample_host [] sample_files 0 ("Old Plot" +:+ Py.nl))
                 (Some "/tmp/a") ("fig" +:+ String "255" ""))
  = Raise UnicodeEncodeError
  /\ started (shared (cli_trace
                        (Main.edit (sample_world "Inkscape 1.2.0" 0)
                           (sample_host [] sample_files 0 ("Old Plot" +:+ Py.nl))
                           (Some "/tmp/a") ("fig" +:+ String "255" ""))))
     = [].
Proof.
  destruct (edit_in_unencodable_directory (sample_world "Inkscape 1.2.0" 0)
              (sample_host [] sample_files 0 ("Old Plot" +:+ Py.nl))
              (Some "/tmp/a") ("fig" +:+ String "255" "")
              (map snd sample_files) 0 ("Old Plot" +:+ Py.nl) 1 ["/tmp/a"]
              ltac:(repeat constructor) eq_refl eq_refl eq_refl eq_refl
              ltac:(discriminate) eq_refl eq_refl)
    as (Hout & _ & Hstarted & _).
  exact (conj Hout Hstarted).
Defined.

Lemma edit_unlisted_selection_opens_last_witness :
  started (shared (cli_trace
                     (Main.edit (sample_world "Inkscape 1.2.0" 0)
                        (sample_host [] sample_files 0 ("plot" +:+ Py.nl))
                        (Some "") "figures")))
  = [["inkscape"; "/home/u/notes/figures/old-plot.svg"]].
Proof.
  exact (edit_unlisted_selection_opens_last (sample_world "Inkscape 1.2.0" 0)
           (sample_host [] sample_files 0 ("plot" +:+ Py.nl))
           (Some "") "figures" (map snd sample_files) 0 ("plot" +:+ Py.nl) []
           ltac:(repeat constructor) eq_refl eq_refl
           eq_refl eq_refl ltac:(discriminate)
           ltac:(vm_compute; intuition discriminate) eq_refl).
Defined.
